(** * autoassigner: selection strategies, availability checks and the
      assignment runner, embedded from the Go sources.

    Layout follows the Go packages: [selector] (roundrobin.go,
    least_assigned.go, random.go), [availability] (inout_checker.go,
    always_available.go) and [runner] (runner.go, defaults.go, factory.go).

    Conventions of the embedding
    - Go's [int] is the 64-bit two's complement integer of the release
      targets (amd64, arm64); it is a [Z] with the wrap-around written as
      [wrap]. [%] is Go's truncated remainder, [Z.rem].
    - Go strings are byte strings: Stdlib [string].
    - A Go function returning [(T, error)] returns the pair [T * option error];
      a function returning [error] returns [option error].
    - [map[string]int] is a [gmap string Z]; reading an absent key gives 0. *)

From Stdlib Require Import ZArith List Lia Bool Ascii String DecimalString DecimalPos.
From stdpp Require Import base option gmap strings list fin_maps.
From Equations Require Import Equations.
From Equations.Prop Require Import Logic.

Local Open Scope Z_scope.

(** ** Go's [int] *)

Definition int_bits : Z := 64.
Definition min_int : Z := - 2 ^ (int_bits - 1).
Definition max_int : Z := 2 ^ (int_bits - 1) - 1.

(** Two's complement wrap-around of an arithmetic result into [int]. *)
Definition wrap (z : Z) : Z :=
  (z + 2 ^ (int_bits - 1)) mod 2 ^ int_bits - 2 ^ (int_bits - 1).

Definition is_int (z : Z) : Prop := min_int <= z <= max_int.

(** [len(s)] of a slice. *)
Definition len {A : Type} (l : list A) : Z := Z.of_nat (length l).

(** A slice that exists in a Go program has a length that fits [int]. *)
Definition slice_ok {A : Type} (l : list A) : Prop := len l <= max_int.

(** [s[i]] for a slice and an [int] index: [None] is the run-time panic
    "index out of range". *)
Definition index {A : Type} (l : list A) (i : Z) : option A :=
  if (0 <=? i) && (i <? len l) then l !! Z.to_nat i else None.

(** ** Errors *)

Inductive error : Type :=
| Errorf (msg : string)                    (* fmt.Errorf(msg) *)
| LibError (what : string)                 (* an error value of os, io, net/http, yaml, json, strconv *)
| Wrapf (msg : string) (inner : error)     (* fmt.Errorf("msg: %w", err) *)
| ConfigError (group : string) (inner : error)
| SelectionError (group : string) (inner : error)
| AvailabilityError (user : string) (inner : error)
| NoAvailableAssigneeError (group : string)
| InvalidGroupError (group : string).

(** A [map[string]int] value; [None] is the nil map. Reading a key that is
    absent, or reading from nil, yields the zero value. *)
Abbreviation GoMap := (option (gmap string Z)).

Definition map_get (counts : GoMap) (u : string) : Z :=
  match counts with
  | Some m => default 0 (m !! u)
  | None => 0
  end.

(** [_, exists := counts[u]]: nil has no key. *)
Definition map_has (counts : GoMap) (u : string) : bool :=
  match counts with
  | Some m => bool_decide (is_Some (m !! u))
  | None => false
  end.

(** [len(counts)]: 0 for nil. *)
Definition map_len (counts : GoMap) : Z :=
  match counts with
  | Some m => Z.of_nat (size m)
  | None => 0
  end.

(** ** The Go library functions the sources call

    [strings.Split], [strings.TrimSpace], [strconv.Atoi] and the [%d] verb of
    [fmt], by their documented behaviour on byte strings. *)
Module golib.

(** [strings.HasPrefix(s, prefix)]. *)
Fixpoint HasPrefix (s prefix : string) {struct prefix} : bool :=
  match prefix with
  | EmptyString => true
  | String p prefix' =>
      match s with
      | EmptyString => false
      | String c s' => if Ascii.eqb c p then HasPrefix s' prefix' else false
      end
  end.

(** [s[n:]], clipped at the end of [s]. *)
Fixpoint drop_bytes (n : nat) (s : string) : string :=
  match n, s with
  | O, _ => s
  | S n', String _ s' => drop_bytes n' s'
  | S _, EmptyString => EmptyString
  end.

(** [strings.Cut(s, sep)]: the text before and after the first occurrence of
    [sep], which is [s[:m]] and [s[m+len(sep):]] for [m := strings.Index(s, sep)];
    [None] when [sep] does not occur ([m < 0]). *)
Fixpoint Cut (s sep : string) : option (string * string) :=
  if HasPrefix s sep then Some (EmptyString, drop_bytes (String.length sep) s)
  else
    match s with
    | EmptyString => None
    | String c s' =>
        match Cut s' sep with
        | Some (before, after) => Some (String c before, after)
        | None => None
        end
    end.

Lemma drop_bytes_length (n : nat) (s : string) :
  (String.length (drop_bytes n s) <= String.length s)%nat.
Proof.
  revert s; induction n as [|n IH]; intros [|c s]; simpl; auto.
Qed.

Lemma Cut_shorter (s : string) (c : ascii) (sep before after : string) :
  Cut s (String c sep) = Some (before, after) ->
  (String.length after < String.length s)%nat.
Proof.
  revert before after; induction s as [|d s IH]; intros before after.
  - simpl. discriminate.
  - cbn [Cut].
    destruct (HasPrefix (String d s) (String c sep)) eqn:Hp.
    + intros [= <- <-]. cbn [String.length drop_bytes].
      pose proof (drop_bytes_length (String.length sep) s). lia.
    + destruct (Cut s (String c sep)) as [[b a]|] eqn:Hc; [|discriminate].
      intros [= <- <-]. specialize (IH _ _ eq_refl). simpl. lia.
Qed.

(** The loop of [genSplit] for a separator [String c sep] that is not empty:
    cut at the first occurrence, keep the text before it, go on after it. *)
Equations? genSplit (s : string) (c : ascii) (sep : string) : list string
  by wf (String.length s) lt :=
  genSplit s c sep with inspect (Cut s (String c sep)) := {
    | exist _ None _ => [s]
    | exist _ (Some (before, after)) H => before :: genSplit after c sep }.
Proof. eapply Cut_shorter; eauto. Qed.

(** [explode]: one string per byte (ASCII text). *)
Fixpoint explode (s : string) : list string :=
  match s with
  | EmptyString => []
  | String c s' => String c EmptyString :: explode s'
  end.

(** [strings.Split(s, sep)]. *)
Definition Split (s sep : string) : list string :=
  match sep with
  | EmptyString => explode s
  | String c sep' => genSplit s c sep'
  end.

(** The white space of [unicode.IsSpace], as UTF-8: the six ASCII characters
    \t \n \v \f \r and space, U+0085, U+00A0, U+1680, U+2000..U+200A, U+2028,
    U+2029, U+202F, U+205F and U+3000. *)
Definition asciiSpace (c : ascii) : bool :=
  match c with
  | "009" | "010" | "011" | "012" | "013" | " " => true
  | _ => false
  end%char.

(** [strings.TrimLeftFunc(s, unicode.IsSpace)]: drop leading white space, one
    rune at a time. A byte sequence that is not one of the encodings above
    decodes to some other rune (or to the error rune) and stops the scan. *)
Fixpoint TrimLeftSpace (s : string) : string :=
  match s with
  | EmptyString => EmptyString
  | String c s1 =>
      if asciiSpace c then TrimLeftSpace s1
      else
        match c, s1 with
        | "194"%char, String d s2 =>
            match d with
            | "133"%char | "160"%char => TrimLeftSpace s2
            | _ => s
            end
        | "225"%char, String "154"%char (String "128"%char s3) => TrimLeftSpace s3
        | "226"%char, String "128"%char (String d s3) =>
            let n := nat_of_ascii d in
            if ((128 <=? n)%nat && (n <=? 138)%nat) || (n =? 168)%nat
               || (n =? 169)%nat || (n =? 175)%nat
            then TrimLeftSpace s3 else s
        | "226"%char, String "129"%char (String "159"%char s3) => TrimLeftSpace s3
        | "227"%char, String "128"%char (String "128"%char s3) => TrimLeftSpace s3
        | _, _ => s
        end
  end.

(** The same scan from the end of the string, on the reversed bytes
    ([utf8.DecodeLastRuneInString] finds the encodings back to front). *)
Fixpoint TrimLeftSpace_rev (s : string) : string :=
  match s with
  | EmptyString => EmptyString
  | String c s1 =>
      if asciiSpace c then TrimLeftSpace_rev s1
      else
        match c, s1 with
        | "133"%char, String "194"%char s2 => TrimLeftSpace_rev s2
        | "160"%char, String "194"%char s2 => TrimLeftSpace_rev s2
        | "128"%char, String "154"%char (String "225"%char s3) => TrimLeftSpace_rev s3
        | "159"%char, String "129"%char (String "226"%char s3) => TrimLeftSpace_rev s3
        | "128"%char, String "128"%char (String "227"%char s3) => TrimLeftSpace_rev s3
        | d, String "128"%char (String "226"%char s3) =>
            let n := nat_of_ascii d in
            if ((128 <=? n)%nat && (n <=? 138)%nat) || (n =? 168)%nat
               || (n =? 169)%nat || (n =? 175)%nat
            then TrimLeftSpace_rev s3 else s
        | _, _ => s
        end
  end.

Definition TrimRightSpace (s : string) : string :=
  String.rev (TrimLeftSpace_rev (String.rev s)).

(** [strings.TrimSpace(s)]. *)
Definition TrimSpace (s : string) : string := TrimRightSpace (TrimLeftSpace s).

(** A decimal digit's value, [ch - '0'] when that is at most 9. *)
Definition digit (c : ascii) : option Z :=
  let n := Z.of_nat (nat_of_ascii c) in
  if (48 <=? n) && (n <=? 57) then Some (n - 48) else None.

(** The value of a string of decimal digits, most significant first. *)
Fixpoint digits (s : string) (acc : Z) : option Z :=
  match s with
  | EmptyString => Some acc
  | String c s' =>
      match digit c with
      | Some d => digits s' (acc * 10 + d)
      | None => None
      end
  end.

(** [strconv.Atoi(s)]: an optional sign, then one or more decimal digits, and
    a value that fits [int]. The two failures are [strconv.ErrSyntax] and
    [strconv.ErrRange]; with the latter the nearest [int] is returned. *)
Definition Atoi (s : string) : Z * option error :=
  let '(neg, body) :=
    match s with
    | String "-"%char r => (true, r)
    | String "+"%char r => (false, r)
    | _ => (false, s)
    end in
  match body with
  | EmptyString => (0, Some (LibError "strconv.Atoi: invalid syntax"))
  | _ =>
      match digits body 0 with
      | None => (0, Some (LibError "strconv.Atoi: invalid syntax"))
      | Some n =>
          let v := if neg then - n else n in
          if v <? min_int then (min_int, Some (LibError "strconv.Atoi: value out of range"))
          else if max_int <? v then (max_int, Some (LibError "strconv.Atoi: value out of range"))
          else (v, None)
      end
  end.

(** The [%d] verb of [fmt] for an [int]: decimal, with [-] for negatives. *)
Definition fmt_d (n : Z) : string := NilZero.string_of_int (Z.to_int n).

(** [strings.HasSuffix(s, suffix)]:
    [len(s) >= len(suffix) && s[len(s)-len(suffix):] == suffix]. *)
Definition HasSuffix (s suffix : string) : bool :=
  (String.length suffix <=? String.length s)%nat
  && String.eqb (drop_bytes (String.length s - String.length suffix) s) suffix.

(** [strings.TrimSuffix(s, suffix)]: [s[:len(s)-len(suffix)]] when [s] ends in
    [suffix], else [s]. *)
Definition TrimSuffix (s suffix : string) : string :=
  if HasSuffix s suffix
  then String.substring 0 (String.length s - String.length suffix) s
  else s.

(** The line feed, Go's ["\n"]. *)
Definition LF : string := String "010"%char EmptyString.

End golib.

(** ** The world the program runs in *)

(** runner.go: [AssigneeGroupConfig]. *)
Record AssigneeGroupConfig : Type := {
  Strategy : string;
  AvailabilityCheckerName : string;   (* the field AvailabilityChecker *)
  Users : list string
}.

(** runner.go: [AssignmentLog], one line of assignments.log. *)
Record AssignmentLog : Type := {
  log_Timestamp : string;
  log_Group : string;
  log_User : string;
  log_Strategy : string;
  log_LastIndex : Z;
  log_NextIndex : Z;
  log_TotalCount : Z;
  log_UserCount : Z
}.

(** A value of a decoded JSON object, as far as the type assertion
    [.(string)] tells them apart. *)
Inductive json_value : Type :=
| JNull | JBool (b : bool) | JNumber | JString (s : string) | JArray | JObject.

(** What [json.NewDecoder(resp.Body).Decode(&result)] makes of a response body
    for [result map[string]interface{}]: an error, or the decoded object. *)
Inductive json_body : Type :=
| BodyError (e : error)
| BodyObject (result : gmap string json_value).

Record http_Response : Type := {
  StatusCode : Z;
  Body : json_body
}.

(** The system calls that can fail without the files changing. *)
Inductive syscall : Type :=
| MkdirAll_dataDir
| Open_indexLog | Write_indexLog
| WriteFile_countsJson
| Open_assignmentsLog | Write_assignmentsLog.

(** What the program reads from outside and does not change: the settings, the
    group configuration files, the clock, the remote endpoint, the random
    generator and the failures of the file system. The n-th interaction with
    the outside sees the answers given for [n]. *)
Record Env : Type := {
  (* config.Settings.Availability *)
  InOutApiUrlPrefix : string;
  InOutUnavailableStatuses : list string;
  (* ConfDir/<group>.yaml: [None] cannot be read, [Some None] is read and
     rejected by yaml.Unmarshal *)
  conf_yaml : string -> option (option AssigneeGroupConfig);
  (* time.Now().Format(time.RFC3339) *)
  now_RFC3339 : nat -> string;
  (* http.Get(url): a transport error or a response *)
  http_Get : nat -> string -> error + http_Response;
  (* the raw draw behind rand.Intn *)
  rand_draw : nat -> Z;
  (* does this system call fail for this group *)
  fails : syscall -> string -> bool
}.

(** What the program changes: the files under DataDir/<group>/, the standard
    output, and the count of interactions so far. The files are kept by the
    group name as it is given; two names that filepath.Join cleans to one path
    ("team" and "./team") are kept apart here, so what is stated below is
    stated of the files of the one group a call names. counts.json is kept as
    the map [json.Unmarshal(data, &counts)] leaves in the fresh [counts]: nil
    for a file that holds null, and for any other text the entries decoded
    into the map. [checked] is a ghost field: the calls of
    [availChecker.IsAvailable] made by [Assign], in order, each with the user
    asked about and the result. *)
Record State : Type := {
  data_dirs : gset string;
  index_log : gmap string string;                 (* index.log, by group *)
  counts_json : gmap string GoMap;                (* counts.json as json.Unmarshal reads it *)
  assignments_log : gmap string (list AssignmentLog);
  stdout : list string;
  clock : nat;
  checked : list (string * (bool * option error))
}.

(** A run either returns or stops in a run-time panic. *)
Inductive outcome (A : Type) : Type :=
| Ret (a : A)
| Panic (msg : string).
Arguments Ret {A} a.
Arguments Panic {A} msg.

(** Computations of the program: read the environment, pass the state. *)
Definition M (A : Type) : Type := Env -> State -> outcome A * State.

#[global] Instance M_ret : MRet M := fun A a _ s => (Ret a, s).

#[global] Instance M_bind : MBind M := fun A B f m env s =>
  match m env s with
  | (Ret a, s') => f a env s'
  | (Panic msg, s') => (Panic msg, s')
  end.

Definition ask : M Env := fun env s => (Ret env, s).
Definition get : M State := fun _ s => (Ret s, s).
Definition put (s : State) : M unit := fun _ _ => (Ret tt, s).
Definition panic {A : Type} (msg : string) : M A := fun _ s => (Panic msg, s).

Definition modify (f : State -> State) : M unit := fun _ s => (Ret tt, f s).

Definition set_data_dirs (f : gset string -> gset string) (s : State) : State :=
  {| data_dirs := f (data_dirs s); index_log := index_log s;
     counts_json := counts_json s; assignments_log := assignments_log s;
     stdout := stdout s; clock := clock s; checked := checked s |}.
Definition set_index_log (f : gmap string string -> gmap string string) (s : State) : State :=
  {| data_dirs := data_dirs s; index_log := f (index_log s);
     counts_json := counts_json s; assignments_log := assignments_log s;
     stdout := stdout s; clock := clock s; checked := checked s |}.
Definition set_counts_json (f : gmap string GoMap -> gmap string GoMap) (s : State)
    : State :=
  {| data_dirs := data_dirs s; index_log := index_log s;
     counts_json := f (counts_json s); assignments_log := assignments_log s;
     stdout := stdout s; clock := clock s; checked := checked s |}.
Definition set_assignments_log
    (f : gmap string (list AssignmentLog) -> gmap string (list AssignmentLog))
    (s : State) : State :=
  {| data_dirs := data_dirs s; index_log := index_log s;
     counts_json := counts_json s; assignments_log := f (assignments_log s);
     stdout := stdout s; clock := clock s; checked := checked s |}.
Definition set_stdout (f : list string -> list string) (s : State) : State :=
  {| data_dirs := data_dirs s; index_log := index_log s;
     counts_json := counts_json s; assignments_log := assignments_log s;
     stdout := f (stdout s); clock := clock s; checked := checked s |}.
Definition set_clock (f : nat -> nat) (s : State) : State :=
  {| data_dirs := data_dirs s; index_log := index_log s;
     counts_json := counts_json s; assignments_log := assignments_log s;
     stdout := stdout s; clock := f (clock s); checked := checked s |}.
Definition set_checked
    (f : list (string * (bool * option error)) -> list (string * (bool * option error)))
    (s : State) : State :=
  {| data_dirs := data_dirs s; index_log := index_log s;
     counts_json := counts_json s; assignments_log := assignments_log s;
     stdout := stdout s; clock := clock s; checked := f (checked s) |}.

(** The next interaction with the outside: its number, and the count moves on. *)
Definition tick : M nat :=
  s ← get; _ ← modify (set_clock S); mret (clock s).

(** Dereference of a pointer that may be nil. *)
Definition deref {A : Type} (p : option A) : M A :=
  match p with
  | Some a => mret a
  | None => panic "invalid memory address or nil pointer dereference"
  end.

(** [counts[u] = val]: an assignment to an entry of the nil map panics. *)
Definition map_assign (counts : GoMap) (u : string) (val : Z) : M GoMap :=
  match counts with
  | Some m => mret (Some (<[u := val]> m))
  | None => panic "assignment to entry in nil map"
  end.

(** [fmt.Println(line)], and [fmt.Printf] of a whole line. *)
Definition Println (line : string) : M unit :=
  modify (set_stdout (fun out => out ++ [line])).

(** [time.Now().Format(time.RFC3339)]. *)
Definition time_Now : M string :=
  env ← ask; n ← tick; mret (now_RFC3339 env n).

Definition syscall_fails (c : syscall) (group : string) : M bool :=
  env ← ask; mret (fails env c group).

(** ** package selector *)
Module selector.

(** roundrobin.go: [(r *RoundRobin) SelectNext]. *)
Definition RoundRobin_SelectNext
    (users : list string) (lastIndex : Z) (counts : GoMap) : Z * option error :=
  if len users =? 0 then (-1, Some (Errorf "empty users list"))
  else (Z.rem (wrap (lastIndex + 1)) (len users), None).

(** least_assigned.go: the loop [for i, u := range users] of
    [(l *LeastAssigned) SelectNext], with its variables [min] and [index]. *)
Fixpoint LeastAssigned_loop
    (counts : GoMap) (users : list string) (i : Z) (min index : Z) : Z :=
  match users with
  | [] => index
  | u :: rest =>
      if map_get counts u <? min
      then LeastAssigned_loop counts rest (i + 1) (map_get counts u) i
      else LeastAssigned_loop counts rest (i + 1) min index
  end.

(** least_assigned.go: [(l *LeastAssigned) SelectNext]; [min := 1<<31 - 1]. *)
Definition LeastAssigned_SelectNext
    (users : list string) (lastIndex : Z) (counts : GoMap) : Z * option error :=
  if len users =? 0 then (-1, Some (Errorf "empty users list"))
  else (LeastAssigned_loop counts users 0 (Z.shiftl 1 31 - 1) 0, None).

(** [rand.Intn(n)] for [n > 0]: a value in [[0, n)] from the generator. *)
Definition rand_Intn (n : Z) : M Z :=
  env ← ask; k ← tick; mret (rand_draw env k mod n).

(** random.go: [(r *Random) SelectNext]. *)
Definition Random_SelectNext
    (users : list string) (lastIndex : Z) (counts : GoMap) : M (Z * option error) :=
  if len users =? 0 then mret (-1, Some (Errorf "empty users list"))
  else r ← rand_Intn (len users); mret (r, None).

End selector.

(** ** package availability *)
Module availability.

(** always_available.go: [(c *AlwaysAvailable) IsAvailable]. *)
Definition AlwaysAvailable_IsAvailable (username : string) : M (bool * option error) :=
  mret (true, None).

(** [http.Get(url)]. *)
Definition http_get (url : string) : M (error + http_Response) :=
  env ← ask; n ← tick; mret (http_Get env n url).

(** The loop over [InOutUnavailableStatuses] that closes
    [(c *InOutChecker) IsAvailable]: [false] at the first status equal to
    [status], [true] when the list is exhausted. *)
Fixpoint unavailable_loop (status : string) (statuses : list string) : bool :=
  match statuses with
  | [] => true
  | unavailable :: rest =>
      if String.eqb status unavailable then false
      else unavailable_loop status rest
  end.

(** inout_checker.go: [(c *InOutChecker) IsAvailable]. The response status
    code is not read. *)
Definition InOutChecker_IsAvailable (username : string) : M (bool * option error) :=
  env ← ask;
  let url := InOutApiUrlPrefix env +:+ username in
  r ← http_get url;
  match r with
  | inl err => mret (false, Some err)
  | inr resp =>
      match Body resp with
      | BodyError err => mret (false, Some err)
      | BodyObject result =>
          match result !! "inOutLocation" with
          | Some (JString status) =>
              mret (unavailable_loop status (InOutUnavailableStatuses env), None)
          | _ => mret (true, None)
          end
      end
  end.

End availability.

(** ** package config *)
Module config.

(** config.go: [GetGroupDataDir]. The directory DataDir/<group> is created
    when it is missing; it is named by its group, as the name is given. *)
Definition GetGroupDataDir (group : string) : M (string * option error) :=
  failed ← syscall_fails MkdirAll_dataDir group;
  if (failed : bool) then mret (EmptyString, Some (LibError "os.MkdirAll"))
  else
    _ ← modify (set_data_dirs (fun dirs => {[group]} ∪ dirs));
    mret (group, None).

(** config.go: [StorageConfig], [AvailabilityConfig] and [Config], the type
    of the global [Settings]. *)
Record StorageConfig : Type := {
  DataDir : string;
  ConfDir : string
}.

Record AvailabilityConfig : Type := {
  InOutApiUrlPrefix : string;
  InOutUnavailableStatuses : list string
}.

Record Config : Type := {
  Storage : StorageConfig;
  Availability : AvailabilityConfig
}.

(** config.go: [validateConfig]. *)
Definition validateConfig (cfg : Config) : option error :=
  if String.eqb (DataDir (Storage cfg)) EmptyString
  then Some (Errorf "data_dir is required in storage configuration")
  else if String.eqb (ConfDir (Storage cfg)) EmptyString
  then Some (Errorf "conf_dir is required in storage configuration")
  else if String.eqb (InOutApiUrlPrefix (Availability cfg)) EmptyString
  then Some (Errorf "inout_api_url_prefix is required in availability configuration")
  else if len (InOutUnavailableStatuses (Availability cfg)) =? 0
  then Some (Errorf "inout_unavailable_statuses is required in availability configuration")
  else None.

(** What [os.Stat(path)] returns, as far as [LoadConfig] tells the cases
    apart. *)
Inductive stat_result : Type :=
| StatNotExist (err : error)      (* an error for which os.IsNotExist holds *)
| StatError (err : error)         (* any other error *)
| StatInfo (isRegular : bool).    (* info.Mode().IsRegular() *)

(** The file system as [LoadConfig] meets it. [json_Decode path] is
    [json.NewDecoder(file).Decode(&Settings)] on the content of the file: from
    the settings before the call to the settings after it, with the decoder's
    error. *)
Record Files : Type := {
  os_Stat : string -> stat_result;
  os_Open : string -> option error;     (* [Some err]: the file cannot be opened *)
  json_Decode : string -> Config -> Config * option error
}.

(** config.go: [LoadConfig]. The global [Settings] is passed in and out. *)
Definition LoadConfig (files : Files) (configPath : string) (Settings : Config)
    : Config * option error :=
  if String.eqb configPath EmptyString
  then (Settings, Some (Errorf "config file path cannot be empty"))
  else
    match os_Stat files configPath with
    | StatNotExist _ =>
        (Settings, Some (Errorf ("config file does not exist: " +:+ configPath)))
    | StatError err => (Settings, Some (Wrapf "failed to access config file" err))
    | StatInfo isRegular =>
        if negb isRegular
        then (Settings,
              Some (Errorf ("config path is not a regular file: " +:+ configPath)))
        else
          match os_Open files configPath with
          | Some err => (Settings, Some (Wrapf "failed to open config file" err))
          | None =>
              let '(Settings, err) := json_Decode files configPath Settings in
              match err with
              | Some err => (Settings, Some (Wrapf "failed to parse config file" err))
              | None =>
                  match validateConfig Settings with
                  | Some err => (Settings, Some (Wrapf "invalid config" err))
                  | None => (Settings, None)
                  end
              end
          end
    end.

(** An entry of a directory, as [os.ReadDir] lists it. *)
Record DirEntry : Type := {
  Name : string;
  IsDir : bool
}.

(** The loop [for _, entry := range entries] of [ListGroups], with its
    variable [groups]. *)
Fixpoint ListGroups_loop (entries : list DirEntry) (groups : list string) : list string :=
  match entries with
  | [] => groups
  | entry :: rest =>
      if negb (IsDir entry) && golib.HasSuffix (Name entry) ".yaml"
      then ListGroups_loop rest (groups ++ [golib.TrimSuffix (Name entry) ".yaml"])
      else ListGroups_loop rest groups
  end.

(** config.go: [ListGroups], from what [os.ReadDir(Settings.Storage.ConfDir)]
    returns. *)
Definition ListGroups (readDir : error + list DirEntry) : list string * option error :=
  match readDir with
  | inl err => ([], Some (Wrapf "failed to read config directory" err))
  | inr entries => (ListGroups_loop entries [], None)
  end.

End config.

(** ** package runner *)
Module runner.

(** *** interfaces.go *)

Record AssignmentStrategy : Type := {
  SelectNext : list string -> Z -> GoMap -> M (Z * option error)
}.

Record AvailabilityChecker : Type := {
  IsAvailable : string -> M (bool * option error)
}.

Record AssignmentLogger : Type := {
  LogAssignment : string -> string -> string -> Z -> Z -> GoMap -> M (option error)
}.

Record CountManager : Type := {
  CountManager_GetCounts : string -> M (GoMap * option error);
  IncrementCount : string -> string -> M (option error);
  CountManager_ResetCounts : string -> M (option error)
}.

Record ConfigLoader : Type := {
  LoadConfig : string -> M (option AssigneeGroupConfig * option error)
}.

Record StorageManager : Type := {
  StorageManager_GetGroupDataDir : string -> M (string * option error);
  ReadLastIndex : string -> M (Z * option error);
  WriteLastIndex : string -> Z -> M (option error)
}.

(** *** runner.go: the files *)

(** [loadAssigneeGroupConfig]. *)
Definition loadAssigneeGroupConfig (group : string)
    : M (option AssigneeGroupConfig * option error) :=
  env ← ask;
  match conf_yaml env group with
  | None =>
      mret (None, Some (Wrapf "failed to read config file" (LibError "ioutil.ReadFile")))
  | Some None =>
      mret (None, Some (Wrapf "failed to parse config file" (LibError "yaml.Unmarshal")))
  | Some (Some groupConf) => mret (Some groupConf, None)
  end.

(** The scan [for i := len(lines) - 1; i >= 0; i--] of [readLastIndex], on the
    lines taken last to first: the first one that is not empty, else [""]. *)
Fixpoint lastNonEmpty (lines_rev : list string) : string :=
  match lines_rev with
  | [] => EmptyString
  | line :: rest => if String.eqb line EmptyString then lastNonEmpty rest else line
  end.

(** [readLastIndex], the part after [ioutil.ReadFile]: from the bytes of
    index.log to the index. *)
Definition readLastIndex_parse (data : string) : Z :=
  if Z.of_nat (String.length data) =? 0 then -1
  else
    let lines := golib.Split data golib.LF in
    if len lines =? 0 then -1
    else
      let lastLine := lastNonEmpty (rev lines) in
      if String.eqb lastLine EmptyString then -1
      else
        let parts := golib.Split lastLine "--" in
        if len parts =? 2 then
          match parts with
          | [_; part1] =>
              let idx := golib.TrimSpace part1 in
              match golib.Atoi idx with
              | (_, Some _) => -1
              | (val, None) => val
              end
          | _ => -1
          end
        else -1.

(** [readLastIndex]. *)
Definition readLastIndex (group : string) : M Z :=
  '(groupDir, err) ← config.GetGroupDataDir group;
  match err with
  | Some _ => mret (-1)
  | None =>
      s ← get;
      match index_log s !! group with
      | None => mret (-1)                         (* ioutil.ReadFile fails *)
      | Some data => mret (readLastIndex_parse data)
      end
  end.

(** [writeLastIndex]: a line [<timestamp> -- <index>] is added to index.log,
    which is created when missing. *)
Definition writeLastIndex (group : string) (index : Z) : M (option error) :=
  '(groupDir, err) ← config.GetGroupDataDir group;
  match err with
  | Some err => mret (Some (Wrapf "failed to get group data directory" err))
  | None =>
      open_failed ← syscall_fails Open_indexLog group;
      if (open_failed : bool)
      then mret (Some (Wrapf "failed to open index file" (LibError "os.OpenFile")))
      else
        _ ← modify (set_index_log (fun files =>
               <[group := default EmptyString (files !! group)]> files));
        timestamp ← time_Now;
        write_failed ← syscall_fails Write_indexLog group;
        if (write_failed : bool)
        then mret (Some (Wrapf "failed to write index" (LibError "fmt.Fprintf")))
        else
          _ ← modify (set_index_log (fun files =>
                 <[group := default EmptyString (files !! group)
                            +:+ timestamp +:+ " -- " +:+ golib.fmt_d index +:+ golib.LF]>
                 files));
          mret None
  end.

(** The loop [for _, user := range groupConf.Users] that gives every user
    without an entry the count 0 (in [readCounts] and in [GetCounts]). *)
Fixpoint fill_missing (users : list string) (counts : GoMap) : M GoMap :=
  match users with
  | [] => mret counts
  | user :: rest =>
      counts ← (if map_has counts user then mret counts else map_assign counts user 0);
      fill_missing rest counts
  end.

(** [readCounts]. A counts.json that is missing or unreadable leaves the
    fresh map empty; [json.Unmarshal] leaves in it what it decoded, and sets it
    to nil for a file that holds null. *)
Definition readCounts (group : string) : M GoMap :=
  let counts : GoMap := Some ∅ in
  '(groupDir, err) ← config.GetGroupDataDir group;
  match err with
  | Some _ => mret counts
  | None =>
      s ← get;
      let counts := default counts (counts_json s !! group) in
      '(groupConf, err) ← loadAssigneeGroupConfig group;
      match err, groupConf with
      | None, Some groupConf => fill_missing (Users groupConf) counts
      | _, _ => mret counts
      end
  end.

(** [incrementCount]. ([json.MarshalIndent] of a [map[string]int] does not
    fail.) *)
Definition incrementCount (group user : string) : M (option error) :=
  counts ← readCounts group;
  counts ← map_assign counts user (wrap (map_get counts user + 1));
  '(groupDir, err) ← config.GetGroupDataDir group;
  match err with
  | Some err => mret (Some (Wrapf "failed to get group data directory" err))
  | None =>
      failed ← syscall_fails WriteFile_countsJson group;
      if (failed : bool)
      then mret (Some (Wrapf "failed to write counts file" (LibError "ioutil.WriteFile")))
      else
        _ ← modify (set_counts_json (fun files => <[group := counts]> files));
        mret None
  end.

(** The loop of [ResetCounts]: [counts[user] = 0] for every user. *)
Fixpoint zero_counts (users : list string) (counts : gmap string Z) : gmap string Z :=
  match users with
  | [] => counts
  | user :: rest => zero_counts rest (<[user := 0]> counts)
  end.

(** [ResetCounts]. *)
Definition ResetCounts (group : string) : M (option error) :=
  '(groupConf, err) ← loadAssigneeGroupConfig group;
  match err with
  | Some err => mret (Some (ConfigError group err))
  | None =>
      groupConf ← deref groupConf;
      let counts := zero_counts (Users groupConf) ∅ in
      '(groupDir, err) ← config.GetGroupDataDir group;
      match err with
      | Some err => mret (Some (Wrapf "failed to get group data directory" err))
      | None =>
          failed ← syscall_fails WriteFile_countsJson group;
          if (failed : bool)
          then mret (Some (Wrapf "failed to write counts file" (LibError "ioutil.WriteFile")))
          else
            _ ← modify (set_counts_json (fun files => <[group := Some counts]> files));
            mret None
      end
  end.

(** [logAssignment]: one entry is added to assignments.log, which is created
    when missing. *)
Definition logAssignment (group user strategy : string) (lastIndex nextIndex : Z)
    (counts : GoMap) : M (option error) :=
  '(groupConf, err) ← loadAssigneeGroupConfig group;
  match err with
  | Some err => mret (Some (Wrapf "failed to load group config for logging" err))
  | None =>
      groupConf ← deref groupConf;
      timestamp ← time_Now;
      let logEntry :=
        {| log_Timestamp := timestamp; log_Group := group; log_User := user;
           log_Strategy := strategy; log_LastIndex := lastIndex;
           log_NextIndex := nextIndex; log_TotalCount := len (Users groupConf);
           log_UserCount := map_get counts user |} in
      '(groupDir, err) ← config.GetGroupDataDir group;
      match err with
      | Some err => mret (Some (Wrapf "failed to get group data directory" err))
      | None =>
          open_failed ← syscall_fails Open_assignmentsLog group;
          if (open_failed : bool)
          then mret (Some (Wrapf "failed to open log file" (LibError "os.OpenFile")))
          else
            _ ← modify (set_assignments_log (fun files =>
                   <[group := default [] (files !! group)]> files));
            write_failed ← syscall_fails Write_assignmentsLog group;
            if (write_failed : bool)
            then mret (Some (Wrapf "failed to write log entry" (LibError "f.Write")))
            else
              _ ← modify (set_assignments_log (fun files =>
                     <[group := default [] (files !! group) ++ [logEntry]]> files));
              mret None
      end
  end.

(** *** defaults.go *)

Definition DefaultConfigLoader : ConfigLoader :=
  {| LoadConfig := loadAssigneeGroupConfig |}.

Definition DefaultStorageManager : StorageManager :=
  {| StorageManager_GetGroupDataDir := config.GetGroupDataDir;
     ReadLastIndex := fun group => val ← readLastIndex group; mret (val, None);
     WriteLastIndex := writeLastIndex |}.

(** [(m *DefaultCountManager) GetCounts]. *)
Definition DefaultCountManager_GetCounts (group : string) : M (GoMap * option error) :=
  counts ← readCounts group;
  if map_len counts =? 0
  then mret (None, Some (Errorf ("no counts found for group " +:+ group)))
  else mret (counts, None).

Definition DefaultCountManager : CountManager :=
  {| CountManager_GetCounts := DefaultCountManager_GetCounts;
     IncrementCount := incrementCount;
     CountManager_ResetCounts := ResetCounts |}.

Definition DefaultAssignmentLogger : AssignmentLogger :=
  {| LogAssignment := logAssignment |}.

(** *** factory.go *)

Record ComponentFactory : Type := {
  configLoader : ConfigLoader;
  storageManager : StorageManager;
  countManager : CountManager;
  assignmentLogger : AssignmentLogger
}.

Definition NewComponentFactory (configLoader : ConfigLoader)
    (storageManager : StorageManager) (countManager : CountManager)
    (assignmentLogger : AssignmentLogger) : ComponentFactory :=
  {| configLoader := configLoader; storageManager := storageManager;
     countManager := countManager; assignmentLogger := assignmentLogger |}.

Definition Random : AssignmentStrategy :=
  {| SelectNext := selector.Random_SelectNext |}.
Definition LeastAssigned : AssignmentStrategy :=
  {| SelectNext := fun users lastIndex counts =>
       mret (selector.LeastAssigned_SelectNext users lastIndex counts) |}.
Definition RoundRobin : AssignmentStrategy :=
  {| SelectNext := fun users lastIndex counts =>
       mret (selector.RoundRobin_SelectNext users lastIndex counts) |}.

Definition InOutChecker : AvailabilityChecker :=
  {| IsAvailable := availability.InOutChecker_IsAvailable |}.
Definition AlwaysAvailable : AvailabilityChecker :=
  {| IsAvailable := availability.AlwaysAvailable_IsAvailable |}.

(** [(f *ComponentFactory) CreateAssignmentStrategy]. *)
Definition CreateAssignmentStrategy (f : ComponentFactory) (strategy : string)
    : option AssignmentStrategy * option error :=
  if String.eqb strategy "random" then (Some Random, None)
  else if String.eqb strategy "least_assigned" then (Some LeastAssigned, None)
  else if String.eqb strategy "round_robin" then (Some RoundRobin, None)
  else (None, Some (Errorf ("unknown strategy: " +:+ strategy))).

(** [(f *ComponentFactory) CreateAvailabilityChecker]. *)
Definition CreateAvailabilityChecker (f : ComponentFactory) (checker : string)
    : option AvailabilityChecker * option error :=
  if String.eqb checker "inout" then (Some InOutChecker, None)
  else if String.eqb checker "always_available" then (Some AlwaysAvailable, None)
  else (None, Some (Errorf ("unknown availability checker: " +:+ checker))).

Definition GetConfigLoader (f : ComponentFactory) : ConfigLoader := configLoader f.
Definition GetStorageManager (f : ComponentFactory) : StorageManager := storageManager f.
Definition GetCountManager (f : ComponentFactory) : CountManager := countManager f.
Definition GetAssignmentLogger (f : ComponentFactory) : AssignmentLogger :=
  assignmentLogger f.

(** *** runner.go: [Assign] *)

(** [users[nextIndex]]. *)
Definition at_index (users : list string) (i : Z) : M string :=
  match index users i with
  | Some user => mret user
  | None => panic "index out of range"
  end.

(** [availChecker.IsAvailable(user)], the call entered in [checked]. *)
Definition call_IsAvailable (availChecker : AvailabilityChecker) (user : string)
    : M (bool * option error) :=
  r ← IsAvailable availChecker user;
  _ ← modify (set_checked (fun calls => calls ++ [(user, r)]));
  mret r.

(** The scan [for attempts < len(users)] of [Assign], from the values of
    [attempts] and [nextIndex] on entry. [attempts++] and [nextIndex + 1] are
    taken below [len(users)], so neither wraps (see [next_no_wrap]). *)
Equations? Assign_loop (factory : ComponentFactory) (group : string) (dryRun : bool)
    (groupConf : AssigneeGroupConfig) (users : list string) (lastIndex : Z)
    (availChecker : AvailabilityChecker) (attempts nextIndex : Z) : M (option error)
  by wf (Z.to_nat (len users - attempts)) lt :=
  Assign_loop factory group dryRun groupConf users lastIndex availChecker
      attempts nextIndex with Z_lt_dec attempts (len users) := {
    | right _ => mret (Some (NoAvailableAssigneeError group))
    | left Hlt =>
        user ← at_index users nextIndex;
        '(ok, err) ← call_IsAvailable availChecker user;
        match err with
        | Some err => mret (Some (AvailabilityError user err))
        | None =>
            if (ok : bool) then
              if dryRun then
                _ ← Println ("[DRY RUN] Would assign to: " +:+ user);
                mret None
              else
                _ ← Println user;
                err ← WriteLastIndex (GetStorageManager factory) group nextIndex;
                match err with
                | Some err => mret (Some (Wrapf "failed to write last index" err))
                | None =>
                err ← IncrementCount (GetCountManager factory) group user;
                match err with
                | Some err => mret (Some (Wrapf "failed to increment count" err))
                | None =>
                '(updatedCounts, err) ← CountManager_GetCounts (GetCountManager factory) group;
                match err with
                | Some err => mret (Some (Wrapf "failed to get updated counts" err))
                | None =>
                err ← LogAssignment (GetAssignmentLogger factory) group user
                        (Strategy groupConf) lastIndex nextIndex updatedCounts;
                match err with
                | Some err => mret (Some (Wrapf "failed to log assignment" err))
                | None => mret None
                end end end end
            else
              Assign_loop factory group dryRun groupConf users lastIndex availChecker
                (attempts + 1) (Z.rem (nextIndex + 1) (len users))
        end }.
Proof. lia. Qed.

(** [Assign]. *)
Definition Assign (group : string) (dryRun : bool) : M (option error) :=
  let factory := NewComponentFactory DefaultConfigLoader DefaultStorageManager
                   DefaultCountManager DefaultAssignmentLogger in
  '(groupConf, err) ← LoadConfig (GetConfigLoader factory) group;
  match err with
  | Some err => mret (Some (ConfigError group err))
  | None =>
  groupConf ← deref groupConf;
  let users := Users groupConf in
  if len users =? 0 then mret (Some (ConfigError group (Errorf "no users found")))
  else
  '(lastIndex, err) ← ReadLastIndex (GetStorageManager factory) group;
  match err with
  | Some err => mret (Some (Wrapf "failed to read last index" err))
  | None =>
  '(counts, err) ← CountManager_GetCounts (GetCountManager factory) group;
  match err with
  | Some err => mret (Some (Wrapf "failed to get counts" err))
  | None =>
  match CreateAssignmentStrategy factory (Strategy groupConf) with
  | (_, Some err) => mret (Some (ConfigError group err))
  | (strategy, None) =>
  strategy ← deref strategy;
  match CreateAvailabilityChecker factory (AvailabilityCheckerName groupConf) with
  | (_, Some err) => mret (Some (ConfigError group err))
  | (availChecker, None) =>
  availChecker ← deref availChecker;
  '(nextIndex, err) ← SelectNext strategy users lastIndex counts;
  match err with
  | Some err => mret (Some (SelectionError group err))
  | None =>
  Assign_loop factory group dryRun groupConf users lastIndex availChecker 0 nextIndex
  end end end end end end.

(** [GetCounts]: the counts and the users in the order of the configuration. *)
Definition GetCounts (group : string) : M (GoMap * list string * option error) :=
  '(_, err) ← loadAssigneeGroupConfig group;
  match err with
  | Some _ => mret (None, [], Some (InvalidGroupError group))
  | None =>
      counts ← readCounts group;
      if map_len counts =? 0
      then mret (None, [], Some (Errorf ("no counts found for group " +:+ group)))
      else
        '(groupConf, err) ← loadAssigneeGroupConfig group;
        match err with
        | Some err => mret (None, [], Some (Wrapf "failed to load group config" err))
        | None =>
            groupConf ← deref groupConf;
            counts ← fill_missing (Users groupConf) counts;
            mret (counts, Users groupConf, None)
        end
  end.

(** runner.go: [GetGroupDataDir], which looks for the group's configuration
    before it makes the directory. *)
Definition GetGroupDataDir (group : string) : M (string * option error) :=
  '(_, err) ← loadAssigneeGroupConfig group;
  match err with
  | Some _ => mret (EmptyString, Some (InvalidGroupError group))
  | None =>
      failed ← syscall_fails MkdirAll_dataDir group;
      if (failed : bool) then mret (EmptyString, Some (LibError "os.MkdirAll"))
      else
        _ ← modify (set_data_dirs (fun dirs => {[group]} ∪ dirs));
        mret (group, None)
  end.

(** errors.go: [(e *InvalidGroupError) Error]. *)
Definition InvalidGroupError_Error (group : string) : string :=
  "group " +:+ group +:+ " does not exist".

End runner.

(** ** package cmd *)
Module cmd.

(** root.go: the flags of [rootCmd]. *)
Record Flags : Type := {
  dryRun : bool;
  showCounts : bool;
  resetCounts : bool;
  configFile : string;
  listGroups : bool;
  showVersion : bool
}.

(** root.go: [rootCmd.Args]. *)
Definition Args (flags : Flags) (args : list string) : option error :=
  if listGroups flags || showVersion flags then None
  else if negb (len args =? 1) then Some (Errorf "requires exactly one argument")
  else None.

(** The hint that follows the message of an InvalidGroupError. *)
Definition list_groups_hint (group : string) : error :=
  Errorf (runner.InvalidGroupError_Error group +:+ golib.LF
          +:+ "Use --list-groups to see available groups").

(** The loop [for _, user := range orderedUsers] of the show-counts branch. *)
Fixpoint print_counts (counts : GoMap) (orderedUsers : list string) : M unit :=
  match orderedUsers with
  | [] => mret tt
  | user :: rest =>
      _ ← Println ("  " +:+ user +:+ ": " +:+ golib.fmt_d (map_get counts user));
      print_counts counts rest
  end.

(** root.go: [rootCmd.RunE] from [groupName := args[0]] on, which is reached
    when neither --version nor --list-groups is given and the configuration
    file has been loaded: the branches show-counts, reset-counts and
    assignment. *)
Definition RunE_group (flags : Flags) (args : list string) : M (option error) :=
  groupName ← runner.at_index args 0;
  if showCounts flags then
    '(counts, orderedUsers, err) ← runner.GetCounts groupName;
    match err with
    | Some (InvalidGroupError group) => mret (Some (list_groups_hint group))
    | Some err => mret (Some (Wrapf "failed to get counts" err))
    | None =>
        _ ← Println ("Assignment counts for group " +:+ groupName +:+ ":");
        _ ← print_counts counts orderedUsers;
        mret None
    end
  else if resetCounts flags then
    err ← runner.ResetCounts groupName;
    match err with
    | Some (InvalidGroupError group) => mret (Some (list_groups_hint group))
    | Some err => mret (Some (Wrapf "failed to reset counts" err))
    | None =>
        _ ← Println ("Successfully reset assignment counts for group " +:+ groupName);
        mret None
    end
  else
    err ← runner.Assign groupName (dryRun flags);
    match err with
    | Some (InvalidGroupError group) => mret (Some (list_groups_hint group))
    | Some (ConfigError group inner) =>
        mret (Some (Wrapf "configuration error" (ConfigError group inner)))
    | Some (SelectionError group inner) =>
        mret (Some (Wrapf "selection error" (SelectionError group inner)))
    | Some (AvailabilityError user inner) =>
        mret (Some (Wrapf "availability error" (AvailabilityError user inner)))
    | Some (NoAvailableAssigneeError group) =>
        mret (Some (Wrapf "no available assignee" (NoAvailableAssigneeError group)))
    | Some err => mret (Some (Wrapf "unexpected error" err))
    | None => mret None
    end.

End cmd.

(** * Notions used in the statements *)

(** The lowest index whose member's count equals the minimum over all
    members, in the words of the specification. *)
Definition first_min_index (counts : GoMap) (users : list string) (k : nat) : Prop :=
  exists u, users !! k = Some u
    /\ (forall j v, users !! j = Some v -> map_get counts u <= map_get counts v)
    /\ (forall j v, (j < k)%nat -> users !! j = Some v ->
                    map_get counts u < map_get counts v).

(** The start value of [min] in [LeastAssigned.SelectNext]. *)
Definition min_init : Z := Z.shiftl 1 31 - 1.

(** The state of the loop after the members [done]: either nothing was below
    the start value and the variables are untouched, or [index] is the first
    position of the least count so far, which is [min]. *)
Definition LeastAssigned_inv (counts : GoMap) (done : list string) (min index : Z) : Prop :=
  (forall v, v ∈ done -> min <= map_get counts v)
  /\ ((min = min_init /\ index = 0)
      \/ exists k u, index = Z.of_nat k /\ done !! k = Some u
           /\ map_get counts u = min
           /\ forall j v, (j < k)%nat -> done !! j = Some v -> min < map_get counts v).

(** What the file operations return and leave behind, as functions of the
    environment and the state before the call. *)

(** The state after [config.GetGroupDataDir(group)]. *)
Definition after_mkdir (env : Env) (group : string) (s : State) : State :=
  if fails env MkdirAll_dataDir group then s
  else set_data_dirs (fun dirs => {[group]} ∪ dirs) s.

(** The value of [readLastIndex(group)]. *)
Definition lastIndex_of (env : Env) (s : State) (group : string) : Z :=
  if fails env MkdirAll_dataDir group then -1
  else
    match index_log s !! group with
    | None => -1
    | Some data => runner.readLastIndex_parse data
    end.

(** [counts] with the count 0 for every user of [users] without an entry. *)
Fixpoint with_zeros (users : list string) (counts : gmap string Z) : gmap string Z :=
  match users with
  | [] => counts
  | user :: rest =>
      with_zeros rest
        (match counts !! user with
         | Some _ => counts
         | None => <[user := 0]> counts
         end)
  end.

(** The entries [json.Unmarshal] reads from the group's counts.json: none
    when the file is missing or holds null. *)
Definition stored_counts (s : State) (group : string) : gmap string Z :=
  match counts_json s !! group with
  | Some (Some counts) => counts
  | _ => ∅
  end.

(** The group's counts.json can be read and holds null. *)
Definition null_counts (env : Env) (s : State) (group : string) : Prop :=
  fails env MkdirAll_dataDir group = false /\ counts_json s !! group = Some None.

(** The map [readCounts(group)] returns, when counts.json does not hold
    null. *)
Definition counts_of (env : Env) (s : State) (group : string) : gmap string Z :=
  if fails env MkdirAll_dataDir group then ∅
  else
    let counts := stored_counts s group in
    match conf_yaml env group with
    | Some (Some groupConf) => with_zeros (Users groupConf) counts
    | _ => counts
    end.

(** The members of a group whose configuration loads; none otherwise. *)
Definition members (env : Env) (group : string) : list string :=
  match conf_yaml env group with
  | Some (Some groupConf) => Users groupConf
  | _ => []
  end.

(** How [readCounts(group)] ends: with the nil map of a counts.json that holds
    null it returns nil when there is no user to give the count 0, and panics
    at the first user otherwise. *)
Definition readCounts_outcome (env : Env) (s : State) (group : string) : outcome GoMap :=
  if fails env MkdirAll_dataDir group then Ret (Some ∅)
  else
    match counts_json s !! group with
    | Some None =>
        match members env group with
        | [] => Ret None
        | _ :: _ => Panic "assignment to entry in nil map"
        end
    | _ => Ret (Some (counts_of env s group))
    end.

(** [s'] has the files, the output and the record of availability calls
    of [s]. *)
Definition quiet (s s' : State) : Prop :=
  index_log s' = index_log s /\ counts_json s' = counts_json s
  /\ assignments_log s' = assignments_log s /\ stdout s' = stdout s
  /\ checked s' = checked s.

(** The strategies and checkers the factory can return. *)
Definition known_strategy (strategy : runner.AssignmentStrategy) : Prop :=
  strategy = runner.Random \/ strategy = runner.LeastAssigned
  \/ strategy = runner.RoundRobin.

Definition known_checker (availChecker : runner.AvailabilityChecker) : Prop :=
  availChecker = runner.InOutChecker \/ availChecker = runner.AlwaysAvailable.

(** The factory [Assign] builds. *)
Definition default_factory : runner.ComponentFactory :=
  runner.NewComponentFactory runner.DefaultConfigLoader runner.DefaultStorageManager
    runner.DefaultCountManager runner.DefaultAssignmentLogger.

(** The errors [Assign] can return before its scan starts. *)
Definition early_error (group : string) (e : error) : Prop :=
  (exists inner, e = ConfigError group inner)
  \/ (exists inner, e = Wrapf "failed to get counts" inner)
  \/ (exists inner, e = SelectionError group inner).

(** A call that reported the user unavailable, without an error. *)
Definition unavailable (call : string * (bool * option error)) : Prop :=
  snd call = (false, None).

(** ** The text of index.log, in the words of the specification *)

(** [sep] occurs in [s]. *)
Definition occurs (sep s : string) : Prop := exists a b, s = a +:+ sep +:+ b.

(** [s] is [a], then [sep], then [b], and no occurrence of [sep] in [s]
    starts earlier. *)
Definition first_cut (sep s a b : string) : Prop :=
  s = a +:+ sep +:+ b
  /\ forall a' b', s = a' +:+ sep +:+ b' -> (String.length a <= String.length a')%nat.

(** [n] line feeds. *)
Fixpoint newlines (n : nat) : string :=
  match n with
  | O => EmptyString
  | S n' => golib.LF +:+ newlines n'
  end.

(** The file holds no line but empty ones. *)
Definition no_line (data : string) : Prop := exists n, data = newlines n.

(** [line] is the last non-empty line of the file: it starts the file or
    follows a line feed, and only line feeds follow it. *)
Definition last_line (data line : string) : Prop :=
  line <> EmptyString /\ ~ occurs golib.LF line
  /\ exists before n,
       data = before +:+ line +:+ newlines n
       /\ (before = EmptyString \/ exists p, before = p +:+ golib.LF).

(** [line] has the form [<prefix> -- <integer>] with the integer [n]: the
    text after its first "--" holds no further "--" and is, white space
    around it apart, a decimal integer that fits [int]. *)
Definition index_line (line : string) (n : Z) : Prop :=
  exists prefix rest,
    first_cut "--" line prefix rest
    /\ ~ occurs "--" rest
    /\ golib.Atoi (golib.TrimSpace rest) = (n, None).

(** What a timestamp in the layout of RFC 3339 satisfies, as far as
    index.log depends on it: no line feed, no two hyphens in a row. *)
Definition timestamp_ok (ts : string) : Prop :=
  ~ occurs golib.LF ts /\ ~ occurs "--" ts.

(** [m] leaves the part [f] of the state as it found it. *)
Definition preserving {X A : Type} (f : State -> X) (m : M A) : Prop :=
  forall env s, f (snd (m env s)) = f s.

(** Every value [m] returns satisfies [Q]. *)
Definition returns {A : Type} (Q : A -> Prop) (m : M A) : Prop :=
  forall env s a, fst (m env s) = Ret a -> Q a.

(** The states the writes of a committed assignment leave behind when no
    system call fails. *)

(** After [writeLastIndex(group, index)]. *)
Definition after_writeLastIndex (env : Env) (group : string) (index : Z) (s : State)
    : State :=
  {| data_dirs := {[group]} ∪ data_dirs s;
     index_log :=
       <[group := default EmptyString (index_log s !! group)
                  +:+ now_RFC3339 env (clock s) +:+ " -- " +:+ golib.fmt_d index
                  +:+ golib.LF]> (index_log s);
     counts_json := counts_json s;
     assignments_log := assignments_log s;
     stdout := stdout s;
     clock := S (clock s);
     checked := checked s |}.

(** After [incrementCount(group, user)]. *)
Definition after_incrementCount (env : Env) (group user : string) (s : State) : State :=
  {| data_dirs := {[group]} ∪ ({[group]} ∪ data_dirs s);
     index_log := index_log s;
     counts_json :=
       <[group := Some (<[user := wrap (default 0 (counts_of env s group !! user) + 1)]>
                          (counts_of env s group))]> (counts_json s);
     assignments_log := assignments_log s;
     stdout := stdout s;
     clock := clock s;
     checked := checked s |}.

(** The entry [logAssignment] writes. *)
Definition log_entry (env : Env) (group user strategy : string)
    (lastIndex nextIndex : Z) (counts : GoMap) (s : State) : AssignmentLog :=
  {| log_Timestamp := now_RFC3339 env (clock s); log_Group := group;
     log_User := user; log_Strategy := strategy; log_LastIndex := lastIndex;
     log_NextIndex := nextIndex; log_TotalCount := len (members env group);
     log_UserCount := map_get counts user |}.

(** After [logAssignment(group, user, strategy, lastIndex, nextIndex, counts)]. *)
Definition after_logAssignment (env : Env) (group user strategy : string)
    (lastIndex nextIndex : Z) (counts : GoMap) (s : State) : State :=
  {| data_dirs := {[group]} ∪ data_dirs s;
     index_log := index_log s;
     counts_json := counts_json s;
     assignments_log :=
       <[group := default [] (assignments_log s !! group)
                  ++ [log_entry env group user strategy lastIndex nextIndex counts s]]>
         (assignments_log s);
     stdout := stdout s;
     clock := S (clock s);
     checked := checked s |}.

(** The environment [env] with every response of the endpoint given the
    status code [code]. *)
Definition with_status (code : Z) (env : Env) : Env :=
  {| InOutApiUrlPrefix := InOutApiUrlPrefix env;
     InOutUnavailableStatuses := InOutUnavailableStatuses env;
     conf_yaml := conf_yaml env;
     now_RFC3339 := now_RFC3339 env;
     http_Get := fun n url =>
       match http_Get env n url with
       | inl err => inl err
       | inr resp => inr {| StatusCode := code; Body := Body resp |}
       end;
     rand_draw := rand_draw env;
     fails := fails env |}.

(** * Example worlds *)

(** The group of the reference scenario, under a strategy and a checker. *)
Definition team_conf (strategy checker : string) : AssigneeGroupConfig :=
  {| Strategy := strategy; AvailabilityCheckerName := checker;
     Users := ["alice"; "bob"; "charlie"] |}.

(** An environment with the one group "team", the settings of the README, a
    fixed clock, no failing system call, and [get] as the remote endpoint. *)
Definition example_env (conf : AssigneeGroupConfig)
    (get : string -> error + http_Response) : Env :=
  {| InOutApiUrlPrefix := "https://api.example.com/status/";
     InOutUnavailableStatuses := ["OOO"; "AWAY"];
     conf_yaml := fun group =>
       if String.eqb group "team" then Some (Some conf) else None;
     now_RFC3339 := fun _ => "2025-01-02T15:04:05Z";
     http_Get := fun _ url => get url;
     rand_draw := fun _ => 0;
     fails := fun _ _ => false |}.

(** No data directory, no file, nothing printed yet. *)
Definition fresh_state : State :=
  {| data_dirs := ∅; index_log := ∅; counts_json := ∅; assignments_log := ∅;
     stdout := []; clock := 0; checked := [] |}.

(** The endpoint answers 200 with the status OOO for everybody. *)
Definition everybody_out (url : string) : error + http_Response :=
  inr {| StatusCode := 200;
         Body := BodyObject {[ "inOutLocation" := JString "OOO" ]} |}.

(** The endpoint cannot be reached. *)
Definition unreachable (url : string) : error + http_Response :=
  inl (LibError "dial tcp: connection refused").

(** The endpoint answers 404 Not Found, with a JSON body that carries the
    status OOO. *)
Definition not_found_with_body (url : string) : error + http_Response :=
  inr {| StatusCode := 404;
         Body := BodyObject {[ "inOutLocation" := JString "OOO" ]} |}.

(** The endpoint answers 404 Not Found, with a JSON body that has no status
    field. *)
Definition not_found_with_message (url : string) : error + http_Response :=
  inr {| StatusCode := 404;
         Body := BodyObject {[ "error" := JString "user not found" ]} |}.

(** A state whose only file is the index.log of "team", holding [data]. *)
Definition state_with_index (data : string) : State :=
  {| data_dirs := {[ "team" ]}; index_log := {[ "team" := data ]};
     counts_json := ∅; assignments_log := ∅;
     stdout := []; clock := 0; checked := [] |}.

(** The group "team" of the reference scenario, and the same members under
    the remote checker with each of the endpoints above. *)
Definition env_always_available : Env :=
  example_env (team_conf "round_robin" "always_available") unreachable.
Definition env_everybody_out : Env :=
  example_env (team_conf "round_robin" "inout") everybody_out.
Definition env_unreachable : Env :=
  example_env (team_conf "round_robin" "inout") unreachable.
Definition env_not_found_with_body : Env :=
  example_env (team_conf "round_robin" "inout") not_found_with_body.
Definition env_not_found_with_message : Env :=
  example_env (team_conf "round_robin" "inout") not_found_with_message.

(** Two members whose counts are 2^31 and 2^31 - 1. *)
Definition two_users : list string := ["alice"; "bob"].
Definition large_counts : GoMap :=
  Some {[ "alice" := 2147483648; "bob" := 2147483647 ]}.

(** An index.log with one line, written by [writeLastIndex] for index 7. *)
Definition one_line_index : string := "2025-01-02T15:04:05Z -- 7" +:+ golib.LF.

(** The endpoint reports bob out of office and everybody else in. *)
Definition only_bob_out (url : string) : error + http_Response :=
  inr {| StatusCode := 200;
         Body := BodyObject
           {[ "inOutLocation" :=
                JString (if String.eqb url "https://api.example.com/status/bob"
                         then "OOO" else "OFFICE") ]} |}.

Definition env_only_bob_out : Env :=
  example_env (team_conf "least_assigned" "inout") only_bob_out.

(** A state whose only file is the counts.json of "team", holding [counts]. *)
Definition state_with_counts (counts : gmap string Z) : State :=
  {| data_dirs := {[ "team" ]}; index_log := ∅;
     counts_json := {[ "team" := Some counts ]}; assignments_log := ∅;
     stdout := []; clock := 0; checked := [] |}.

(** A state whose only file is the counts.json of "team", holding null. *)
Definition state_with_null_counts : State :=
  {| data_dirs := {[ "team" ]}; index_log := ∅;
     counts_json := {[ "team" := None ]}; assignments_log := ∅;
     stdout := []; clock := 0; checked := [] |}.

(** ** Further notions *)

(** Every line of the file is closed by a line feed: the file is empty or
    ends in one. *)
Definition complete_lines (data : string) : Prop :=
  data = EmptyString \/ exists p, data = p +:+ golib.LF.

(** What the scan of [Assign] does with a candidate found available, under
    the default managers: the branch [if ok] of the loop. *)
Definition commit (group : string) (dryRun : bool) (groupConf : AssigneeGroupConfig)
    (lastIndex nextIndex : Z) (user : string) : M (option error) :=
  if dryRun then
    _ ← Println ("[DRY RUN] Would assign to: " +:+ user);
    mret None
  else
    _ ← Println user;
    err ← runner.writeLastIndex group nextIndex;
    match err with
    | Some err => mret (Some (Wrapf "failed to write last index" err))
    | None =>
    err ← runner.incrementCount group user;
    match err with
    | Some err => mret (Some (Wrapf "failed to increment count" err))
    | None =>
    '(updatedCounts, err) ← runner.DefaultCountManager_GetCounts group;
    match err with
    | Some err => mret (Some (Wrapf "failed to get updated counts" err))
    | None =>
    err ← runner.logAssignment group user (Strategy groupConf) lastIndex nextIndex
            updatedCounts;
    match err with
    | Some err => mret (Some (Wrapf "failed to log assignment" err))
    | None => mret None
    end end end end.

(** [Assign] from [strategy.SelectNext] on. *)
Definition select_and_scan (group : string) (dryRun : bool)
    (groupConf : AssigneeGroupConfig) (strategy : runner.AssignmentStrategy)
    (availChecker : runner.AvailabilityChecker) (lastIndex : Z) (counts : GoMap)
    : M (option error) :=
  '(nextIndex, err) ← runner.SelectNext strategy (Users groupConf) lastIndex counts;
  match err with
  | Some err => mret (Some (SelectionError group err))
  | None =>
      runner.Assign_loop default_factory group dryRun groupConf (Users groupConf)
        lastIndex availChecker 0 nextIndex
  end.

(** The files and the output of [s'] are those of [s]; the clock may have
    moved on. *)
Definition same_files (s s' : State) : Prop :=
  data_dirs s' = data_dirs s /\ index_log s' = index_log s
  /\ counts_json s' = counts_json s /\ assignments_log s' = assignments_log s
  /\ stdout s' = stdout s.

(** The state after a committed assignment of [user], at [nextIndex], when no
    system call fails: the name is printed, index.log has its line,
    counts.json the new count and assignments.log its entry. *)
Definition after_commit (env : Env) (group : string) (groupConf : AssigneeGroupConfig)
    (lastIndex nextIndex : Z) (user : string) (s : State) : State :=
  let s1 := after_writeLastIndex env group nextIndex
              (set_stdout (fun out => out ++ [user]) s) in
  let s2 := after_incrementCount env group user s1 in
  after_logAssignment env group user (Strategy groupConf) lastIndex nextIndex
    (Some (counts_of env s2 group)) (after_mkdir env group s2).

(** The errors a committed assignment can end in. *)
Definition write_error (e : error) : Prop :=
  exists inner,
    e = Wrapf "failed to write last index" inner
    \/ e = Wrapf "failed to increment count" inner
    \/ e = Wrapf "failed to get updated counts" inner
    \/ e = Wrapf "failed to log assignment" inner.

(** [name] is one of the three strategies, resp. one of the two checkers, of
    the factory. *)
Definition strategy_name (name : string) : Prop :=
  name = "random" \/ name = "least_assigned" \/ name = "round_robin".

Definition checker_name (name : string) : Prop :=
  name = "inout" \/ name = "always_available".

(** The first candidate of the scan of [Assign]: what the group's strategy
    selects from the stored position and counts. *)
Definition first_candidate (env : Env) (s : State) (group : string)
    (groupConf : AssigneeGroupConfig) : Z :=
  let users := Users groupConf in
  if String.eqb (Strategy groupConf) "random"
  then rand_draw env (clock s) mod len users
  else if String.eqb (Strategy groupConf) "least_assigned"
  then fst (selector.LeastAssigned_SelectNext users (lastIndex_of env s group)
              (Some (counts_of env s group)))
  else fst (selector.RoundRobin_SelectNext users (lastIndex_of env s group)
              (Some (counts_of env s group))).

(** Further example worlds. *)

(** The environment [env] with the system calls [failing] failing for every
    group. *)
Definition with_failures (failing : syscall -> bool) (env : Env) : Env :=
  {| InOutApiUrlPrefix := InOutApiUrlPrefix env;
     InOutUnavailableStatuses := InOutUnavailableStatuses env;
     conf_yaml := conf_yaml env;
     now_RFC3339 := now_RFC3339 env;
     http_Get := http_Get env;
     rand_draw := rand_draw env;
     fails := fun c _ => failing c |}.

(** The data directory cannot be made. *)
Definition no_data_dir (c : syscall) : bool :=
  match c with MkdirAll_dataDir => true | _ => false end.

(** index.log cannot be opened for writing. *)
Definition no_index_log (c : syscall) : bool :=
  match c with Open_indexLog => true | _ => false end.

(** The group "team" under a strategy name the factory does not know. *)
Definition env_unknown_strategy : Env :=
  example_env (team_conf "fastest" "always_available") unreachable.

(** [k] runs of [m] in a row, up to the first that returns an error. *)
Fixpoint runs (k : nat) (m : M (option error)) : M (option error) :=
  match k with
  | O => mret None
  | S k' =>
      err ← m;
      match err with
      | Some e => mret (Some e)
      | None => runs k' m
      end
  end.

(** The settings of the README, and the same without a data directory. *)
Definition readme_settings : config.Config :=
  {| config.Storage := {| config.DataDir := "var/data"; config.ConfDir := "etc" |};
     config.Availability :=
       {| config.InOutApiUrlPrefix := "https://api.example.com/status/";
          config.InOutUnavailableStatuses := ["OOO"; "AWAY"] |} |}.

Definition settings_without_data_dir : config.Config :=
  {| config.Storage := {| config.DataDir := EmptyString; config.ConfDir := "etc" |};
     config.Availability := config.Availability readme_settings |}.

(** A file system whose one file is config.json, decoding to [decoded]. *)
Definition files_with (decoded : config.Config) : config.Files :=
  {| config.os_Stat := fun path =>
       if String.eqb path "config.json" then config.StatInfo true
       else config.StatNotExist (LibError "no such file or directory");
     config.os_Open := fun _ => None;
     config.json_Decode := fun _ _ => (decoded, None) |}.

(** A configuration directory with two groups, a backup file, a directory
    whose name ends in .yaml and a file named just ".yaml". *)
Definition example_conf_dir : list config.DirEntry :=
  [ {| config.Name := ".yaml"; config.IsDir := false |};
    {| config.Name := "archive.yaml"; config.IsDir := true |};
    {| config.Name := "team-alpha.yaml"; config.IsDir := false |};
    {| config.Name := "team-alpha.yaml.bak"; config.IsDir := false |};
    {| config.Name := "team-beta.yaml"; config.IsDir := false |} ].

(** What was in the logs of [group] in [s] is still there in [s'], with at
    most more text or entries behind it. *)
Definition history_kept (group : string) (s s' : State) : Prop :=
  (forall data, index_log s !! group = Some data ->
     exists more, index_log s' !! group = Some (data +:+ more))
  /\ (forall entries, assignments_log s !! group = Some entries ->
        exists more, assignments_log s' !! group = Some (entries ++ more)).



(** * Properties *)

(** ** Integers and slices *)

Lemma wrap_id (z : Z) : is_int z -> wrap z = z.
Proof.
  unfold is_int, wrap, min_int, max_int, int_bits. intros H.
  change (2 ^ (64 - 1)) with 9223372036854775808 in *.
  change (2 ^ 64) with 18446744073709551616.
  rewrite Z.mod_small; lia.
Qed.

Lemma wrap_is_int (z : Z) : is_int (wrap z).
Proof.
  unfold is_int, wrap, min_int, max_int, int_bits.
  change (2 ^ (64 - 1)) with 9223372036854775808.
  change (2 ^ 64) with 18446744073709551616.
  pose proof (Z.mod_pos_bound (z + 9223372036854775808) 18446744073709551616).
  lia.
Qed.

Lemma len_nonneg {A : Type} (l : list A) : 0 <= len l.
Proof. unfold len. lia. Qed.

Lemma len_pos {A : Type} (l : list A) : l <> [] -> 0 < len l.
Proof. destruct l; [congruence|]. unfold len. simpl. lia. Qed.

Lemma len_zero {A : Type} (l : list A) : len l = 0 -> l = [].
Proof. destruct l; [reflexivity|]. unfold len. simpl. lia. Qed.

(** Inside the scan of [Assign] the two increments stay in range: the model's
    exact sums are Go's wrapped ones. *)
Lemma next_no_wrap {A : Type} (users : list A) (i : Z) :
  slice_ok users -> 0 <= i < len users -> wrap (i + 1) = i + 1.
Proof.
  unfold slice_ok. intros Hs Hi. apply wrap_id.
  unfold is_int, min_int, max_int, int_bits in *.
  change (2 ^ (64 - 1)) with 9223372036854775808 in *. lia.
Qed.

Lemma index_Some {A : Type} (l : list A) (i : Z) :
  0 <= i < len l -> exists a, index l i = Some a.
Proof.
  intros [H0 H1]. unfold index.
  replace (0 <=? i) with true by (symmetry; apply Z.leb_le; lia).
  replace (i <? len l) with true by (symmetry; apply Z.ltb_lt; lia).
  simpl. apply lookup_lt_is_Some_2. unfold len in H1. lia.
Qed.

Lemma index_None_neg {A : Type} (l : list A) (i : Z) : i < 0 -> index l i = None.
Proof.
  intros H. unfold index.
  replace (0 <=? i) with false by (symmetry; apply Z.leb_gt; lia). reflexivity.
Qed.

Lemma index_inv {A : Type} (l : list A) (i : Z) (a : A) :
  index l i = Some a -> 0 <= i < len l.
Proof.
  unfold index. destruct (0 <=? i) eqn:H0; [|discriminate].
  destruct (i <? len l) eqn:H1; [|discriminate]. intros _.
  apply Z.leb_le in H0. apply Z.ltb_lt in H1. lia.
Qed.

(** ** RoundRobin *)

(** C2. For a non-empty member list and lastIndex between -1 and
    len(members) - 1, [RoundRobin.SelectNext] returns
    (lastIndex + 1) mod len(members) and no error; for lastIndex = -1 that
    is index 0. *)
Theorem RoundRobin_in_domain (users : list string) (lastIndex : Z) (counts : GoMap) :
  users <> [] -> slice_ok users -> -1 <= lastIndex <= len users - 1 ->
  selector.RoundRobin_SelectNext users lastIndex counts
    = ((lastIndex + 1) mod len users, None)
  /\ (lastIndex = -1 ->
      selector.RoundRobin_SelectNext users lastIndex counts = (0, None)).
Proof.
  intros Hne Hs Hr. pose proof (len_pos users Hne) as Hpos.
  assert (Heq : selector.RoundRobin_SelectNext users lastIndex counts
                = ((lastIndex + 1) mod len users, None)).
  { unfold selector.RoundRobin_SelectNext.
    destruct (Z.eqb_spec (len users) 0) as [E|_]; [lia|].
    rewrite wrap_id.
    - rewrite Z.rem_mod_nonneg by lia. reflexivity.
    - unfold slice_ok in Hs. unfold is_int, min_int, max_int, int_bits in *.
      change (2 ^ (64 - 1)) with 9223372036854775808 in *. lia. }
  split; [exact Heq|].
  intros ->. rewrite Heq. change (-1 + 1) with 0. rewrite Z.mod_0_l by lia.
  reflexivity.
Qed.

Lemma RoundRobin_in_domain_witness :
  selector.RoundRobin_SelectNext ["a"; "b"; "c"] (-1) None = ((-1 + 1) mod 3, None)
  /\ selector.RoundRobin_SelectNext ["a"; "b"; "c"] (-1) None = (0, None).
Proof.
  destruct (RoundRobin_in_domain ["a"; "b"; "c"] (-1) None) as [H1 H2].
  - discriminate.
  - unfold slice_ok. vm_compute. discriminate.
  - unfold len. simpl. lia.
  - split; [exact H1 | apply H2; reflexivity].
Defined.

(** C9. For a non-empty users list and any [int] lastIndex,
    [RoundRobin.SelectNext] returns Go's truncated remainder
    (lastIndex + 1) % len(users) and no error; for lastIndex <= -2 with
    lastIndex + 1 not a multiple of len(users) that result is negative, so it
    is not an index of users. *)
Theorem RoundRobin_any_lastIndex (users : list string) (lastIndex : Z) (counts : GoMap) :
  users <> [] -> is_int lastIndex ->
  selector.RoundRobin_SelectNext users lastIndex counts
    = (Z.rem (wrap (lastIndex + 1)) (len users), None)
  /\ (lastIndex <= -2 -> Z.rem (lastIndex + 1) (len users) <> 0 ->
      exists r, selector.RoundRobin_SelectNext users lastIndex counts = (r, None)
                /\ r = Z.rem (lastIndex + 1) (len users)
                /\ r < 0 /\ index users r = None).
Proof.
  intros Hne Hint. pose proof (len_pos users Hne) as Hpos.
  assert (Heq : selector.RoundRobin_SelectNext users lastIndex counts
                = (Z.rem (wrap (lastIndex + 1)) (len users), None)).
  { unfold selector.RoundRobin_SelectNext.
    destruct (Z.eqb_spec (len users) 0) as [E|_]; [lia|reflexivity]. }
  split; [exact Heq|].
  intros Hle Hnz. exists (Z.rem (lastIndex + 1) (len users)).
  assert (Hw : wrap (lastIndex + 1) = lastIndex + 1).
  { apply wrap_id. unfold is_int, min_int, max_int, int_bits in *.
    change (2 ^ (64 - 1)) with 9223372036854775808 in *. lia. }
  assert (Hneg : Z.rem (lastIndex + 1) (len users) < 0).
  { pose proof (Z.rem_sign_nz (lastIndex + 1) (len users) ltac:(lia) Hnz) as Hsgn.
    rewrite (Z.sgn_neg (lastIndex + 1)) in Hsgn by lia.
    apply Z.sgn_neg_iff. exact Hsgn. }
  rewrite Heq, Hw. repeat split; auto using index_None_neg.
Qed.

Lemma RoundRobin_any_lastIndex_witness :
  selector.RoundRobin_SelectNext ["a"; "b"; "c"] (-5) None
    = (Z.rem (wrap (-5 + 1)) 3, None)
  /\ exists r, selector.RoundRobin_SelectNext ["a"; "b"; "c"] (-5) None = (r, None)
                /\ r = Z.rem (-5 + 1) 3 /\ r < 0 /\ index ["a"; "b"; "c"] r = None.
Proof.
  destruct (RoundRobin_any_lastIndex ["a"; "b"; "c"] (-5) None) as [H1 H2].
  - discriminate.
  - unfold is_int. vm_compute. split; discriminate.
  - split; [exact H1 | apply H2; [lia | vm_compute; discriminate]].
Defined.

(** ** LeastAssigned *)

Lemma LeastAssigned_loop_inv (counts : GoMap) (rest : list string) :
  forall done min index,
    LeastAssigned_inv counts done min index ->
    exists min', LeastAssigned_inv counts (done ++ rest) min'
                   (selector.LeastAssigned_loop counts rest (len done) min index).
Proof.
  induction rest as [|u rest IH]; intros done min index Hinv.
  - exists min. rewrite app_nil_r. exact Hinv.
  - cbn [selector.LeastAssigned_loop].
    assert (Hlen : len done + 1 = len (done ++ [u])).
    { unfold len. rewrite length_app. simpl. lia. }
    replace (done ++ u :: rest) with ((done ++ [u]) ++ rest)
      by (rewrite <- app_assoc; reflexivity).
    rewrite Hlen. destruct Hinv as [Hall Hst].
    destruct (Z.ltb_spec (map_get counts u) min) as [Hlt|Hge]; apply IH.
    + split.
      * intros v Hv. apply elem_of_app in Hv as [Hv|Hv].
        -- specialize (Hall v Hv). lia.
        -- apply list_elem_of_singleton in Hv as ->. lia.
      * right. exists (length done), u. repeat split.
        -- rewrite lookup_app_r by lia. rewrite Nat.sub_diag. reflexivity.
        -- intros j v Hj Hjv. rewrite lookup_app_l in Hjv by lia.
           apply list_elem_of_lookup_2 in Hjv. specialize (Hall v Hjv). lia.
    + split.
      * intros v Hv. apply elem_of_app in Hv as [Hv|Hv].
        -- exact (Hall v Hv).
        -- apply list_elem_of_singleton in Hv as ->. lia.
      * destruct Hst as [Hst|(k & w & Hk & Hw & Hmin & Hfirst)]; [left; exact Hst|].
        right. exists k, w. pose proof (lookup_lt_Some _ _ _ Hw) as Hklt.
        repeat split; auto.
        -- rewrite lookup_app_l by lia. exact Hw.
        -- intros j v Hj Hjv. rewrite lookup_app_l in Hjv by lia. eauto.
Qed.

(** What the code does: when some member's count is below 2^31 - 1, the
    result is the lowest index of the least count. *)
Lemma LeastAssigned_below_init (users : list string) (lastIndex : Z) (counts : GoMap) :
  (exists u, u ∈ users /\ map_get counts u < min_init) ->
  exists k, selector.LeastAssigned_SelectNext users lastIndex counts = (Z.of_nat k, None)
            /\ first_min_index counts users k.
Proof.
  intros (u0 & Hin & Hlow).
  unfold selector.LeastAssigned_SelectNext.
  destruct (Z.eqb_spec (len users) 0) as [E|_].
  { apply len_zero in E. subst. inversion Hin. }
  destruct (LeastAssigned_loop_inv counts users [] min_init 0) as [m [Hall Hst]].
  { split; [intros v Hv; inversion Hv | left; split; reflexivity]. }
  simpl in Hall, Hst. change (len []) with 0 in Hst. fold min_init.
  destruct Hst as [[-> _]|(k & w & Hk & Hw & Hmin & Hfirst)].
  - specialize (Hall u0 Hin). lia.
  - exists k. rewrite Hk. split; [reflexivity|].
    exists w. repeat split; auto.
    + intros j v Hjv. apply list_elem_of_lookup_2 in Hjv.
      specialize (Hall v Hjv). lia.
    + intros j v Hj Hjv. specialize (Hfirst j v Hj Hjv). lia.
Qed.

(** ... and when every member's count is 2^31 - 1 or more, the result is
    index 0 whatever the counts are. *)
Lemma LeastAssigned_all_large (users : list string) (lastIndex : Z) (counts : GoMap) :
  users <> [] -> (forall u, u ∈ users -> min_init <= map_get counts u) ->
  selector.LeastAssigned_SelectNext users lastIndex counts = (0, None).
Proof.
  intros Hne Hall. unfold selector.LeastAssigned_SelectNext.
  destruct (Z.eqb_spec (len users) 0) as [E|_].
  { apply len_zero in E. contradiction. }
  fold min_init. f_equal.
  assert (Hgen : forall rest i, (forall u, u ∈ rest -> min_init <= map_get counts u) ->
             selector.LeastAssigned_loop counts rest i min_init 0 = 0).
  { induction rest as [|u rest IH]; intros i Hr; [reflexivity|].
    cbn [selector.LeastAssigned_loop].
    destruct (Z.ltb_spec (map_get counts u) min_init) as [Hlt|_].
    - specialize (Hr u ltac:(left)). lia.
    - apply IH. intros v Hv. apply Hr. right. exact Hv. }
  apply Hgen. exact Hall.
Qed.

(** C3 (the code departs from the specification). On the 64-bit [int] of the
    release targets, with alice at 2^31 assignments and bob at 2^31 - 1,
    [LeastAssigned.SelectNext] returns index 0 (alice) although the lowest
    index of the minimum count is 1 (bob): [min] starts at 1<<31 - 1, not at
    the largest [int]. *)
Theorem LeastAssigned_misses_minimum :
  selector.LeastAssigned_SelectNext two_users (-1) large_counts = (0, None)
  /\ first_min_index large_counts two_users 1
  /\ ~ first_min_index large_counts two_users 0.
Proof.
  split; [vm_compute; reflexivity|]. split.
  - exists "bob". split; [reflexivity|]. split.
    + intros [|[|j]] v Hv; simpl in Hv; [| |discriminate];
        injection Hv as <-; vm_compute; discriminate.
    + intros [|j] v Hj Hv; [|lia]. injection Hv as <-. vm_compute. reflexivity.
  - intros (u & Hu & Hmin & _). injection Hu as <-.
    specialize (Hmin 1%nat "bob" eq_refl). vm_compute in Hmin. apply Hmin. reflexivity.
Qed.

(** ** Running computations *)

Lemma run_bind {A B : Type} (m : M A) (k : A -> M B) (env : Env) (s : State) :
  (m ≫= k) env s =
  match m env s with
  | (Ret a, s') => k a env s'
  | (Panic msg, s') => (Panic msg, s')
  end.
Proof. reflexivity. Qed.

Lemma run_ret {A : Type} (a : A) (env : Env) (s : State) :
  (mret a : M A) env s = (Ret a, s).
Proof. reflexivity. Qed.

Lemma run_deref_Some {A : Type} (a : A) (env : Env) (s : State) :
  deref (Some a) env s = (Ret a, s).
Proof. reflexivity. Qed.

Lemma run_ask (env : Env) (s : State) : ask env s = (Ret env, s).
Proof. reflexivity. Qed.

Lemma run_get (env : Env) (s : State) : get env s = (Ret s, s).
Proof. reflexivity. Qed.

Lemma run_modify (g : State -> State) (env : Env) (s : State) :
  modify g env s = (Ret tt, g s).
Proof. reflexivity. Qed.

Lemma run_tick (env : Env) (s : State) : tick env s = (Ret (clock s), set_clock S s).
Proof. reflexivity. Qed.

Lemma run_time_Now (env : Env) (s : State) :
  time_Now env s = (Ret (now_RFC3339 env (clock s)), set_clock S s).
Proof. reflexivity. Qed.

Lemma run_Println (line : string) (env : Env) (s : State) :
  Println line env s = (Ret tt, set_stdout (fun out => out ++ [line]) s).
Proof. reflexivity. Qed.

Lemma run_syscall_fails (c : syscall) (group : string) (env : Env) (s : State) :
  syscall_fails c group env s = (Ret (fails env c group), s).
Proof. reflexivity. Qed.

Create Rewrite HintDb run.
#[global] Hint Rewrite @run_bind @run_ret @run_deref_Some run_ask run_get run_modify
  run_tick run_time_Now run_Println run_syscall_fails : run.

(** Runs a computation forward through its binds. *)
Ltac run := repeat (autorewrite with run; cbv iota beta).

Section Frame.
Context {X : Type} (f : State -> X).

Lemma preserving_ret {A : Type} (a : A) : preserving f (mret a).
Proof. intros env s. reflexivity. Qed.

Lemma preserving_panic {A : Type} (msg : string) : preserving f (@panic A msg).
Proof. intros env s. reflexivity. Qed.

Lemma preserving_ask : preserving f ask.
Proof. intros env s. reflexivity. Qed.

Lemma preserving_get : preserving f get.
Proof. intros env s. reflexivity. Qed.

Lemma preserving_bind {A B : Type} (m : M A) (k : A -> M B) :
  preserving f m -> (forall a, preserving f (k a)) -> preserving f (m ≫= k).
Proof.
  intros Hm Hk env s. rewrite run_bind. specialize (Hm env s).
  destruct (m env s) as [[a|msg] s']; simpl in *.
  - rewrite Hk. exact Hm.
  - exact Hm.
Qed.

Lemma preserving_modify (g : State -> State) :
  (forall s, f (g s) = f s) -> preserving f (modify g).
Proof. intros Hg env s. apply Hg. Qed.

Lemma preserving_deref {A : Type} (p : option A) : preserving f (deref p).
Proof. destruct p; intros env s; reflexivity. Qed.

Lemma preserving_syscall_fails (c : syscall) (group : string) :
  preserving f (syscall_fails c group).
Proof. intros env s. reflexivity. Qed.

End Frame.

Create HintDb frame discriminated.

(** Steps through a computation built from binds, matches and the primitive
    operations; the operations already shown to preserve [f] are taken from
    the hint database [frame]. *)
Ltac frame_step :=
  first
    [ solve [auto with frame nocore]
    | apply preserving_ret
    | apply preserving_panic
    | apply preserving_ask
    | apply preserving_get
    | apply preserving_deref
    | apply preserving_syscall_fails
    | apply preserving_modify; solve [auto]
    | apply preserving_bind; [|intros ?]
    | match goal with
      | |- preserving _ (match ?x with _ => _ end) => destruct x
      | |- preserving _ (if ?b then _ else _) => destruct b
      end ].

Ltac frame := repeat frame_step.

Section FrameReads.
Context {X : Type} (f : State -> X).
Hypothesis f_data_dirs : forall g s, f (set_data_dirs g s) = f s.
Hypothesis f_clock : forall g s, f (set_clock g s) = f s.
Hypothesis f_stdout : forall g s, f (set_stdout g s) = f s.

Lemma preserving_tick : preserving f tick.
Proof. unfold tick. frame. Qed.
Hint Resolve preserving_tick : frame.

Lemma preserving_time_Now : preserving f time_Now.
Proof. unfold time_Now. frame. Qed.

Lemma preserving_Println (line : string) : preserving f (Println line).
Proof. unfold Println. frame. Qed.

Lemma preserving_GetGroupDataDir (group : string) :
  preserving f (config.GetGroupDataDir group).
Proof. unfold config.GetGroupDataDir. frame. Qed.
Hint Resolve preserving_GetGroupDataDir : frame.

Lemma preserving_loadAssigneeGroupConfig (group : string) :
  preserving f (runner.loadAssigneeGroupConfig group).
Proof. unfold runner.loadAssigneeGroupConfig. frame. Qed.
Hint Resolve preserving_loadAssigneeGroupConfig : frame.

Lemma preserving_readLastIndex (group : string) :
  preserving f (runner.readLastIndex group).
Proof. unfold runner.readLastIndex. frame. Qed.

Lemma preserving_map_assign (counts : GoMap) (u : string) (val : Z) :
  preserving f (map_assign counts u val).
Proof. unfold map_assign. frame. Qed.
Hint Resolve preserving_map_assign : frame.

Lemma preserving_fill_missing (users : list string) (counts : GoMap) :
  preserving f (runner.fill_missing users counts).
Proof.
  revert counts. induction users as [|user rest IH]; intros counts;
    cbn [runner.fill_missing]; frame.
Qed.
Hint Resolve preserving_fill_missing : frame.

Lemma preserving_readCounts (group : string) :
  preserving f (runner.readCounts group).
Proof. unfold runner.readCounts. frame. Qed.
Hint Resolve preserving_readCounts : frame.

Lemma preserving_DefaultCountManager_GetCounts (group : string) :
  preserving f (runner.DefaultCountManager_GetCounts group).
Proof. unfold runner.DefaultCountManager_GetCounts. frame. Qed.

Lemma preserving_AlwaysAvailable (username : string) :
  preserving f (availability.AlwaysAvailable_IsAvailable username).
Proof. apply preserving_ret. Qed.

Lemma preserving_InOutChecker (username : string) :
  preserving f (availability.InOutChecker_IsAvailable username).
Proof.
  unfold availability.InOutChecker_IsAvailable, availability.http_get. frame.
Qed.

Lemma preserving_Random (users : list string) (lastIndex : Z) (counts : GoMap) :
  preserving f (selector.Random_SelectNext users lastIndex counts).
Proof. unfold selector.Random_SelectNext, selector.rand_Intn. frame. Qed.

End FrameReads.


(** ** What the file operations compute *)

Lemma run_GetGroupDataDir (group : string) (env : Env) (s : State) :
  config.GetGroupDataDir group env s =
  (Ret (if fails env MkdirAll_dataDir group
        then (EmptyString, Some (LibError "os.MkdirAll")) else (group, None)),
   after_mkdir env group s).
Proof.
  unfold config.GetGroupDataDir, after_mkdir. run.
  destruct (fails env MkdirAll_dataDir group); run; reflexivity.
Qed.

Lemma run_loadAssigneeGroupConfig (group : string) (env : Env) (s : State) :
  runner.loadAssigneeGroupConfig group env s =
  (Ret match conf_yaml env group with
       | None => (None, Some (Wrapf "failed to read config file" (LibError "ioutil.ReadFile")))
       | Some None => (None, Some (Wrapf "failed to parse config file" (LibError "yaml.Unmarshal")))
       | Some (Some groupConf) => (Some groupConf, None)
       end, s).
Proof.
  unfold runner.loadAssigneeGroupConfig. run.
  destruct (conf_yaml env group) as [[c|]|]; reflexivity.
Qed.

Lemma run_readLastIndex (group : string) (env : Env) (s : State) :
  runner.readLastIndex group env s = (Ret (lastIndex_of env s group), after_mkdir env group s).
Proof.
  unfold runner.readLastIndex, lastIndex_of. rewrite run_bind, run_GetGroupDataDir.
  unfold after_mkdir.
  destruct (fails env MkdirAll_dataDir group); [reflexivity|].
  run. cbn [index_log set_data_dirs]. destruct (index_log s !! group); reflexivity.
Qed.

Lemma run_map_assign_Some (m : gmap string Z) (u : string) (val : Z) (env : Env)
    (s : State) :
  map_assign (Some m) u val env s = (Ret (Some (<[u := val]> m)), s).
Proof. reflexivity. Qed.

Lemma run_map_assign_nil (u : string) (val : Z) (env : Env) (s : State) :
  map_assign None u val env s = (Panic "assignment to entry in nil map", s).
Proof. reflexivity. Qed.

(** On a map that is not nil the loop that fills in the zeros returns. *)
Lemma run_fill_missing_Some (users : list string) (m : gmap string Z) (env : Env)
    (s : State) :
  runner.fill_missing users (Some m) env s = (Ret (Some (with_zeros users m)), s).
Proof.
  revert m. induction users as [|user rest IH]; intros m; [reflexivity|].
  cbn [runner.fill_missing with_zeros map_has]. rewrite run_bind.
  destruct (m !! user) as [v|] eqn:Hm.
  - rewrite bool_decide_eq_true_2 by (eexists; reflexivity). rewrite run_ret. apply IH.
  - rewrite bool_decide_eq_false_2 by (intros [v Hv]; discriminate Hv).
    rewrite run_map_assign_Some. apply IH.
Qed.

(** On the nil map it panics at the first user. *)
Lemma run_fill_missing_nil (users : list string) (env : Env) (s : State) :
  runner.fill_missing users None env s =
  (match users with
   | [] => Ret None
   | _ :: _ => Panic "assignment to entry in nil map"
   end, s).
Proof. destruct users; reflexivity. Qed.

Lemma run_readCounts (group : string) (env : Env) (s : State) :
  runner.readCounts group env s
  = (readCounts_outcome env s group, after_mkdir env group s).
Proof.
  unfold runner.readCounts, readCounts_outcome, counts_of, stored_counts, members.
  rewrite run_bind, run_GetGroupDataDir. unfold after_mkdir.
  destruct (fails env MkdirAll_dataDir group); [reflexivity|].
  run. rewrite run_loadAssigneeGroupConfig. cbn [counts_json set_data_dirs].
  destruct (counts_json s !! group) as [[m|]|]; cbn [default from_option id];
    destruct (conf_yaml env group) as [[c|]|]; try reflexivity.
  - apply run_fill_missing_Some.
  - apply run_fill_missing_nil.
  - apply run_fill_missing_Some.
Qed.

(** Unless counts.json holds null, [readCounts] returns the counts. *)
Lemma readCounts_outcome_counts (env : Env) (s : State) (group : string) :
  ~ null_counts env s group ->
  readCounts_outcome env s group = Ret (Some (counts_of env s group)).
Proof.
  intros Hnull. unfold readCounts_outcome, counts_of, null_counts in *.
  destruct (fails env MkdirAll_dataDir group); [reflexivity|].
  destruct (counts_json s !! group) as [[m|]|]; try reflexivity.
  exfalso. apply Hnull. split; reflexivity.
Qed.

Lemma readCounts_outcome_null (env : Env) (s : State) (group : string) :
  null_counts env s group ->
  readCounts_outcome env s group =
  match members env group with
  | [] => Ret None
  | _ :: _ => Panic "assignment to entry in nil map"
  end.
Proof. intros [Hmk Hnull]. unfold readCounts_outcome. rewrite Hmk, Hnull. reflexivity. Qed.

Lemma null_counts_dec (env : Env) (s : State) (group : string) :
  null_counts env s group \/ ~ null_counts env s group.
Proof.
  unfold null_counts. destruct (fails env MkdirAll_dataDir group);
    [right; intros [H _]; discriminate H|].
  destruct (counts_json s !! group) as [[m|]|].
  - right. intros [_ H]. discriminate H.
  - left. split; reflexivity.
  - right. intros [_ H]. discriminate H.
Qed.

Lemma not_null_counts (env : Env) (s : State) (group : string) :
  counts_json s !! group <> Some None -> ~ null_counts env s group.
Proof. intros H [_ Hnull]. contradiction. Qed.

Lemma null_counts_after_mkdir (env : Env) (s : State) (group : string) :
  null_counts env (after_mkdir env group s) group <-> null_counts env s group.
Proof.
  unfold null_counts, after_mkdir. destruct (fails env MkdirAll_dataDir group); reflexivity.
Qed.

Lemma run_DefaultCountManager_GetCounts (group : string) (env : Env) (s : State) :
  runner.DefaultCountManager_GetCounts group env s =
  (match readCounts_outcome env s group with
   | Ret counts =>
       Ret (if map_len counts =? 0
            then (None, Some (Errorf ("no counts found for group " +:+ group)))
            else (counts, None))
   | Panic msg => Panic msg
   end, after_mkdir env group s).
Proof.
  unfold runner.DefaultCountManager_GetCounts. rewrite run_bind, run_readCounts.
  destruct (readCounts_outcome env s group) as [counts|msg]; [|reflexivity].
  destruct (map_len counts =? 0); reflexivity.
Qed.

#[global] Hint Rewrite run_GetGroupDataDir run_loadAssigneeGroupConfig run_readLastIndex
  run_readCounts run_DefaultCountManager_GetCounts run_map_assign_Some : run.

Lemma quiet_refl (s : State) : quiet s s.
Proof. repeat split. Qed.

Lemma quiet_trans (s1 s2 s3 : State) : quiet s1 s2 -> quiet s2 s3 -> quiet s1 s3.
Proof.
  unfold quiet. intros (A1 & A2 & A3 & A4 & A5) (B1 & B2 & B3 & B4 & B5).
  repeat split; congruence.
Qed.

Lemma quiet_after_mkdir (env : Env) (group : string) (s : State) :
  quiet s (after_mkdir env group s).
Proof. unfold after_mkdir. destruct (fails env MkdirAll_dataDir group); repeat split. Qed.

Lemma quiet_set_clock (g : nat -> nat) (s : State) : quiet s (set_clock g s).
Proof. repeat split. Qed.


Lemma Assign_inv (group : string) (dryRun : bool) (env : Env) (s : State) :
  (exists e s', runner.Assign group dryRun env s = (Ret (Some e), s')
                /\ early_error group e /\ quiet s s')
  \/ (exists conf s',
        conf_yaml env group = Some (Some conf) /\ Users conf <> []
        /\ null_counts env s group
        /\ runner.Assign group dryRun env s
           = (Panic "assignment to entry in nil map", s')
        /\ quiet s s')
  \/ (exists conf counts strategy availChecker nextIndex s1,
        conf_yaml env group = Some (Some conf) /\ Users conf <> []
        /\ known_strategy strategy /\ known_checker availChecker
        /\ runner.SelectNext strategy (Users conf) (lastIndex_of env s group) counts env
             (after_mkdir env group (after_mkdir env group s)) = (Ret (nextIndex, None), s1)
        /\ quiet s s1
        /\ runner.Assign group dryRun env s =
           runner.Assign_loop default_factory group dryRun conf (Users conf)
             (lastIndex_of env s group) availChecker 0 nextIndex env s1).
Proof.
  unfold runner.Assign. fold default_factory.
  cbn [runner.LoadConfig runner.GetConfigLoader default_factory runner.NewComponentFactory
       runner.configLoader runner.DefaultConfigLoader
       runner.ReadLastIndex runner.GetStorageManager runner.storageManager
       runner.DefaultStorageManager
       runner.CountManager_GetCounts runner.GetCountManager runner.countManager
       runner.DefaultCountManager].
  run.
  destruct (conf_yaml env group) as [[conf|]|] eqn:Hconf.
  2,3: left; eexists _, s; split; [reflexivity|]; split;
       [left; eexists; reflexivity|apply quiet_refl].
  run.
  destruct (Z.eqb_spec (len (Users conf)) 0) as [E|NE].
  { left; eexists _, s; split; [reflexivity|]; split;
       [left; eexists; reflexivity|apply quiet_refl]. }
  run.
  set (s0 := after_mkdir env group (after_mkdir env group s)).
  assert (Hq0 : quiet s s0).
  { eapply quiet_trans; apply quiet_after_mkdir. }
  assert (Hne : Users conf <> []).
  { intros E. apply NE. rewrite E. reflexivity. }
  destruct (null_counts_dec env s group) as [Hnull|Hnull].
  { right; left. exists conf, s0. split; [reflexivity|]. split; [exact Hne|].
    split; [exact Hnull|]. split; [|exact Hq0].
    rewrite readCounts_outcome_null by (apply null_counts_after_mkdir; exact Hnull).
    unfold members. rewrite Hconf. destruct (Users conf); [contradiction|reflexivity]. }
  rewrite readCounts_outcome_counts by (rewrite null_counts_after_mkdir; exact Hnull).
  cbn [map_len]. cbv iota.
  destruct (Z.of_nat (size (counts_of env (after_mkdir env group s) group)) =? 0).
  { left. eexists _, s0. split; [reflexivity|]. split; [|exact Hq0].
    right; left; eexists; reflexivity. }
  unfold runner.CreateAssignmentStrategy, runner.CreateAvailabilityChecker.
  assert (HS : forall strategy, known_strategy strategy ->
     forall users lastIndex counts s0, exists r s1,
       runner.SelectNext strategy users lastIndex counts env s0 = (Ret r, s1)
       /\ quiet s0 s1).
  { intros strategy [->|[->| ->]] users lastIndex counts s'.
    - cbn [runner.SelectNext runner.Random]. unfold selector.Random_SelectNext.
      destruct (len users =? 0); [eexists _, s'; split; [reflexivity|apply quiet_refl]|].
      unfold selector.rand_Intn. run.
      eexists _, _; split; [reflexivity|apply quiet_set_clock].
    - eexists _, s'; split; [reflexivity|apply quiet_refl].
    - eexists _, s'; split; [reflexivity|apply quiet_refl]. }
  assert (Hgo : forall strategy availChecker,
     known_strategy strategy -> known_checker availChecker ->
     let run :=
       (runner.SelectNext strategy (Users conf) (lastIndex_of env s group)
          (Some (counts_of env (after_mkdir env group s) group))
        ≫= (fun '(nextIndex, err) =>
              match err with
              | Some err => mret (Some (SelectionError group err))
              | None =>
                  runner.Assign_loop default_factory group dryRun conf (Users conf)
                    (lastIndex_of env s group) availChecker 0 nextIndex
              end)) env s0 in
     (exists e s', run = (Ret (Some e), s') /\ early_error group e /\ quiet s s')
     \/ (exists nextIndex s1,
           runner.SelectNext strategy (Users conf) (lastIndex_of env s group)
             (Some (counts_of env (after_mkdir env group s) group)) env s0
             = (Ret (nextIndex, None), s1)
           /\ quiet s s1
           /\ run = runner.Assign_loop default_factory group dryRun conf (Users conf)
                      (lastIndex_of env s group) availChecker 0 nextIndex env s1)).
  { intros strategy availChecker Hs Ha. cbv zeta. rewrite run_bind.
    destruct (HS strategy Hs (Users conf) (lastIndex_of env s group)
                (Some (counts_of env (after_mkdir env group s) group)) s0)
      as ([nextIndex [err|]] & s1 & Hrun & Hq1); rewrite Hrun.
    - left. eexists _, s1. split; [reflexivity|]. split.
      + right; right; eexists; reflexivity.
      + eapply quiet_trans; eauto.
    - right. exists nextIndex, s1. split; [reflexivity|]. split; [|reflexivity].
      eapply quiet_trans; eauto. }
  destruct (String.eqb (Strategy conf) "random");
    [|destruct (String.eqb (Strategy conf) "least_assigned");
      [|destruct (String.eqb (Strategy conf) "round_robin")]].
  4: { left. eexists _, s0. split; [reflexivity|]. split; [|exact Hq0].
       left; eexists; reflexivity. }
  all: run.
  all: destruct (String.eqb (AvailabilityCheckerName conf) "inout");
    [|destruct (String.eqb (AvailabilityCheckerName conf) "always_available")].
  all: try (left; eexists _, s0; split; [reflexivity|]; split; [|exact Hq0];
            left; eexists; reflexivity).
  all: run.
  all: match goal with
       | |- context [runner.Assign_loop _ _ _ _ _ _ ?c _ _] =>
           match goal with
           | |- context [runner.SelectNext ?st _ _ _] =>
               destruct (Hgo st c) as [(e & s' & Hr & He & Hq)|(nextIndex & s1 & Hsel & Hq & Hr)];
               [unfold known_strategy; auto | unfold known_checker; auto | |]
           end
       end.
  all: cbv zeta in Hr; rewrite run_bind in Hr; rewrite Hr.
  all: try (left; exists e, s'; split; [reflexivity|split; assumption]).
  all: right; right; eexists conf, _, _, _, nextIndex, s1;
       (split; [reflexivity|]); (split; [exact Hne|]);
       (split; [|split; [|split; [exact Hsel|split; [exact Hq|reflexivity]]]]);
       unfold known_strategy, known_checker; auto.
Qed.


(** ** The scan of [Assign] *)

Section FrameScan.
Context {X : Type} (f : State -> X).
Hypothesis f_data_dirs : forall g s, f (set_data_dirs g s) = f s.
Hypothesis f_clock : forall g s, f (set_clock g s) = f s.
Hypothesis f_stdout : forall g s, f (set_stdout g s) = f s.

Lemma preserving_at_index (users : list string) (i : Z) :
  preserving f (runner.at_index users i).
Proof. unfold runner.at_index. frame. Qed.

Lemma preserving_known_checker (availChecker : runner.AvailabilityChecker)
    (user : string) :
  known_checker availChecker -> preserving f (runner.IsAvailable availChecker user).
Proof.
  intros [->| ->]; cbn [runner.IsAvailable runner.InOutChecker runner.AlwaysAvailable].
  - apply preserving_InOutChecker; auto.
  - apply preserving_AlwaysAvailable.
Qed.

(** With [f] untouched by entries in [checked]: a dry run of the scan
    preserves [f]. *)
Lemma preserving_Assign_loop_dry (factory : runner.ComponentFactory) (group : string)
    (groupConf : AssigneeGroupConfig) (users : list string) (lastIndex : Z)
    (availChecker : runner.AvailabilityChecker) :
  (forall g s, f (set_checked g s) = f s) ->
  known_checker availChecker ->
  forall (n : nat) (attempts nextIndex : Z),
    Z.to_nat (len users - attempts) = n ->
    preserving f (runner.Assign_loop factory group true groupConf users lastIndex
                    availChecker attempts nextIndex).
Proof.
  intros f_checked Hc. induction n as [|n IH]; intros attempts nextIndex Hn;
    rewrite runner.Assign_loop_equation_1;
    unfold runner.Assign_loop_unfold_clause_1;
    (destruct (Z_lt_dec attempts (len users)) as [Hlt|Hge]; [|apply preserving_ret]).
  - lia.
  - apply preserving_bind; [apply preserving_at_index|intros user].
    apply preserving_bind.
    { unfold runner.call_IsAvailable.
      apply preserving_bind; [apply preserving_known_checker, Hc|intros r].
      apply preserving_bind; [apply preserving_modify; auto|intros _; apply preserving_ret]. }
    intros [ok [err|]]; [apply preserving_ret|].
    destruct ok.
    + apply preserving_bind; [apply preserving_Println; auto|intros _; apply preserving_ret].
    + apply IH. lia.
Qed.

End FrameScan.

(** C6. A run of [Assign] with dryRun = true leaves index.log, counts.json
    and assignments.log of every group as they were, whoever is chosen. *)
Theorem Assign_dry_run_writes_nothing (env : Env) (s : State) (group : string) :
  index_log (snd (runner.Assign group true env s)) = index_log s
  /\ counts_json (snd (runner.Assign group true env s)) = counts_json s
  /\ assignments_log (snd (runner.Assign group true env s)) = assignments_log s.
Proof.
  destruct (Assign_inv group true env s)
    as [(e & s' & Hr & _ & Hq)
       |[(conf & s' & _ & _ & _ & Hr & Hq)
        |(conf & counts & strategy & availChecker & nextIndex & s1
          & _ & _ & _ & Hc & _ & Hq & Hr)]]; rewrite Hr.
  - destruct Hq as (H1 & H2 & H3 & _). auto.
  - destruct Hq as (H1 & H2 & H3 & _). auto.
  - destruct Hq as (H1 & H2 & H3 & _).
    rewrite <- H1, <- H2, <- H3.
    repeat split;
      eapply preserving_Assign_loop_dry; eauto; intros; reflexivity.
Qed.

(** ** The availability calls of a run *)

(** The writes of a committed assignment make no availability call. *)
Lemma checked_writeLastIndex (group : string) (index : Z) :
  preserving checked (runner.writeLastIndex group index).
Proof.
  unfold runner.writeLastIndex. frame.
Qed.

Lemma checked_incrementCount (group user : string) :
  preserving checked (runner.incrementCount group user).
Proof.
  unfold runner.incrementCount. apply preserving_bind; [apply preserving_readCounts; auto|].
  intros counts. apply preserving_bind; [apply preserving_map_assign|]. intros counts'.
  frame.
Qed.

Lemma checked_logAssignment (group user strategy : string) (lastIndex nextIndex : Z)
    (counts : GoMap) :
  preserving checked (runner.logAssignment group user strategy lastIndex nextIndex counts).
Proof.
  unfold runner.logAssignment. frame.
Qed.

(** The two checkers return, and enter nothing in [checked] themselves. *)
Lemma known_checker_returns (availChecker : runner.AvailabilityChecker) (user : string)
    (env : Env) (s : State) :
  known_checker availChecker ->
  exists r s', runner.IsAvailable availChecker user env s = (Ret r, s')
               /\ checked s' = checked s.
Proof.
  intros [->| ->]; cbn [runner.IsAvailable runner.InOutChecker runner.AlwaysAvailable].
  - unfold availability.InOutChecker_IsAvailable, availability.http_get. run.
    destruct (http_Get env (clock s) (InOutApiUrlPrefix env +:+ user)) as [err|resp];
      [eexists _, _; split; [reflexivity|reflexivity]|].
    destruct (Body resp) as [err|result];
      [eexists _, _; split; [reflexivity|reflexivity]|].
    destruct (result !! "inOutLocation") as [[]|];
      eexists _, _; split; reflexivity.
  - eexists _, s. split; reflexivity.
Qed.

Lemma singleton_split {A : Type} (x y : A) (pre post : list A) :
  [x] = pre ++ y :: post -> pre = [] /\ post = [] /\ y = x.
Proof.
  destruct pre as [|a [|b pre]]; simpl; intros H; try discriminate.
  injection H as -> ->. auto.
Qed.

(** The calls made by the scan from [attempts] and [nextIndex] on: at most
    len(users) - attempts of them; a call that ends in an error is the last one
    and the scan returns an AvailabilityError for its user; when the first
    candidate is a valid index and all calls report unavailable, the scan
    makes len(users) - attempts calls and returns NoAvailableAssignee. *)
Lemma Assign_loop_calls (group : string) (dryRun : bool)
    (groupConf : AssigneeGroupConfig) (users : list string) (lastIndex : Z)
    (availChecker : runner.AvailabilityChecker) :
  known_checker availChecker ->
  forall (n : nat) (attempts nextIndex : Z) (env : Env) (s : State),
    Z.to_nat (len users - attempts) = n ->
    exists calls,
      checked (snd (runner.Assign_loop default_factory group dryRun groupConf users
                      lastIndex availChecker attempts nextIndex env s))
        = checked s ++ calls
      /\ (length calls <= n)%nat
      /\ (forall pre user ok e post,
            calls = pre ++ (user, (ok, Some e)) :: post ->
            post = []
            /\ fst (runner.Assign_loop default_factory group dryRun groupConf users
                      lastIndex availChecker attempts nextIndex env s)
               = Ret (Some (AvailabilityError user e)))
      /\ (calls <> [] -> 0 <= nextIndex < len users)
      /\ (0 <= nextIndex < len users -> Forall unavailable calls ->
            length calls = n
            /\ fst (runner.Assign_loop default_factory group dryRun groupConf users
                      lastIndex availChecker attempts nextIndex env s)
               = Ret (Some (NoAvailableAssigneeError group))).
Proof.
  intros Hc. induction n as [|n IH]; intros attempts nextIndex env s Hn;
    rewrite runner.Assign_loop_equation_1;
    unfold runner.Assign_loop_unfold_clause_1;
    (destruct (Z_lt_dec attempts (len users)) as [Hlt|Hge]; try (exfalso; lia)).
  { exists []. rewrite app_nil_r. repeat split; auto; simpl; try lia; try congruence;
      match goal with H : [] = ?p ++ _ :: _ |- _ => destruct p; discriminate H end. }
  rewrite run_bind. unfold runner.at_index.
  destruct (index users nextIndex) as [user|] eqn:Hidx.
  2: { exists []. rewrite app_nil_r. repeat split; auto; simpl length; try lia;
       try congruence;
       try match goal with H : [] = ?p ++ _ :: _ |- _ => destruct p; discriminate H end;
       match goal with H : 0 <= nextIndex < len users |- _ =>
         destruct (index_Some users nextIndex H); congruence end. }
  pose proof (index_inv _ _ _ Hidx) as Hvalid.
  rewrite run_ret, run_bind. unfold runner.call_IsAvailable.
  rewrite run_bind.
  destruct (known_checker_returns availChecker user env s Hc) as (r & s1 & Hr & Hs1).
  rewrite Hr. rewrite run_bind. unfold modify at 1. rewrite run_ret.
  set (s2 := set_checked (fun calls => calls ++ [(user, r)]) s1).
  assert (Hs2 : checked s2 = checked s ++ [(user, r)]).
  { unfold s2. simpl. rewrite Hs1. reflexivity. }
  destruct r as [ok [err|]].
  - (* the checker failed *)
    rewrite run_ret. exists [(user, (ok, Some err))].
    split; [exact Hs2|]. split; [simpl; lia|].
    split; [intros pre u ok' e post Hpre|split; [intros _; exact Hvalid|intros _ Hall]].
    + apply singleton_split in Hpre as (-> & -> & [= -> -> ->]). split; reflexivity.
    + inversion Hall as [|? ? Hu _]. discriminate Hu.
  - destruct ok.
    + (* available: the rest makes no call *)
      match goal with
      | |- exists calls, checked (snd (?m env s2)) = _ /\ _ =>
          assert (Hp : preserving checked m)
      end.
      { destruct dryRun.
        - frame.
        - cbn [runner.WriteLastIndex runner.GetStorageManager default_factory
               runner.NewComponentFactory runner.storageManager
               runner.DefaultStorageManager runner.IncrementCount
               runner.GetCountManager runner.countManager runner.DefaultCountManager
               runner.CountManager_GetCounts runner.LogAssignment
               runner.GetAssignmentLogger runner.assignmentLogger
               runner.DefaultAssignmentLogger].
          apply preserving_bind; [apply preserving_Println; auto|intros _].
          apply preserving_bind; [apply checked_writeLastIndex|intros [e1|]];
            [apply preserving_ret|].
          apply preserving_bind; [apply checked_incrementCount|intros [e2|]];
            [apply preserving_ret|].
          apply preserving_bind;
            [apply preserving_DefaultCountManager_GetCounts; auto|intros [uc [e3|]]];
            [apply preserving_ret|].
          apply preserving_bind; [apply checked_logAssignment|intros [e4|]];
            apply preserving_ret. }
      exists [(user, (true, None))]. rewrite (Hp env s2).
      split; [exact Hs2|]. split; [simpl; lia|].
      split; [intros pre u ok' e post Hpre|split; [intros _; exact Hvalid|intros _ Hall]].
      * apply singleton_split in Hpre as (_ & _ & [=]).
      * inversion Hall as [|? ? Hu _]. discriminate Hu.
    + (* unavailable: on to the next candidate *)
      assert (Hnext : 0 <= Z.rem (nextIndex + 1) (len users) < len users)
        by (apply Z.rem_bound_pos; lia).
      destruct (IH (attempts + 1) (Z.rem (nextIndex + 1) (len users)) env s2 ltac:(lia))
        as (calls & Hcalls & Hlen & Herr & _ & Hall').
      exists ((user, (false, None)) :: calls).
      split; [rewrite Hcalls, Hs2, <- app_assoc; reflexivity|].
      split; [simpl; lia|].
      split; [intros pre u ok' e post Hpre|split; [intros _; exact Hvalid|intros _ Hall]].
      * destruct pre as [|x pre]; simpl in Hpre; [discriminate|].
        injection Hpre as _ Hpre. apply (Herr _ _ _ _ _ Hpre).
      * inversion Hall; subst. destruct (Hall' Hnext) as [Hl Hres]; auto.
        split; [simpl; lia|exact Hres].
Qed.

(** The calls of a whole run of [Assign]. *)
Lemma Assign_calls (group : string) (dryRun : bool) (env : Env) (s : State) :
  exists calls,
    checked (snd (runner.Assign group dryRun env s)) = checked s ++ calls
    /\ (length calls <= length (members env group))%nat
    /\ (forall pre user ok e post,
          calls = pre ++ (user, (ok, Some e)) :: post ->
          post = []
          /\ fst (runner.Assign group dryRun env s) = Ret (Some (AvailabilityError user e)))
    /\ (calls <> [] -> Forall unavailable calls ->
          length calls = length (members env group)
          /\ fst (runner.Assign group dryRun env s)
             = Ret (Some (NoAvailableAssigneeError group))).
Proof.
  destruct (Assign_inv group dryRun env s)
    as [(e & s' & Hr & _ & Hq)
       |[(conf & s' & _ & _ & _ & Hr & Hq)
        |(conf & counts & strategy & availChecker & nextIndex & s1
          & Hconf & _ & _ & Hc & _ & Hq & Hr)]]; rewrite Hr.
  - exists []. destruct Hq as (_ & _ & _ & _ & Hq). simpl. rewrite Hq, app_nil_r.
    split; [reflexivity|]. split; [lia|]. split; [|congruence].
    intros pre user ok e' post Hpre. destruct pre; discriminate.
  - exists []. destruct Hq as (_ & _ & _ & _ & Hq). simpl. rewrite Hq, app_nil_r.
    split; [reflexivity|]. split; [lia|]. split; [|congruence].
    intros pre user ok e' post Hpre. destruct pre; discriminate.
  - destruct (Assign_loop_calls group dryRun conf (Users conf) (lastIndex_of env s group)
                availChecker Hc (length (Users conf)) 0 nextIndex env s1)
      as (calls & Hcalls & Hlen & Herr & Hvalid & Hall).
    { unfold len. lia. }
    exists calls. destruct Hq as (_ & _ & _ & _ & Hq). rewrite <- Hq.
    unfold members. rewrite Hconf.
    split; [exact Hcalls|]. split; [exact Hlen|]. split; [exact Herr|].
    intros Hne Hun. apply Hall; auto.
Qed.

(** C4. In every run of [Assign] the scan asks the availability checker about
    at most len(members) candidates; when it asks about some and every answer
    is "unavailable" with no error, it has asked len(members) times and
    [Assign] fails with NoAvailableAssignee. *)
Theorem Assign_scan_bounded (group : string) (dryRun : bool) (env : Env) (s : State) :
  exists calls,
    checked (snd (runner.Assign group dryRun env s)) = checked s ++ calls
    /\ (length calls <= length (members env group))%nat
    /\ (calls <> [] -> Forall unavailable calls ->
          length calls = length (members env group)
          /\ fst (runner.Assign group dryRun env s)
             = Ret (Some (NoAvailableAssigneeError group))).
Proof.
  destruct (Assign_calls group dryRun env s) as (calls & H1 & H2 & _ & H4).
  exists calls. auto.
Qed.

Lemma Assign_scan_bounded_witness :
  exists calls,
    checked (snd (runner.Assign "team" false env_everybody_out fresh_state)) = calls
    /\ (length calls <= 3)%nat
    /\ length calls = 3%nat
    /\ fst (runner.Assign "team" false env_everybody_out fresh_state)
       = Ret (Some (NoAvailableAssigneeError "team")).
Proof.
  destruct (Assign_scan_bounded "team" false env_everybody_out fresh_state)
    as (calls & H1 & H2 & H3).
  exists calls. simpl app in H1. split; [exact H1|]. split; [exact H2|].
  vm_compute in H1. subst calls. apply H3.
  - discriminate.
  - repeat constructor.
Defined.

(** C5. When the availability checker returns an error for a candidate,
    [Assign] asks about no further candidate and fails with an
    AvailabilityError that names this user. *)
Theorem Assign_checker_error_stops (group : string) (dryRun : bool) (env : Env)
    (s : State) :
  exists calls,
    checked (snd (runner.Assign group dryRun env s)) = checked s ++ calls
    /\ forall pre user ok e post,
         calls = pre ++ (user, (ok, Some e)) :: post ->
         post = []
         /\ fst (runner.Assign group dryRun env s) = Ret (Some (AvailabilityError user e)).
Proof.
  destruct (Assign_calls group dryRun env s) as (calls & H1 & _ & H3 & _).
  exists calls. auto.
Qed.

Lemma Assign_checker_error_stops_witness :
  checked (snd (runner.Assign "team" false env_unreachable fresh_state))
    = [("alice", (false, Some (LibError "dial tcp: connection refused")))]
  /\ fst (runner.Assign "team" false env_unreachable fresh_state)
     = Ret (Some (AvailabilityError "alice" (LibError "dial tcp: connection refused"))).
Proof.
  destruct (Assign_checker_error_stops "team" false env_unreachable fresh_state)
    as (calls & H1 & H2).
  simpl app in H1. split.
  - vm_compute. reflexivity.
  - vm_compute in H1. subst calls.
    apply (H2 [] "alice" false (LibError "dial tcp: connection refused") []).
    reflexivity.
Defined.

(** ** InOutChecker *)

(** What [InOutChecker.IsAvailable] returns, case by case. *)
Lemma run_InOutChecker (username : string) (env : Env) (s : State) :
  availability.InOutChecker_IsAvailable username env s =
  (Ret match http_Get env (clock s) (InOutApiUrlPrefix env +:+ username) with
       | inl err => (false, Some err)
       | inr resp =>
           match Body resp with
           | BodyError err => (false, Some err)
           | BodyObject result =>
               match result !! "inOutLocation" with
               | Some (JString status) =>
                   (availability.unavailable_loop status (InOutUnavailableStatuses env), None)
               | _ => (true, None)
               end
           end
       end, set_clock S s).
Proof.
  unfold availability.InOutChecker_IsAvailable, availability.http_get. run.
  destruct (http_Get env (clock s) (InOutApiUrlPrefix env +:+ username)) as [err|resp];
    [reflexivity|].
  destruct (Body resp) as [err|result]; [reflexivity|].
  destruct (result !! "inOutLocation") as [[]|]; reflexivity.
Qed.

(** The status code of the response has no part in the result. *)
Lemma InOutChecker_status_blind (code : Z) (username : string) (env : Env) (s : State) :
  availability.InOutChecker_IsAvailable username (with_status code env) s
  = availability.InOutChecker_IsAvailable username env s.
Proof.
  rewrite !run_InOutChecker. cbn [with_status http_Get InOutApiUrlPrefix
    InOutUnavailableStatuses].
  destruct (http_Get env (clock s) (InOutApiUrlPrefix env +:+ username)); reflexivity.
Qed.

(** An error is returned only for a transport error or a body that does not
    decode, and then with the result [false]. *)
Lemma InOutChecker_error_cases (username : string) (env : Env) (s : State)
    (ok : bool) (e : error) :
  fst (availability.InOutChecker_IsAvailable username env s) = Ret (ok, Some e) ->
  ok = false
  /\ (http_Get env (clock s) (InOutApiUrlPrefix env +:+ username) = inl e
      \/ exists resp, http_Get env (clock s) (InOutApiUrlPrefix env +:+ username) = inr resp
                      /\ Body resp = BodyError e).
Proof.
  rewrite run_InOutChecker. cbn [fst].
  destruct (http_Get env (clock s) (InOutApiUrlPrefix env +:+ username)) as [err|resp].
  - intros [= <- <-]. auto.
  - destruct (Body resp) as [err|result] eqn:Hb.
    + intros [= <- <-]. split; [reflexivity|]. right. exists resp. auto.
    + destruct (result !! "inOutLocation") as [[]|]; discriminate.
Qed.

(** C8 (the code departs from the specification). The endpoint answers
    404 Not Found with the JSON body {"inOutLocation": "OOO"}:
    [InOutChecker.IsAvailable] returns [false] with a nil error, an
    "unavailable" result from a non-success response, where the specification
    has a RemoteCheckFailure. With the body {"error": "user not found"} it
    returns [true] with a nil error. *)
Theorem InOutChecker_not_found_is_no_error :
  (exists resp,
     http_Get env_not_found_with_body 0 "https://api.example.com/status/bob" = inr resp
     /\ StatusCode resp = 404)
  /\ fst (availability.InOutChecker_IsAvailable "bob" env_not_found_with_body fresh_state)
     = Ret (false, None)
  /\ (exists resp,
        http_Get env_not_found_with_message 0 "https://api.example.com/status/bob"
          = inr resp
        /\ StatusCode resp = 404)
  /\ fst (availability.InOutChecker_IsAvailable "bob" env_not_found_with_message
            fresh_state)
     = Ret (true, None).
Proof.
  split; [eexists; split; reflexivity|].
  split; [vm_compute; reflexivity|].
  split; [eexists; split; reflexivity|].
  vm_compute. reflexivity.
Qed.

(** ** GetCounts *)

Lemma with_zeros_lookup (users : list string) (counts : gmap string Z) (u : string) :
  with_zeros users counts !! u =
  match counts !! u with
  | Some v => Some v
  | None => if decide (u ∈ users) then Some 0 else None
  end.
Proof.
  revert counts. induction users as [|user rest IH]; intros counts.
  - simpl. destruct (counts !! u); [reflexivity|].
    destruct (decide (u ∈ [])) as [H|_]; [inversion H|reflexivity].
  - cbn [with_zeros]. rewrite IH.
    destruct (counts !! user) as [c|] eqn:Hc.
    + destruct (counts !! u) as [v|] eqn:Hu; [reflexivity|].
      assert (u <> user) by congruence.
      destruct (decide (u ∈ rest)) as [Hin|Hnin];
        destruct (decide (u ∈ user :: rest)) as [Hin'|Hnin']; try reflexivity.
      * exfalso. apply Hnin'. right. exact Hin.
      * exfalso. apply elem_of_cons in Hin' as [?|?]; contradiction.
    + destruct (decide (u = user)) as [->|Hne].
      * rewrite lookup_insert_eq, Hc.
        destruct (decide (user ∈ user :: rest)) as [_|Hnin]; [reflexivity|].
        exfalso. apply Hnin. left.
      * rewrite lookup_insert_ne by congruence.
        destruct (counts !! u) as [v|]; [reflexivity|].
        destruct (decide (u ∈ rest)) as [Hin|Hnin];
          destruct (decide (u ∈ user :: rest)) as [Hin'|Hnin']; try reflexivity.
        -- exfalso. apply Hnin'. right. exact Hin.
        -- exfalso. apply elem_of_cons in Hin' as [?|?]; contradiction.
Qed.

Lemma with_zeros_empty (users : list string) (counts : gmap string Z) :
  with_zeros users counts = ∅ <-> users = [] /\ counts = ∅.
Proof.
  split.
  - intros H. split.
    + destruct users as [|u rest]; [reflexivity|]. exfalso.
      assert (Hu : with_zeros (u :: rest) counts !! u = None)
        by (rewrite H; apply lookup_empty).
      rewrite with_zeros_lookup in Hu.
      destruct (counts !! u); [discriminate|].
      destruct (decide (u ∈ u :: rest)) as [_|Hnin]; [discriminate|].
      apply Hnin. left.
    + apply map_eq. intros u. rewrite lookup_empty.
      assert (Hu : with_zeros users counts !! u = None)
        by (rewrite H; apply lookup_empty).
      rewrite with_zeros_lookup in Hu. destruct (counts !! u); [discriminate|reflexivity].
  - intros [-> ->]. reflexivity.
Qed.

Lemma size_zero_iff (m : gmap string Z) : (Z.of_nat (size m) =? 0) = true <-> m = ∅.
Proof.
  rewrite Z.eqb_eq. rewrite <- map_size_empty_iff. lia.
Qed.

(** What [GetCounts] returns, case by case. *)
Lemma run_GetCounts (group : string) (env : Env) (s : State) :
  runner.GetCounts group env s =
  match conf_yaml env group with
  | Some (Some groupConf) =>
      (match readCounts_outcome env s group with
       | Ret counts =>
           Ret (if map_len counts =? 0
                then (None, [], Some (Errorf ("no counts found for group " +:+ group)))
                else (Some (with_zeros (Users groupConf) (default ∅ counts)),
                      Users groupConf, None))
       | Panic msg => Panic msg
       end, after_mkdir env group s)
  | _ => (Ret (None, [], Some (InvalidGroupError group)), s)
  end.
Proof.
  unfold runner.GetCounts. run.
  destruct (conf_yaml env group) as [[conf|]|] eqn:Hconf; try reflexivity.
  run. destruct (readCounts_outcome env s group) as [[m|]|msg]; [| |reflexivity].
  - destruct (map_len (Some m) =? 0); [reflexivity|].
    run. rewrite Hconf. run. rewrite run_fill_missing_Some. reflexivity.
  - reflexivity.
Qed.




(** ** Byte strings *)

Lemma sapp_cons (c : ascii) (a b : string) : String c a +:+ b = String c (a +:+ b).
Proof. reflexivity. Qed.

Lemma sapp_nil_l (s : string) : EmptyString +:+ s = s.
Proof. reflexivity. Qed.

Lemma sapp_nil_r (s : string) : s +:+ EmptyString = s.
Proof. induction s as [|c s IH]; [reflexivity|]. rewrite sapp_cons, IH. reflexivity. Qed.

Lemma sapp_assoc (a b c : string) : (a +:+ b) +:+ c = a +:+ b +:+ c.
Proof.
  induction a as [|x a IH]; [reflexivity|]. rewrite !sapp_cons, IH. reflexivity.
Qed.

Lemma slength_app (a b : string) :
  String.length (a +:+ b) = (String.length a + String.length b)%nat.
Proof.
  induction a as [|x a IH]; [reflexivity|]. rewrite sapp_cons. simpl. rewrite IH.
  reflexivity.
Qed.

Lemma sapp_inv_length (a x a' y : string) :
  a +:+ x = a' +:+ y -> String.length a = String.length a' -> a = a' /\ x = y.
Proof.
  revert a'. induction a as [|c a IH]; intros [|c' a'] H Hl; simpl in Hl; try discriminate.
  - auto.
  - rewrite !sapp_cons in H. injection H as -> H.
    destruct (IH a' H) as [-> ->]; [lia|auto].
Qed.

Lemma HasPrefix_spec (s p : string) :
  golib.HasPrefix s p = true <-> exists r, s = p +:+ r.
Proof.
  revert s. induction p as [|c p IH]; intros s.
  - simpl. split; [intros _; exists s; reflexivity|reflexivity].
  - destruct s as [|d s]; cbn [golib.HasPrefix].
    + split; [discriminate|intros [r Hr]; discriminate].
    + destruct (Ascii.eqb_spec d c) as [->|Hne].
      * rewrite IH. split; intros [r Hr]; exists r.
        -- rewrite sapp_cons, Hr. reflexivity.
        -- rewrite sapp_cons in Hr. injection Hr as ->. reflexivity.
      * split; [discriminate|]. intros [r Hr]. rewrite sapp_cons in Hr. congruence.
Qed.

Lemma HasPrefix_drop (s p : string) :
  golib.HasPrefix s p = true -> s = p +:+ golib.drop_bytes (String.length p) s.
Proof.
  revert s. induction p as [|c p IH]; intros s; [reflexivity|].
  destruct s as [|d s]; cbn [golib.HasPrefix]; [discriminate|].
  destruct (Ascii.eqb_spec d c) as [->|Hne]; [|discriminate].
  intros H. rewrite sapp_cons. simpl. rewrite <- (IH s H). reflexivity.
Qed.

(** [Cut] finds the first occurrence. *)
Lemma Cut_Some (s sep a b : string) :
  golib.Cut s sep = Some (a, b) -> first_cut sep s a b.
Proof.
  revert a b. induction s as [|c s IH]; intros a b.
  - cbn [golib.Cut]. destruct (golib.HasPrefix EmptyString sep) eqn:Hp; [|discriminate].
    intros [= <- <-]. split.
    + apply HasPrefix_drop in Hp. exact Hp.
    + intros. simpl. lia.
  - cbn [golib.Cut]. destruct (golib.HasPrefix (String c s) sep) eqn:Hp.
    + intros [= <- <-]. split.
      * apply HasPrefix_drop in Hp. exact Hp.
      * intros. simpl. lia.
    + destruct (golib.Cut s sep) as [[a0 b0]|] eqn:Hc; [|discriminate].
      intros [= <- <-]. destruct (IH a0 b0 eq_refl) as [Heq Hmin]. split.
      * rewrite sapp_cons, <- Heq. reflexivity.
      * intros [|c' a'] b' H.
        -- exfalso. assert (golib.HasPrefix (String c s) sep = true)
             by (apply HasPrefix_spec; exists b'; exact H). congruence.
        -- rewrite sapp_cons in H. injection H as _ H.
           specialize (Hmin a' b' H). simpl. lia.
Qed.

Lemma Cut_None (s sep : string) : golib.Cut s sep = None -> ~ occurs sep s.
Proof.
  induction s as [|c s IH]; cbn [golib.Cut].
  - destruct (golib.HasPrefix EmptyString sep) eqn:Hp; [discriminate|].
    intros _ (a & b & H). destruct a as [|x a]; [|discriminate].
    assert (golib.HasPrefix EmptyString sep = true)
      by (apply HasPrefix_spec; exists b; exact H). congruence.
  - destruct (golib.HasPrefix (String c s) sep) eqn:Hp; [discriminate|].
    destruct (golib.Cut s sep) as [[a0 b0]|] eqn:Hc; [discriminate|].
    intros _ (a & b & H). destruct a as [|x a].
    + assert (golib.HasPrefix (String c s) sep = true)
        by (apply HasPrefix_spec; exists b; exact H). congruence.
    + rewrite sapp_cons in H. injection H as _ H. apply IH; [reflexivity|].
      exists a, b. exact H.
Qed.

Lemma Cut_not_occurs (s sep : string) : ~ occurs sep s -> golib.Cut s sep = None.
Proof.
  intros Hno. destruct (golib.Cut s sep) as [[a b]|] eqn:Hc; [|reflexivity].
  exfalso. apply Hno. apply Cut_Some in Hc as [Heq _]. exists a, b. exact Heq.
Qed.

Lemma Cut_first (s sep a b : string) :
  first_cut sep s a b -> golib.Cut s sep = Some (a, b).
Proof.
  intros [Heq Hmin]. destruct (golib.Cut s sep) as [[a0 b0]|] eqn:Hc.
  - apply Cut_Some in Hc as [Heq0 Hmin0].
    pose proof (Hmin a0 b0 Heq0). pose proof (Hmin0 a b Heq).
    rewrite Heq0 in Heq. destruct (sapp_inv_length _ _ _ _ Heq) as [-> H']; [lia|].
    apply String.app_inj in H'. subst. reflexivity.
  - exfalso. apply (Cut_None _ _ Hc). exists a, b. exact Heq.
Qed.

(** [strings.Split] with a separator that is not empty, one cut at a time. *)
Lemma Split_unfold (s : string) (c : ascii) (sep : string) :
  golib.Split s (String c sep) =
  match golib.Cut s (String c sep) with
  | None => [s]
  | Some (before, after) => before :: golib.Split after (String c sep)
  end.
Proof.
  cbn [golib.Split]. rewrite golib.genSplit_equation_1.
  unfold golib.genSplit_unfold_clause_1.
  destruct (golib.Cut s (String c sep)) as [[a b]|]; reflexivity.
Qed.

Lemma Split_no_sep (s : string) (c : ascii) (sep : string) :
  ~ occurs (String c sep) s -> golib.Split s (String c sep) = [s].
Proof. intros H. rewrite Split_unfold, (Cut_not_occurs _ _ H). reflexivity. Qed.

Lemma Split_two (s : string) (c : ascii) (sep a b : string) :
  first_cut (String c sep) s a b -> ~ occurs (String c sep) b ->
  golib.Split s (String c sep) = [a; b].
Proof.
  intros Hf Hb. rewrite Split_unfold, (Cut_first _ _ _ _ Hf), (Split_no_sep _ _ _ Hb).
  reflexivity.
Qed.

Lemma Split_nonempty (s : string) (c : ascii) (sep : string) :
  golib.Split s (String c sep) <> [].
Proof.
  rewrite Split_unfold. destruct (golib.Cut s (String c sep)) as [[a b]|]; discriminate.
Qed.

Lemma Split_two_inv (s : string) (c : ascii) (sep a b : string) :
  golib.Split s (String c sep) = [a; b] ->
  first_cut (String c sep) s a b /\ ~ occurs (String c sep) b.
Proof.
  rewrite Split_unfold.
  destruct (golib.Cut s (String c sep)) as [[a0 b0]|] eqn:Hc; [|discriminate].
  intros [= -> Hb]. change (golib.Split b0 (String c sep) = [b]) in Hb.
  rewrite Split_unfold in Hb.
  destruct (golib.Cut b0 (String c sep)) as [[a1 b1]|] eqn:Hc0.
  { injection Hb as _ Hb. exfalso. exact (Split_nonempty _ _ _ Hb). }
  injection Hb as ->. split; [apply Cut_Some, Hc|apply Cut_None, Hc0].
Qed.

(** A separator of one byte: the fields of [x ++ sep ++ y] are those of [x]
    and then those of [y]. *)
Lemma Cut_single (c d : ascii) (s : string) :
  golib.Cut (String d s) (String c EmptyString) =
  if Ascii.eqb d c then Some (EmptyString, s)
  else match golib.Cut s (String c EmptyString) with
       | Some (before, after) => Some (String d before, after)
       | None => None
       end.
Proof.
  cbn [golib.Cut golib.HasPrefix]. destruct (Ascii.eqb d c); reflexivity.
Qed.

Lemma Cut_single_app (c : ascii) (x y : string) :
  golib.Cut (x +:+ String c y) (String c EmptyString) =
  match golib.Cut x (String c EmptyString) with
  | Some (before, after) => Some (before, after +:+ String c y)
  | None => Some (x, y)
  end.
Proof.
  induction x as [|d x IH].
  - rewrite sapp_nil_l, Cut_single, Ascii.eqb_refl. reflexivity.
  - rewrite sapp_cons, !Cut_single. destruct (Ascii.eqb d c); [reflexivity|].
    rewrite IH. destruct (golib.Cut x (String c EmptyString)) as [[a b]|]; reflexivity.
Qed.

Lemma Split_single_app (c : ascii) (x y : string) :
  golib.Split (x +:+ String c y) (String c EmptyString)
  = golib.Split x (String c EmptyString) ++ golib.Split y (String c EmptyString).
Proof.
  remember (String.length x) as n eqn:Hn. revert x Hn.
  induction n as [n IH] using lt_wf_ind. intros x Hn.
  rewrite (Split_unfold (x +:+ String c y)), (Split_unfold x), Cut_single_app.
  destruct (golib.Cut x (String c EmptyString)) as [[a b]|] eqn:Hc; [|reflexivity].
  rewrite (IH (String.length b)); [reflexivity| |reflexivity].
  subst n. eapply golib.Cut_shorter. exact Hc.
Qed.

Lemma lastNonEmpty_app (l1 l2 : list string) :
  runner.lastNonEmpty (l1 ++ l2) =
  if String.eqb (runner.lastNonEmpty l1) EmptyString then runner.lastNonEmpty l2
  else runner.lastNonEmpty l1.
Proof.
  induction l1 as [|x l1 IH]; [reflexivity|]. cbn [app runner.lastNonEmpty].
  destruct (String.eqb_spec x EmptyString) as [->|Hne]; [exact IH|].
  destruct (String.eqb_spec x EmptyString); [contradiction|reflexivity].
Qed.

Lemma Split_newlines (n : nat) :
  golib.Split (newlines n) golib.LF = replicate (S n) EmptyString.
Proof.
  induction n as [|n IH]; [reflexivity|].
  unfold golib.LF in *. rewrite Split_unfold. cbn [newlines].
  unfold golib.LF. rewrite sapp_cons, sapp_nil_l, Cut_single, Ascii.eqb_refl, IH.
  reflexivity.
Qed.

Lemma lastNonEmpty_replicate (n : nat) :
  runner.lastNonEmpty (replicate n EmptyString) = EmptyString.
Proof. induction n as [|n IH]; [reflexivity|exact IH]. Qed.

Lemma rev_replicate {A : Type} (n : nat) (x : A) : rev (replicate n x) = replicate n x.
Proof.
  induction n as [|n IH]; [reflexivity|]. simpl. rewrite IH.
  clear IH. induction n as [|n IH]; [reflexivity|]. simpl. rewrite IH. reflexivity.
Qed.

(** The scan of [readLastIndex] finds the last non-empty line. *)
Lemma lastNonEmpty_last_line (data line : string) :
  last_line data line -> runner.lastNonEmpty (rev (golib.Split data golib.LF)) = line.
Proof.
  intros (Hne & Hnolf & before & n & -> & Hbefore).
  assert (Htail : runner.lastNonEmpty (rev (golib.Split (line +:+ newlines n) golib.LF))
                  = line).
  { destruct n as [|n].
    - cbn [newlines]. rewrite sapp_nil_r. unfold golib.LF in *.
      rewrite (Split_no_sep _ _ _ Hnolf). simpl.
      destruct (String.eqb_spec line EmptyString); [contradiction|reflexivity].
    - cbn [newlines]. unfold golib.LF in *. rewrite sapp_cons, sapp_nil_l.
      rewrite Split_single_app, (Split_no_sep _ _ _ Hnolf).
      fold golib.LF. rewrite Split_newlines, rev_app_distr, rev_replicate.
      rewrite lastNonEmpty_app, lastNonEmpty_replicate. simpl.
      destruct (String.eqb_spec line EmptyString); [contradiction|reflexivity]. }
  destruct Hbefore as [->|(p & ->)]; [exact Htail|].
  rewrite sapp_assoc. unfold golib.LF at 1 2. rewrite sapp_cons, sapp_nil_l.
  rewrite Split_single_app. fold golib.LF. rewrite rev_app_distr, lastNonEmpty_app, Htail.
  destruct (String.eqb_spec line EmptyString); [contradiction|reflexivity].
Qed.

Lemma lastNonEmpty_no_line (data : string) :
  no_line data -> runner.lastNonEmpty (rev (golib.Split data golib.LF)) = EmptyString.
Proof.
  intros [n ->]. rewrite Split_newlines, rev_replicate. apply lastNonEmpty_replicate.
Qed.

(** Every file either holds no non-empty line or has a last one. *)
Lemma no_line_or_last_line (data : string) :
  no_line data \/ exists line, last_line data line.
Proof.
  induction data as [|c data IH]; [left; exists 0%nat; reflexivity|].
  destruct (Ascii.eqb_spec c "010"%char) as [->|Hc].
  - destruct IH as [[n ->]|(line & Hne & Hnolf & before & n & -> & Hb)].
    + left. exists (S n). reflexivity.
    + right. exists line. split; [exact Hne|]. split; [exact Hnolf|].
      exists (String "010"%char before), n. split; [reflexivity|]. right.
      destruct Hb as [->|(p & ->)].
      * exists EmptyString. reflexivity.
      * exists (String "010"%char p). reflexivity.
  - right. destruct IH as [[n ->]|(line & Hne & Hnolf & before & n & -> & Hb)].
    + exists (String c EmptyString). split; [discriminate|]. split.
      * intros (a & b & H). unfold golib.LF in H.
        destruct a as [|x [|y a]]; rewrite ?sapp_cons, ?sapp_nil_l in H;
          try discriminate. congruence.
      * exists EmptyString, n. split; [reflexivity|]. left. reflexivity.
    + destruct Hb as [->|(p & ->)].
      * exists (String c line). split; [discriminate|]. split.
        -- intros (a & b & H). unfold golib.LF in H. destruct a as [|x a].
           ++ rewrite sapp_nil_l, sapp_cons in H. congruence.
           ++ rewrite sapp_cons in H. injection H as _ H. apply Hnolf.
              exists a, b. exact H.
        -- exists EmptyString, n. split; [reflexivity|]. left. reflexivity.
      * exists line. split; [exact Hne|]. split; [exact Hnolf|].
        exists (String c (p +:+ golib.LF)), n. split; [reflexivity|]. right.
        exists (String c p). reflexivity.
Qed.

(** ** ReadLastIndex *)

Lemma last_line_length (data line : string) :
  last_line data line -> (0 < String.length data)%nat.
Proof.
  intros (Hne & _ & before & n & -> & _). rewrite !slength_app.
  destruct line; [contradiction|]. simpl. lia.
Qed.

(** The index parsed from a file with a last non-empty line. *)
Lemma readLastIndex_parse_line (data line : string) :
  last_line data line ->
  (forall n, index_line line n -> runner.readLastIndex_parse data = n)
  /\ ((forall n, ~ index_line line n) -> runner.readLastIndex_parse data = -1).
Proof.
  intros Hl. pose proof (last_line_length _ _ Hl) as Hlen.
  pose proof (lastNonEmpty_last_line _ _ Hl) as Hlast.
  destruct Hl as (Hne & _).
  unfold runner.readLastIndex_parse.
  destruct (Z.eqb_spec (Z.of_nat (String.length data)) 0) as [E|_]; [lia|].
  destruct (Z.eqb_spec (len (golib.Split data golib.LF)) 0) as [E|_].
  { apply len_zero in E. exfalso. exact (Split_nonempty _ _ _ E). }
  cbv zeta. rewrite Hlast.
  destruct (String.eqb_spec line EmptyString) as [E|_]; [contradiction|].
  split.
  - intros n (prefix & rest & Hf & Hno & Hatoi).
    rewrite (Split_two _ _ _ _ _ Hf Hno). cbn. rewrite Hatoi. reflexivity.
  - intros Hnone.
    destruct (golib.Split line "--") as [|a [|b [|c parts]]] eqn:Hs; try reflexivity;
      [|destruct (len (a :: b :: c :: parts) =? 2); reflexivity].
    cbn. destruct (golib.Atoi (golib.TrimSpace b)) as [v [e|]] eqn:Hatoi; [reflexivity|].
    exfalso. apply (Hnone v). apply Split_two_inv in Hs as [Hf Hno].
    exists a, b. auto.
Qed.

Lemma readLastIndex_parse_no_line (data : string) :
  no_line data -> runner.readLastIndex_parse data = -1.
Proof.
  intros Hn. unfold runner.readLastIndex_parse.
  destruct (Z.of_nat (String.length data) =? 0); [reflexivity|].
  destruct (len (golib.Split data golib.LF) =? 0); [reflexivity|].
  cbv zeta. rewrite (lastNonEmpty_no_line _ Hn). reflexivity.
Qed.

Section Returns.
Context {A : Type} (Q : A -> Prop).

Lemma returns_ret (a : A) : Q a -> returns Q (mret a).
Proof. intros H env s a' [= <-]. exact H. Qed.

Lemma returns_panic (msg : string) : returns Q (panic msg).
Proof. intros env s a H. discriminate H. Qed.

Lemma returns_bind {B : Type} (m : M B) (k : B -> M A) :
  (forall b, returns Q (k b)) -> returns Q (m ≫= k).
Proof.
  intros Hk env s a. rewrite run_bind.
  destruct (m env s) as [[b|msg] s']; [apply Hk|discriminate].
Qed.

End Returns.

(** The scan of [Assign] does not return a "failed to read last index"
    error. *)
Lemma Assign_loop_returns (factory : runner.ComponentFactory) (group : string)
    (dryRun : bool) (groupConf : AssigneeGroupConfig) (users : list string)
    (lastIndex : Z) (availChecker : runner.AvailabilityChecker) :
  forall (n : nat) (attempts nextIndex : Z),
    Z.to_nat (len users - attempts) = n ->
    returns (fun r => forall e, r <> Some (Wrapf "failed to read last index" e))
      (runner.Assign_loop factory group dryRun groupConf users lastIndex availChecker
         attempts nextIndex).
Proof.
  induction n as [|n IH]; intros attempts nextIndex Hn;
    rewrite runner.Assign_loop_equation_1;
    unfold runner.Assign_loop_unfold_clause_1;
    (destruct (Z_lt_dec attempts (len users)) as [Hlt|Hge];
     [try (exfalso; lia)|apply returns_ret; discriminate]).
  apply returns_bind. intros user. apply returns_bind. intros [ok [err|]].
  { apply returns_ret. discriminate. }
  destruct ok; [|apply IH; lia].
  destruct dryRun.
  { apply returns_bind. intros _. apply returns_ret. discriminate. }
  apply returns_bind. intros _.
  apply returns_bind. intros [e1|]; [apply returns_ret; discriminate|].
  apply returns_bind. intros [e2|]; [apply returns_ret; discriminate|].
  apply returns_bind. intros [uc [e3|]]; [apply returns_ret; discriminate|].
  apply returns_bind. intros [e4|]; apply returns_ret; discriminate.
Qed.

(** C10. [ReadLastIndex] returns for every group, with a nil error. Its value
    is -1 when index.log is missing or unreadable, when the data directory
    cannot be made, when the file is empty or holds only empty lines, and when
    its last non-empty line is not of the form [<prefix> -- <integer>];
    otherwise it is the integer of that line. No run of [Assign] returns the
    error "failed to read last index". *)
Theorem ReadLastIndex_never_fails (group : string) (env : Env) (s : State) :
  (exists v,
     fst (runner.ReadLastIndex runner.DefaultStorageManager group env s) = Ret (v, None)
     /\ (index_log s !! group = None -> v = -1)
     /\ (fails env MkdirAll_dataDir group = true -> v = -1)
     /\ (forall data,
           fails env MkdirAll_dataDir group = false ->
           index_log s !! group = Some data ->
           (data = EmptyString -> v = -1)
           /\ (no_line data -> v = -1)
           /\ (forall line, last_line data line ->
                 (forall n, index_line line n -> v = n)
                 /\ ((forall n, ~ index_line line n) -> v = -1))))
  /\ (forall dryRun e,
        fst (runner.Assign group dryRun env s)
        <> Ret (Some (Wrapf "failed to read last index" e))).
Proof.
  split.
  - exists (lastIndex_of env s group).
    cbn [runner.ReadLastIndex runner.DefaultStorageManager]. run.
    split; [reflexivity|]. unfold lastIndex_of.
    split; [intros ->; destruct (fails env MkdirAll_dataDir group); reflexivity|].
    split; [intros ->; reflexivity|].
    intros data -> ->. split; [intros ->; reflexivity|].
    split; [apply readLastIndex_parse_no_line|apply readLastIndex_parse_line].
  - intros dryRun e.
    destruct (Assign_inv group dryRun env s)
      as [(e' & s' & Hr & He & _)
         |[(conf & s' & _ & _ & _ & Hr & _)
          |(conf & counts & strategy & availChecker & nextIndex & s1
            & _ & _ & _ & _ & _ & _ & Hr)]]; rewrite Hr.
    + cbn [fst]. destruct He as [[i ->]|[[i ->]|[i ->]]]; discriminate.
    + discriminate.
    + intros H. eapply Assign_loop_returns in H; [|reflexivity]. exact (H e eq_refl).
Qed.

Lemma ReadLastIndex_never_fails_witness :
  fst (runner.ReadLastIndex runner.DefaultStorageManager "team" env_always_available
         (state_with_index one_line_index))
  = Ret (7, None).
Proof.
  destruct (ReadLastIndex_never_fails "team" env_always_available
              (state_with_index one_line_index))
    as [(v & Hv & _ & _ & Hdata) _].
  rewrite Hv. f_equal. f_equal.
  destruct (Hdata one_line_index eq_refl eq_refl) as (_ & _ & Hline).
  destruct (Hline "2025-01-02T15:04:05Z -- 7") as [Hform _].
  - split; [discriminate|]. split.
    + apply Cut_None. vm_compute. reflexivity.
    + exists EmptyString, 1%nat. split; [reflexivity|left; reflexivity].
  - apply Hform. exists "2025-01-02T15:04:05Z ", " 7". split; [|split].
    + apply Cut_Some. vm_compute. reflexivity.
    + apply Cut_None. vm_compute. reflexivity.
    + vm_compute. reflexivity.
Defined.

(** The edges of the form: the blanks around "--" are not needed, a second
    "--" anywhere in the line spoils it, and so does an integer that does not
    fit [int]. *)
Example readLastIndex_parse_edges :
  runner.readLastIndex_parse ("x--5" +:+ golib.LF) = 5
  /\ runner.readLastIndex_parse ("x ---5" +:+ golib.LF) = -5
  /\ runner.readLastIndex_parse ("x -- +5  ") = 5
  /\ runner.readLastIndex_parse ("a--b -- 5" +:+ golib.LF) = -1
  /\ runner.readLastIndex_parse ("x -- 9223372036854775808" +:+ golib.LF) = -1
  /\ runner.readLastIndex_parse ("x -- 5" +:+ golib.LF +:+ "y" +:+ golib.LF) = -1.
Proof. repeat split; vm_compute; reflexivity. Qed.

(** A position below -1 in index.log: with round_robin the first candidate is
    the negative remainder, and [users[nextIndex]] stops the run in a panic
    before any availability call. *)
Example Assign_negative_position_panics :
  lastIndex_of env_always_available
    (state_with_index ("2025-01-02T15:04:05Z -- -5" +:+ golib.LF)) "team" = -5
  /\ fst (runner.Assign "team" false env_always_available
            (state_with_index ("2025-01-02T15:04:05Z -- -5" +:+ golib.LF)))
     = Panic "index out of range"
  /\ checked (snd (runner.Assign "team" false env_always_available
                     (state_with_index ("2025-01-02T15:04:05Z -- -5" +:+ golib.LF))))
     = [].
Proof. repeat split; vm_compute; reflexivity. Qed.

(** The second reference scenario of the specification: least_assigned with
    the counts alice 2, bob 1, charlie 2 and bob out of office. The scan starts
    at bob, finds him unavailable, moves on to charlie and assigns her. *)
Example least_assigned_scenario :
  fst (runner.Assign "team" false env_only_bob_out
         (state_with_counts {[ "alice" := 2; "bob" := 1; "charlie" := 2 ]}))
  = Ret None
  /\ stdout (snd (runner.Assign "team" false env_only_bob_out
                    (state_with_counts {[ "alice" := 2; "bob" := 1; "charlie" := 2 ]})))
     = ["charlie"]
  /\ checked (snd (runner.Assign "team" false env_only_bob_out
                     (state_with_counts {[ "alice" := 2; "bob" := 1; "charlie" := 2 ]})))
     = [("bob", (false, None)); ("charlie", (true, None))]
  /\ lastIndex_of env_only_bob_out
       (snd (runner.Assign "team" false env_only_bob_out
               (state_with_counts {[ "alice" := 2; "bob" := 1; "charlie" := 2 ]})))
       "team" = 2.
Proof. repeat split; vm_compute; reflexivity. Qed.

(** ** The writes of a committed assignment *)

Section NoFailure.
Context (env : Env) (group : string).
Hypothesis no_failure : forall c, fails env c group = false.

Lemma after_mkdir_ok (s : State) :
  after_mkdir env group s = set_data_dirs (fun dirs => {[group]} ∪ dirs) s.
Proof. unfold after_mkdir. rewrite no_failure. reflexivity. Qed.

Lemma run_writeLastIndex_ok (index : Z) (s : State) :
  runner.writeLastIndex group index env s = (Ret None, after_writeLastIndex env group index s).
Proof.
  unfold runner.writeLastIndex.
  repeat first [progress run | rewrite no_failure | rewrite after_mkdir_ok].
  unfold after_writeLastIndex, set_index_log, set_clock, set_data_dirs.
  cbn [data_dirs index_log counts_json assignments_log stdout clock checked].
  rewrite lookup_insert_eq, insert_insert_eq. reflexivity.
Qed.

Lemma run_incrementCount_ok (user : string) (s : State) :
  counts_json s !! group <> Some None ->
  runner.incrementCount group user env s = (Ret None, after_incrementCount env group user s).
Proof.
  intros Hnull. unfold runner.incrementCount. run.
  rewrite (readCounts_outcome_counts env s group (not_null_counts env s group Hnull)).
  repeat first [progress run | rewrite no_failure | rewrite after_mkdir_ok].
  reflexivity.
Qed.

Lemma run_logAssignment_ok (groupConf : AssigneeGroupConfig) (user strategy : string)
    (lastIndex nextIndex : Z) (counts : GoMap) (s : State) :
  conf_yaml env group = Some (Some groupConf) ->
  runner.logAssignment group user strategy lastIndex nextIndex counts env s
  = (Ret None, after_logAssignment env group user strategy lastIndex nextIndex counts s).
Proof.
  intros Hconf. unfold runner.logAssignment.
  repeat first [progress run | rewrite no_failure | rewrite after_mkdir_ok
               | rewrite Hconf].
  unfold after_logAssignment, log_entry, members,
    set_assignments_log, set_clock, set_data_dirs.
  cbn [data_dirs index_log counts_json assignments_log stdout clock checked].
  rewrite Hconf, lookup_insert_eq, insert_insert_eq. reflexivity.
Qed.

End NoFailure.

(** ** The line written by [writeLastIndex], read back *)

Lemma occurs_single_app (c : ascii) (x y : string) :
  occurs (String c EmptyString) (x +:+ y) ->
  occurs (String c EmptyString) x \/ occurs (String c EmptyString) y.
Proof.
  induction x as [|d x IH]; [right; assumption|].
  intros (a & b & H). rewrite sapp_cons in H. destruct a as [|e a].
  - rewrite sapp_nil_l, sapp_cons in H. injection H as -> H.
    left. exists EmptyString, x. reflexivity.
  - rewrite sapp_cons in H. injection H as -> H.
    destruct IH as [(a' & b' & ->)|Hy]; [exists a, b; exact H| |right; exact Hy].
    left. exists (String e a'), b'. reflexivity.
Qed.

(** The first "--" of [ts ++ tail], when [ts] has none and [tail] does not
    start with a hyphen, is the first "--" of [tail]. *)
Lemma Cut_dashes_app (ts tail : string) :
  golib.Cut ts "--" = None ->
  golib.HasPrefix tail "-" = false ->
  golib.Cut (ts +:+ tail) "--" =
  match golib.Cut tail "--" with
  | Some (before, after) => Some (ts +:+ before, after)
  | None => None
  end.
Proof.
  intros Hts Htail. induction ts as [|c ts IH].
  - rewrite sapp_nil_l. destruct (golib.Cut tail "--") as [[a b]|]; reflexivity.
  - cbn [golib.Cut] in Hts.
    destruct (golib.HasPrefix (String c ts) "--") eqn:Hp; [discriminate|].
    destruct (golib.Cut ts "--") as [[a b]|] eqn:Hc; [discriminate|].
    rewrite sapp_cons. cbn [golib.Cut].
    assert (Hp' : golib.HasPrefix (String c (ts +:+ tail)) "--" = false).
    { cbn [golib.HasPrefix] in *. destruct (Ascii.eqb c "-"); [|reflexivity].
      destruct ts as [|d ts].
      - rewrite sapp_nil_l. destruct tail as [|e tail]; [reflexivity|].
        cbn [golib.HasPrefix] in Htail. destruct (Ascii.eqb e "-"); [discriminate|reflexivity].
      - rewrite sapp_cons. destruct (Ascii.eqb d "-"); [discriminate|reflexivity]. }
    rewrite Hp', (IH eq_refl).
    destruct (golib.Cut tail "--") as [[a b]|]; reflexivity.
Qed.

Lemma index_line_written (ts d : string) (n : Z) :
  ~ occurs "--" ts ->
  golib.Cut (" " +:+ d) "--" = None ->
  golib.Atoi (golib.TrimSpace (" " +:+ d)) = (n, None) ->
  index_line (ts +:+ " -- " +:+ d) n.
Proof.
  intros Hts Hd Hatoi. exists (ts +:+ " "), (" " +:+ d). split; [|split].
  - apply Cut_Some. rewrite Cut_dashes_app by (auto using Cut_not_occurs).
    cbn [golib.Cut golib.HasPrefix Ascii.eqb Bool.eqb]. cbn.
    reflexivity.
  - apply Cut_None. exact Hd.
  - exact Hatoi.
Qed.

Lemma last_line_written (before ts d : string) :
  ~ occurs golib.LF ts ->
  golib.Cut (" -- " +:+ d) golib.LF = None ->
  before = EmptyString \/ (exists p, before = p +:+ golib.LF) ->
  last_line (before +:+ (ts +:+ " -- " +:+ d) +:+ golib.LF) (ts +:+ " -- " +:+ d).
Proof.
  intros Hts Hd Hb. split; [|split].
  - destruct ts; discriminate.
  - intros H. apply occurs_single_app in H as [H|H]; [contradiction|].
    exact (Cut_None _ _ Hd H).
  - exists before, 1%nat. split; [|exact Hb]. cbn [newlines].
    rewrite (sapp_nil_r golib.LF). reflexivity.
Qed.

(** ** The reference scenario *)

Lemma counts_of_nonempty (env : Env) (s : State) (group : string)
    (groupConf : AssigneeGroupConfig) :
  conf_yaml env group = Some (Some groupConf) -> Users groupConf <> [] ->
  fails env MkdirAll_dataDir group = false ->
  (Z.of_nat (size (counts_of env s group)) =? 0) = false.
Proof.
  intros Hconf Hne Hok.
  destruct (Z.of_nat (size (counts_of env s group)) =? 0) eqn:E; [|reflexivity].
  apply size_zero_iff in E. unfold counts_of in E. rewrite Hok, Hconf in E.
  apply with_zeros_empty in E as [E _]. contradiction.
Qed.

(** One committed run of [Assign] for the group of the scenario: the member
    after the last index is available at once and is assigned. *)
Lemma Assign_round_robin_step (env : Env) (s : State) (group user : string) :
  conf_yaml env group = Some (Some (team_conf "round_robin" "always_available")) ->
  (forall c, fails env c group = false) ->
  index ["alice"; "bob"; "charlie"] (Z.rem (wrap (lastIndex_of env s group + 1)) 3)
    = Some user ->
  counts_json s !! group <> Some None ->
  exists s',
    runner.Assign group false env s = (Ret None, s')
    /\ stdout s' = stdout s ++ [user]
    /\ checked s' = checked s ++ [(user, (true, None))]
    /\ index_log s' =
         <[group := default EmptyString (index_log s !! group)
                    +:+ now_RFC3339 env (clock s) +:+ " -- "
                    +:+ golib.fmt_d (Z.rem (wrap (lastIndex_of env s group + 1)) 3)
                    +:+ golib.LF]> (index_log s)
    /\ counts_json s' =
         <[group := Some (<[user := wrap (default 0 (counts_of env s group !! user) + 1)]>
                            (counts_of env s group))]> (counts_json s)
    /\ assignments_log s' =
         <[group := default [] (assignments_log s !! group)
                    ++ [{| log_Timestamp := now_RFC3339 env (S (clock s));
                           log_Group := group; log_User := user;
                           log_Strategy := "round_robin";
                           log_LastIndex := lastIndex_of env s group;
                           log_NextIndex := Z.rem (wrap (lastIndex_of env s group + 1)) 3;
                           log_TotalCount := 3;
                           log_UserCount :=
                             wrap (default 0 (counts_of env s group !! user) + 1) |}]]>
           (assignments_log s).
Proof.
  intros Hconf Hok Hidx Hnull.
  unfold runner.Assign. fold default_factory.
  cbn [runner.LoadConfig runner.GetConfigLoader default_factory runner.NewComponentFactory
       runner.configLoader runner.DefaultConfigLoader
       runner.ReadLastIndex runner.GetStorageManager runner.storageManager
       runner.DefaultStorageManager
       runner.CountManager_GetCounts runner.GetCountManager runner.countManager
       runner.DefaultCountManager].
  run. rewrite Hconf. run.
  change (len (Users (team_conf "round_robin" "always_available")) =? 0) with false.
  run.
  rewrite readCounts_outcome_counts
    by (rewrite null_counts_after_mkdir; apply not_null_counts; exact Hnull).
  cbn [map_len]. cbv iota.
  rewrite (counts_of_nonempty env _ group _ Hconf ltac:(discriminate) (Hok _)).
  change (runner.CreateAssignmentStrategy default_factory
            (Strategy (team_conf "round_robin" "always_available")))
    with (Some runner.RoundRobin, @None error).
  change (runner.CreateAvailabilityChecker default_factory
            (AvailabilityCheckerName (team_conf "round_robin" "always_available")))
    with (Some runner.AlwaysAvailable, @None error).
  run. cbn [runner.SelectNext runner.RoundRobin]. run.
  unfold selector.RoundRobin_SelectNext.
  change (len (Users (team_conf "round_robin" "always_available"))) with 3.
  change (3 =? 0) with false. cbv iota.
  rewrite runner.Assign_loop_equation_1. unfold runner.Assign_loop_unfold_clause_1.
  change (len (Users (team_conf "round_robin" "always_available"))) with 3.
  destruct (Z_lt_dec 0 3) as [_|H]; [|exfalso; lia].
  cbn [Users team_conf Strategy].
  run. unfold runner.at_index. rewrite Hidx. run.
  unfold runner.call_IsAvailable. cbn [runner.IsAvailable runner.AlwaysAvailable].
  unfold availability.AlwaysAvailable_IsAvailable. run.
  cbn [runner.WriteLastIndex runner.GetStorageManager default_factory
       runner.NewComponentFactory runner.storageManager
       runner.DefaultStorageManager runner.IncrementCount
       runner.GetCountManager runner.countManager runner.DefaultCountManager
       runner.CountManager_GetCounts runner.LogAssignment
       runner.GetAssignmentLogger runner.assignmentLogger
       runner.DefaultAssignmentLogger].
  rewrite (run_writeLastIndex_ok env group Hok). run.
  rewrite (run_incrementCount_ok env group Hok)
    by (rewrite !(after_mkdir_ok env group Hok); exact Hnull).
  run.
  rewrite readCounts_outcome_counts
    by (apply not_null_counts; cbn; rewrite lookup_insert_eq; discriminate).
  cbn [map_len]. cbv iota.
  rewrite (counts_of_nonempty env _ group _ Hconf ltac:(discriminate) (Hok _)). run.
  rewrite (run_logAssignment_ok env group Hok _ _ _ _ _ _ _ Hconf). run.
  eexists. split; [reflexivity|].
  rewrite !(after_mkdir_ok env group Hok).
  split; [reflexivity|]. split; [reflexivity|]. split; [reflexivity|].
  split; [reflexivity|].
  unfold after_logAssignment, log_entry.
  cbn [assignments_log after_incrementCount after_writeLastIndex set_data_dirs
       set_stdout set_checked clock].
  do 4 f_equal.
  - unfold members. rewrite Hconf. reflexivity.
  - unfold map_get, counts_of at 1, stored_counts.
    cbn [counts_json after_incrementCount]. rewrite Hok, Hconf.
    rewrite lookup_insert_eq. cbn [default from_option id].
    rewrite with_zeros_lookup. rewrite lookup_insert_eq. reflexivity.
Qed.


(** C1. The group has the members alice, bob, charlie, the strategy
    round_robin and the checker always_available; there is no index.log and no
    counts.json yet, and no system call fails. A first run of [Assign] that is
    not a dry run selects alice: it prints her name, asks the checker once,
    adds the line [<timestamp> -- 0] to index.log (read back as position 0),
    sets alice's count to 1 (bob and charlie at 0) and adds one entry to
    assignments.log. A second run selects bob, index 1. *)
Theorem reference_scenario (env : Env) (s : State) (group : string) :
  conf_yaml env group = Some (Some (team_conf "round_robin" "always_available")) ->
  (forall c, fails env c group = false) ->
  index_log s !! group = None ->
  counts_json s !! group = None ->
  timestamp_ok (now_RFC3339 env (clock s)) ->
  exists s1 s2,
    runner.Assign group false env s = (Ret None, s1)
    /\ stdout s1 = stdout s ++ ["alice"]
    /\ checked s1 = checked s ++ [("alice", (true, None))]
    /\ index_log s1 !! group
       = Some (now_RFC3339 env (clock s) +:+ " -- 0" +:+ golib.LF)
    /\ lastIndex_of env s1 group = 0
    /\ counts_json s1 !! group
       = Some (Some {[ "alice" := 1; "bob" := 0; "charlie" := 0 ]})
    /\ (exists entry,
          assignments_log s1 !! group
            = Some (default [] (assignments_log s !! group) ++ [entry])
          /\ log_Group entry = group /\ log_User entry = "alice"
          /\ log_Strategy entry = "round_robin"
          /\ log_LastIndex entry = -1 /\ log_NextIndex entry = 0
          /\ log_TotalCount entry = 3 /\ log_UserCount entry = 1)
    /\ runner.Assign group false env s1 = (Ret None, s2)
    /\ stdout s2 = stdout s ++ ["alice"; "bob"]
    /\ checked s2 = checked s ++ [("alice", (true, None)); ("bob", (true, None))]
    /\ (exists timestamp,
          index_log s2 !! group
            = Some ((now_RFC3339 env (clock s) +:+ " -- 0" +:+ golib.LF)
                    +:+ timestamp +:+ " -- 1" +:+ golib.LF))
    /\ counts_json s2 !! group
       = Some (Some {[ "alice" := 1; "bob" := 1; "charlie" := 0 ]}).
Proof.
  intros Hconf Hok Hindex Hcounts [Hlf Hdd].
  assert (Hlast : lastIndex_of env s group = -1).
  { unfold lastIndex_of. rewrite Hok, Hindex. reflexivity. }
  assert (Hc0 : counts_of env s group = {[ "alice" := 0; "bob" := 0; "charlie" := 0 ]}).
  { unfold counts_of, stored_counts. rewrite Hok, Hcounts, Hconf. vm_compute. reflexivity. }
  destruct (Assign_round_robin_step env s group "alice" Hconf Hok)
    as (s1 & Hrun1 & Hout1 & Hchk1 & Hidx1 & Hcnt1 & Hlog1).
  { rewrite Hlast. reflexivity. }
  { rewrite Hcounts. discriminate. }
  rewrite Hlast, Hindex in Hidx1. rewrite Hc0 in Hcnt1. rewrite Hlast, Hc0 in Hlog1.
  change (golib.fmt_d (Z.rem (wrap (-1 + 1)) 3)) with "0" in Hidx1.
  cbn [default from_option] in Hidx1. rewrite sapp_nil_l in Hidx1.
  assert (Hfile1 : index_log s1 !! group
                   = Some (now_RFC3339 env (clock s) +:+ " -- 0" +:+ golib.LF)).
  { rewrite Hidx1, lookup_insert_eq. reflexivity. }
  assert (Hlast1 : lastIndex_of env s1 group = 0).
  { unfold lastIndex_of. rewrite Hok, Hfile1.
    assert (Hl : last_line (now_RFC3339 env (clock s) +:+ " -- 0" +:+ golib.LF)
                   (now_RFC3339 env (clock s) +:+ " -- 0")).
    { pose proof (last_line_written EmptyString (now_RFC3339 env (clock s)) "0" Hlf
                    ltac:(vm_compute; reflexivity) ltac:(left; reflexivity)) as Hl.
      rewrite sapp_nil_l, sapp_assoc in Hl. exact Hl. }
    destruct (readLastIndex_parse_line _ _ Hl) as [Hform _]. apply Hform.
    exact (index_line_written (now_RFC3339 env (clock s)) "0" 0 Hdd
             ltac:(vm_compute; reflexivity) ltac:(vm_compute; reflexivity)). }
  assert (Hcount1 : counts_json s1 !! group
                    = Some (Some {[ "alice" := 1; "bob" := 0; "charlie" := 0 ]})).
  { rewrite Hcnt1, lookup_insert_eq. do 2 f_equal; vm_compute; reflexivity. }
  assert (Hc1 : counts_of env s1 group = {[ "alice" := 1; "bob" := 0; "charlie" := 0 ]}).
  { unfold counts_of, stored_counts. rewrite Hok, Hcount1, Hconf. vm_compute. reflexivity. }
  destruct (Assign_round_robin_step env s1 group "bob" Hconf Hok)
    as (s2 & Hrun2 & Hout2 & Hchk2 & Hidx2 & Hcnt2 & _).
  { rewrite Hlast1. reflexivity. }
  { rewrite Hcount1. discriminate. }
  exists s1, s2.
  split; [exact Hrun1|]. split; [exact Hout1|]. split; [exact Hchk1|].
  split; [exact Hfile1|]. split; [exact Hlast1|]. split; [exact Hcount1|].
  split.
  { eexists. split; [rewrite Hlog1, lookup_insert_eq; reflexivity|].
    cbn. repeat split; reflexivity. }
  split; [exact Hrun2|].
  split; [rewrite Hout2, Hout1, <- app_assoc; reflexivity|].
  split; [rewrite Hchk2, Hchk1, <- app_assoc; reflexivity|].
  split.
  { exists (now_RFC3339 env (clock s1)).
    rewrite Hidx2, lookup_insert_eq, Hfile1, Hlast1. reflexivity. }
  rewrite Hcnt2, lookup_insert_eq, Hc1. do 2 f_equal; vm_compute; reflexivity.
Qed.

Lemma reference_scenario_witness :
  exists s1 s2,
    runner.Assign "team" false env_always_available fresh_state = (Ret None, s1)
    /\ stdout s1 = ["alice"]
    /\ lastIndex_of env_always_available s1 "team" = 0
    /\ counts_json s1 !! "team"
       = Some (Some {[ "alice" := 1; "bob" := 0; "charlie" := 0 ]})
    /\ runner.Assign "team" false env_always_available s1 = (Ret None, s2)
    /\ stdout s2 = ["alice"; "bob"].
Proof.
  destruct (reference_scenario env_always_available fresh_state "team")
    as (s1 & s2 & H1 & H2 & _ & _ & H5 & H6 & _ & H8 & H9 & _).
  - reflexivity.
  - intros c. reflexivity.
  - reflexivity.
  - reflexivity.
  - split; apply Cut_None; vm_compute; reflexivity.
  - exists s1, s2. repeat split; assumption.
Defined.
(** * Further properties *)

(** ** Decimal numerals: [%d] and [strconv.Atoi] *)

Lemma digit_char (c : ascii) (d : Z) :
  golib.digit c = Some d ->
  c ∈ ["0"; "1"; "2"; "3"; "4"; "5"; "6"; "7"; "8"; "9"]%char.
Proof.
  destruct c as [[] [] [] [] [] [] [] []]; vm_compute; intros H;
    try discriminate H; set_solver.
Qed.

Lemma digits_of_uint_acc (d : Decimal.uint) (p : positive) :
  golib.digits (NilEmpty.string_of_uint d) (Z.pos p) = Some (Z.pos (Pos.of_uint_acc d p)).
Proof.
  revert p. induction d; intros p; cbn [NilEmpty.string_of_uint golib.digits Pos.of_uint_acc];
    [reflexivity|..];
    match goal with
    | |- context [golib.digit ?c] =>
        let v := eval vm_compute in (golib.digit c) in
        change (golib.digit c) with v; cbv iota
    end;
    rewrite <- IHd; f_equal; lia.
Qed.

Lemma digits_of_uint (d : Decimal.uint) :
  golib.digits (NilEmpty.string_of_uint d) 0 = Some (Z.of_N (Pos.of_uint d)).
Proof.
  induction d; cbn [NilEmpty.string_of_uint golib.digits Pos.of_uint];
    [reflexivity|..];
    match goal with
    | |- context [golib.digit ?c] =>
        let v := eval vm_compute in (golib.digit c) in
        change (golib.digit c) with v; cbv iota
    end;
    [exact IHd|..];
    match goal with
    | |- golib.digits _ ?a = _ =>
        let v := eval vm_compute in a in change a with v
    end;
    rewrite digits_of_uint_acc; reflexivity.
Qed.

(** A decimal numeral is made of digits. *)
Lemma string_of_uint_cases (d : Decimal.uint) :
  NilEmpty.string_of_uint d = EmptyString
  \/ exists c r k, NilEmpty.string_of_uint d = String c r /\ golib.digit c = Some k.
Proof.
  destruct d; [left; reflexivity|..]; right; eexists _, _, _; split; reflexivity.
Qed.

Lemma string_of_uint_nonnil (d : Decimal.uint) :
  d <> Decimal.Nil ->
  exists c r k, NilEmpty.string_of_uint d = String c r /\ golib.digit c = Some k.
Proof.
  intros Hd. destruct d; [contradiction|..]; eexists _, _, _; split; reflexivity.
Qed.

Lemma string_of_uint_last (d : Decimal.uint) :
  d <> Decimal.Nil ->
  exists r c k, NilEmpty.string_of_uint d = r +:+ String c EmptyString
                /\ golib.digit c = Some k.
Proof.
  induction d; intros Hd; [contradiction|..];
    (destruct (Decimal.uint_eq_dec d Decimal.Nil) as [->|Hne];
     [ eexists EmptyString, _, _; split; reflexivity
     | destruct (IHd Hne) as (r & c & k & Hr & Hk);
       cbn [NilEmpty.string_of_uint]; rewrite Hr;
       eexists (String _ r), c, k; split; [reflexivity|exact Hk] ]).
Qed.

(** No byte that is not a digit occurs in a numeral. *)
Lemma HasPrefix_numeral (d : Decimal.uint) (c : ascii) (sep : string) :
  golib.digit c = None ->
  golib.HasPrefix (NilEmpty.string_of_uint d) (String c sep) = false.
Proof.
  intros Hc. destruct (string_of_uint_cases d) as [->|(x & r & k & -> & Hk)];
    [reflexivity|].
  cbn [golib.HasPrefix]. destruct (Ascii.eqb_spec x c) as [->|_]; [congruence|reflexivity].
Qed.

Lemma Cut_numeral (d : Decimal.uint) (c : ascii) (sep : string) :
  golib.digit c = None ->
  golib.Cut (NilEmpty.string_of_uint d) (String c sep) = None.
Proof.
  intros Hc. induction d; cbn [NilEmpty.string_of_uint]; [reflexivity|..];
    cbn [golib.Cut golib.HasPrefix];
    match goal with
    | |- context [Ascii.eqb ?x c] =>
        destruct (Ascii.eqb_spec x c) as [<-|_]; [discriminate Hc|]
    end;
    rewrite IHd; reflexivity.
Qed.

(** [%d] of an [int]: an optional minus sign and a numeral. *)
Lemma fmt_d_cases (n : Z) :
  exists d, d <> Decimal.Nil /\ Z.of_N (Pos.of_uint d) = Z.abs n
    /\ golib.fmt_d n = (if n <? 0 then "-" else EmptyString) +:+ NilEmpty.string_of_uint d.
Proof.
  destruct n as [|p|p].
  - exists (Decimal.D0 Decimal.Nil). split; [discriminate|]. split; reflexivity.
  - exists (Pos.to_uint p). pose proof (Unsigned.to_uint_nonnil p) as Hn.
    split; [exact Hn|]. split; [rewrite Unsigned.of_to; reflexivity|].
    unfold golib.fmt_d. cbn [Z.to_int NilZero.string_of_int].
    unfold NilZero.string_of_uint. destruct (Pos.to_uint p); [contradiction|..]; reflexivity.
  - exists (Pos.to_uint p). pose proof (Unsigned.to_uint_nonnil p) as Hn.
    split; [exact Hn|]. split; [rewrite Unsigned.of_to; reflexivity|].
    unfold golib.fmt_d. cbn [Z.to_int NilZero.string_of_int].
    unfold NilZero.string_of_uint. destruct (Pos.to_uint p); [contradiction|..]; reflexivity.
Qed.

(** [strconv.Atoi] reads back what [%d] prints. *)
Lemma Atoi_fmt_d (n : Z) : is_int n -> golib.Atoi (golib.fmt_d n) = (n, None).
Proof.
  intros Hint. destruct (fmt_d_cases n) as (d & Hd & Hval & ->).
  destruct (string_of_uint_nonnil d Hd) as (c & r & k & Hs & Hk).
  pose proof (digits_of_uint d) as Hdig. rewrite Hval in Hdig.
  assert (Hc : c <> "-"%char /\ c <> "+"%char).
  { split; intros ->; discriminate Hk. }
  unfold is_int in Hint.
  destruct (Z.ltb_spec n 0) as [Hneg|Hpos].
  - rewrite sapp_cons, sapp_nil_l. unfold golib.Atoi.
    rewrite Hs at 1. rewrite Hdig.
    replace (- Z.abs n) with n by lia.
    destruct (Z.ltb_spec n min_int); [lia|].
    destruct (Z.ltb_spec max_int n); [lia|reflexivity].
  - rewrite sapp_nil_l. unfold golib.Atoi. rewrite Hs in *.
    destruct c as [[] [] [] [] [] [] [] []]; try (exfalso; tauto);
      rewrite Hdig; replace (Z.abs n) with n by lia;
      (destruct (Z.ltb_spec n min_int); [lia|]);
      (destruct (Z.ltb_spec max_int n); [lia|reflexivity]).
Qed.

Lemma Cut_fmt_d_dashes (n : Z) : golib.Cut (" " +:+ golib.fmt_d n) "--" = None.
Proof.
  destruct (fmt_d_cases n) as (d & _ & _ & ->).
  pose proof (Cut_numeral d "-" "-" eq_refl) as Hcut.
  pose proof (HasPrefix_numeral d "-" EmptyString eq_refl) as Hpre.
  pose proof (HasPrefix_numeral d "-" "-" eq_refl) as Hpre2.
  destruct (n <? 0).
  - rewrite sapp_cons, !sapp_nil_l, sapp_cons, sapp_nil_l.
    cbn [golib.Cut golib.HasPrefix]. cbn [Ascii.eqb Bool.eqb].
    cbv iota. cbn [golib.HasPrefix] in Hpre. rewrite Hpre. cbv iota. rewrite Hcut. reflexivity.
  - rewrite sapp_cons, !sapp_nil_l.
    cbn [golib.Cut golib.HasPrefix]. cbn [Ascii.eqb Bool.eqb]. cbv iota.
    rewrite Hcut. reflexivity.
Qed.

Lemma Cut_fmt_d_LF (n : Z) : golib.Cut (" -- " +:+ golib.fmt_d n) golib.LF = None.
Proof.
  destruct (fmt_d_cases n) as (d & _ & _ & ->).
  pose proof (Cut_numeral d "010" EmptyString eq_refl) as Hcut.
  unfold golib.LF. destruct (n <? 0);
    rewrite ?sapp_cons, ?sapp_nil_l, !Cut_single; cbn [Ascii.eqb Bool.eqb]; cbv iota;
    rewrite Hcut; reflexivity.
Qed.

(** Reversal of byte strings. *)
Lemma rev_app_sapp (a b acc : string) :
  String.rev_app (a +:+ b) acc = String.rev_app b (String.rev_app a acc).
Proof.
  revert acc. induction a as [|x a IH]; intros acc; [reflexivity|].
  rewrite sapp_cons. cbn [String.rev_app]. apply IH.
Qed.

Lemma rev_app_rev_app (s a b : string) :
  String.rev_app (String.rev_app s a) b = String.rev_app a (s +:+ b).
Proof.
  revert a b. induction s as [|x s IH]; intros a b; [reflexivity|].
  cbn [String.rev_app]. rewrite IH. reflexivity.
Qed.

Lemma rev_snoc (r : string) (c : ascii) :
  String.rev (r +:+ String c EmptyString) = String c (String.rev r).
Proof. unfold String.rev. rewrite rev_app_sapp. reflexivity. Qed.

Lemma rev_cons_rev (r : string) (c : ascii) :
  String.rev (String c (String.rev r)) = r +:+ String c EmptyString.
Proof.
  unfold String.rev. cbn [String.rev_app]. rewrite rev_app_rev_app. reflexivity.
Qed.

(** White space is trimmed up to a digit, from either side. *)
Lemma TrimLeftSpace_rev_digit (c : ascii) (k : Z) (s : string) :
  golib.digit c = Some k ->
  golib.TrimLeftSpace_rev (String c s) = String c s.
Proof.
  intros Hk. apply digit_char in Hk.
  repeat (apply elem_of_cons in Hk as [->|Hk]); [..|inversion Hk];
    (destruct s as [|a [|b s]]; [reflexivity| |]);
    destruct a as [[] [] [] [] [] [] [] []]; try reflexivity;
    destruct b as [[] [] [] [] [] [] [] []]; reflexivity.
Qed.

Lemma TrimRightSpace_digit (r : string) (c : ascii) (k : Z) :
  golib.digit c = Some k ->
  golib.TrimRightSpace (r +:+ String c EmptyString) = r +:+ String c EmptyString.
Proof.
  intros Hk. unfold golib.TrimRightSpace.
  rewrite rev_snoc, (TrimLeftSpace_rev_digit c k _ Hk). apply rev_cons_rev.
Qed.

Lemma TrimLeftSpace_digit (c : ascii) (k : Z) (s : string) :
  golib.digit c = Some k -> golib.TrimLeftSpace (String c s) = String c s.
Proof.
  intros Hk. apply digit_char in Hk.
  repeat (apply elem_of_cons in Hk as [->|Hk]); [..|inversion Hk]; reflexivity.
Qed.

(** The field [" " ++ %d] of a line of index.log, trimmed. *)
Lemma TrimSpace_fmt_d (n : Z) :
  golib.TrimSpace (" " +:+ golib.fmt_d n) = golib.fmt_d n.
Proof.
  destruct (fmt_d_cases n) as (d & Hd & _ & ->).
  destruct (string_of_uint_last d Hd) as (r & c & k & Hr & Hk).
  destruct (string_of_uint_nonnil d Hd) as (c0 & r0 & k0 & Hr0 & Hk0).
  unfold golib.TrimSpace. rewrite sapp_cons, sapp_nil_l.
  cbn [golib.TrimLeftSpace golib.asciiSpace]. cbv iota.
  destruct (n <? 0).
  - rewrite sapp_cons, sapp_nil_l.
    change (golib.TrimLeftSpace (String "-" (NilEmpty.string_of_uint d)))
      with (String "-" (NilEmpty.string_of_uint d)).
    rewrite Hr. rewrite <- sapp_cons. apply (TrimRightSpace_digit _ c k Hk).
  - rewrite sapp_nil_l. rewrite Hr0, (TrimLeftSpace_digit c0 k0 _ Hk0), <- Hr0.
    rewrite Hr. apply (TrimRightSpace_digit _ c k Hk).
Qed.

(** ** index.log: what is written is read back *)

Lemma written_line_read_back (before ts : string) (index : Z) :
  is_int index -> timestamp_ok ts -> complete_lines before ->
  runner.readLastIndex_parse
    (before +:+ ts +:+ " -- " +:+ golib.fmt_d index +:+ golib.LF) = index.
Proof.
  intros Hint [Hlf Hdd] Hb.
  assert (Hl : last_line (before +:+ ts +:+ " -- " +:+ golib.fmt_d index +:+ golib.LF)
                 (ts +:+ " -- " +:+ golib.fmt_d index)).
  { pose proof (last_line_written before ts (golib.fmt_d index) Hlf
                  (Cut_fmt_d_LF index) Hb) as Hl.
    rewrite ?sapp_assoc in Hl. rewrite ?sapp_assoc. exact Hl. }
  destruct (readLastIndex_parse_line _ _ Hl) as [Hform _]. apply Hform.
  apply index_line_written; [exact Hdd|apply Cut_fmt_d_dashes|].
  rewrite TrimSpace_fmt_d. apply Atoi_fmt_d, Hint.
Qed.

(** X1. When no system call fails, the timestamp holds neither a line feed
    nor two hyphens in a row, and index.log is missing, empty or ends in a line
    feed, [writeLastIndex(group, index)] succeeds and a following
    [readLastIndex(group)] returns [index], for every [int] index; the file
    again ends in a line feed. *)
Theorem readLastIndex_after_writeLastIndex (env : Env) (s : State) (group : string)
    (index : Z) :
  (forall c, fails env c group = false) ->
  is_int index ->
  timestamp_ok (now_RFC3339 env (clock s)) ->
  (forall data, index_log s !! group = Some data -> complete_lines data) ->
  exists s1 s2,
    runner.writeLastIndex group index env s = (Ret None, s1)
    /\ runner.readLastIndex group env s1 = (Ret index, s2)
    /\ (forall data, index_log s1 !! group = Some data -> complete_lines data).
Proof.
  intros Hok Hint Hts Hfile.
  exists (after_writeLastIndex env group index s). eexists.
  split; [apply run_writeLastIndex_ok, Hok|].
  assert (Hnew : index_log (after_writeLastIndex env group index s) !! group
                 = Some (default EmptyString (index_log s !! group)
                         +:+ now_RFC3339 env (clock s) +:+ " -- "
                         +:+ golib.fmt_d index +:+ golib.LF)).
  { cbn [index_log after_writeLastIndex]. apply lookup_insert_eq. }
  split.
  - rewrite run_readLastIndex. f_equal. f_equal. unfold lastIndex_of.
    rewrite Hok, Hnew. apply written_line_read_back; auto.
    destruct (index_log s !! group) as [data|]; [apply Hfile; reflexivity|].
    left. reflexivity.
  - intros data. rewrite Hnew. intros [= <-]. right.
    exists (default EmptyString (index_log s !! group)
            +:+ now_RFC3339 env (clock s) +:+ " -- " +:+ golib.fmt_d index).
    rewrite ?sapp_assoc. reflexivity.
Qed.

Lemma readLastIndex_after_writeLastIndex_witness :
  exists s1 s2,
    runner.writeLastIndex "team" (-42) env_always_available
      (state_with_index one_line_index) = (Ret None, s1)
    /\ runner.readLastIndex "team" env_always_available s1 = (Ret (-42), s2).
Proof.
  destruct (readLastIndex_after_writeLastIndex env_always_available
              (state_with_index one_line_index) "team" (-42))
    as (s1 & s2 & H1 & H2 & _).
  - intros c. reflexivity.
  - unfold is_int. vm_compute. split; discriminate.
  - split; apply Cut_None; vm_compute; reflexivity.
  - intros data [= <-]. right. exists "2025-01-02T15:04:05Z -- 7". reflexivity.
  - exists s1, s2. split; assumption.
Defined.

(** ** counts.json: increments and resets *)


(** What [readCounts] holds for one user: the entry of the file, else zero
    for a configured user. *)
Lemma counts_of_lookup (env : Env) (s : State) (group u : string) :
  fails env MkdirAll_dataDir group = false ->
  counts_of env s group !! u =
  match stored_counts s group !! u with
  | Some v => Some v
  | None => if decide (u ∈ members env group) then Some 0 else None
  end.
Proof.
  intros Hmk. unfold counts_of, members. rewrite Hmk.
  destruct (conf_yaml env group) as [[conf|]|].
  - apply with_zeros_lookup.
  - destruct (stored_counts s group !! u); [reflexivity|].
    destruct (decide (u ∈ [])) as [H|_]; [inversion H|reflexivity].
  - destruct (stored_counts s group !! u); [reflexivity|].
    destruct (decide (u ∈ [])) as [H|_]; [inversion H|reflexivity].
Qed.







(** ** [Assign], step by step *)

Lemma lastIndex_of_after_mkdir (env : Env) (s : State) (group g : string) :
  lastIndex_of env (after_mkdir env g s) group = lastIndex_of env s group.
Proof. unfold lastIndex_of, after_mkdir. destruct (fails env MkdirAll_dataDir g); reflexivity. Qed.

Lemma counts_of_after_mkdir (env : Env) (s : State) (group g : string) :
  counts_of env (after_mkdir env g s) group = counts_of env s group.
Proof.
  unfold counts_of, stored_counts, after_mkdir.
  destruct (fails env MkdirAll_dataDir g); reflexivity.
Qed.

Lemma readCounts_outcome_after_mkdir (env : Env) (s : State) (group g : string) :
  readCounts_outcome env (after_mkdir env g s) group = readCounts_outcome env s group.
Proof.
  unfold readCounts_outcome. rewrite counts_of_after_mkdir. unfold after_mkdir.
  destruct (fails env MkdirAll_dataDir g); reflexivity.
Qed.

(** [Assign] up to the selection of the first candidate. *)
Lemma run_Assign (group : string) (dryRun : bool) (env : Env) (s : State) :
  runner.Assign group dryRun env s =
  match conf_yaml env group with
  | None =>
      (Ret (Some (ConfigError group
                    (Wrapf "failed to read config file" (LibError "ioutil.ReadFile")))), s)
  | Some None =>
      (Ret (Some (ConfigError group
                    (Wrapf "failed to parse config file" (LibError "yaml.Unmarshal")))), s)
  | Some (Some groupConf) =>
      if len (Users groupConf) =? 0
      then (Ret (Some (ConfigError group (Errorf "no users found"))), s)
      else
        let s0 := after_mkdir env group (after_mkdir env group s) in
        match readCounts_outcome env s group with
        | Panic msg => (Panic msg, s0)
        | Ret counts =>
        if map_len counts =? 0
        then (Ret (Some (Wrapf "failed to get counts"
                           (Errorf ("no counts found for group " +:+ group)))), s0)
        else
          match runner.CreateAssignmentStrategy default_factory (Strategy groupConf) with
          | (_, Some err) => (Ret (Some (ConfigError group err)), s0)
          | (strategy, None) =>
              match runner.CreateAvailabilityChecker default_factory
                      (AvailabilityCheckerName groupConf) with
              | (_, Some err) =>
                  (strategy ← deref strategy; mret (Some (ConfigError group err))) env s0
              | (availChecker, None) =>
                  (strategy ← deref strategy;
                   availChecker ← deref availChecker;
                   select_and_scan group dryRun groupConf strategy availChecker
                     (lastIndex_of env s group) counts) env s0
              end
          end
        end
  end.
Proof.
  unfold runner.Assign. fold default_factory.
  cbn [runner.LoadConfig runner.GetConfigLoader default_factory runner.NewComponentFactory
       runner.configLoader runner.DefaultConfigLoader
       runner.ReadLastIndex runner.GetStorageManager runner.storageManager
       runner.DefaultStorageManager
       runner.CountManager_GetCounts runner.GetCountManager runner.countManager
       runner.DefaultCountManager].
  run.
  destruct (conf_yaml env group) as [[conf|]|] eqn:Hconf; [|reflexivity|reflexivity].
  run. destruct (len (Users conf) =? 0); [reflexivity|].
  run. rewrite readCounts_outcome_after_mkdir.
  destruct (readCounts_outcome env s group) as [counts|msg]; [|reflexivity].
  destruct (map_len counts =? 0); [reflexivity|].
  cbv zeta.
  destruct (runner.CreateAssignmentStrategy default_factory (Strategy conf))
    as [strategy [e1|]]; [reflexivity|].
  destruct (runner.CreateAvailabilityChecker default_factory (AvailabilityCheckerName conf))
    as [availChecker [e2|]]; reflexivity.
Qed.

Lemma same_files_refl (s : State) : same_files s s.
Proof. repeat split. Qed.

Lemma same_files_trans (s1 s2 s3 : State) :
  same_files s1 s2 -> same_files s2 s3 -> same_files s1 s3.
Proof.
  unfold same_files. intros (A1 & A2 & A3 & A4 & A5) (B1 & B2 & B3 & B4 & B5).
  repeat split; congruence.
Qed.

(** The two checkers return; they change nothing but the count of
    interactions. *)
Lemma known_checker_run (availChecker : runner.AvailabilityChecker) (user : string)
    (env : Env) (s : State) :
  known_checker availChecker ->
  exists r s', runner.IsAvailable availChecker user env s = (Ret r, s')
               /\ same_files s s' /\ checked s' = checked s.
Proof.
  intros [->| ->]; cbn [runner.IsAvailable runner.InOutChecker runner.AlwaysAvailable].
  - rewrite run_InOutChecker. eexists _, _. split; [reflexivity|]. repeat split.
  - eexists _, s. split; [reflexivity|]. repeat split.
Qed.

Lemma next_candidate (nextIndex n : Z) (k : nat) :
  0 <= nextIndex < n ->
  (Z.rem (nextIndex + 1) n + Z.of_nat k) mod n = (nextIndex + Z.of_nat (S k)) mod n.
Proof.
  intros H. rewrite Z.rem_mod_nonneg by lia.
  rewrite Zplus_mod_idemp_l. f_equal. lia.
Qed.

(** The scan of [Assign] from a candidate that is an index of [users]: the
    calls it makes, and how it ends. The calls are those of a dry run and of a
    run that is not one alike. *)
Lemma Assign_loop_scan (group : string)
    (groupConf : AssigneeGroupConfig) (users : list string) (lastIndex : Z)
    (availChecker : runner.AvailabilityChecker) :
  known_checker availChecker ->
  forall (n : nat) (attempts nextIndex : Z) (env : Env) (s : State),
    Z.to_nat (len users - attempts) = n ->
    0 <= nextIndex < len users ->
    exists calls s1,
      checked s1 = checked s ++ calls
      /\ same_files s s1
      /\ (length calls <= n)%nat
      /\ (forall k call, calls !! k = Some call ->
            index users ((nextIndex + Z.of_nat k) mod len users) = Some (fst call))
      /\ ((exists pre user,
             calls = pre ++ [(user, (true, None))] /\ Forall unavailable pre
             /\ forall dryRun,
                  runner.Assign_loop default_factory group dryRun groupConf users
                    lastIndex availChecker attempts nextIndex env s
                  = commit group dryRun groupConf lastIndex
                      ((nextIndex + Z.of_nat (length pre)) mod len users) user env s1)
          \/ (exists pre user ok e,
                calls = pre ++ [(user, (ok, Some e))] /\ Forall unavailable pre
                /\ forall dryRun,
                     runner.Assign_loop default_factory group dryRun groupConf users
                       lastIndex availChecker attempts nextIndex env s
                     = (Ret (Some (AvailabilityError user e)), s1))
          \/ (Forall unavailable calls /\ length calls = n
              /\ forall dryRun,
                   runner.Assign_loop default_factory group dryRun groupConf users
                     lastIndex availChecker attempts nextIndex env s
                   = (Ret (Some (NoAvailableAssigneeError group)), s1))).
Proof.
  intros Hc. induction n as [|n IH]; intros attempts nextIndex env s Hn Hvalid.
  { exists [], s. rewrite app_nil_r. split; [reflexivity|]. split; [apply same_files_refl|].
    split; [simpl; lia|]. split; [intros k call Hk; discriminate Hk|].
    right; right. split; [constructor|]. split; [reflexivity|].
    intros dryRun. rewrite runner.Assign_loop_equation_1.
    unfold runner.Assign_loop_unfold_clause_1.
    destruct (Z_lt_dec attempts (len users)) as [Hlt|Hge]; [exfalso; lia|reflexivity]. }
  destruct (index_Some users nextIndex Hvalid) as [user Hidx].
  destruct (known_checker_run availChecker user env s Hc) as (r & s' & Hr & Hsame & Hchk).
  set (s2 := set_checked (fun calls => calls ++ [(user, r)]) s').
  assert (Hstep : forall dryRun,
    runner.Assign_loop default_factory group dryRun groupConf users lastIndex
      availChecker attempts nextIndex env s
    = match r with
      | (_, Some err) => (Ret (Some (AvailabilityError user err)), s2)
      | (true, None) => commit group dryRun groupConf lastIndex nextIndex user env s2
      | (false, None) =>
          runner.Assign_loop default_factory group dryRun groupConf users lastIndex
            availChecker (attempts + 1) (Z.rem (nextIndex + 1) (len users)) env s2
      end).
  { intros dryRun. rewrite runner.Assign_loop_equation_1.
    unfold runner.Assign_loop_unfold_clause_1.
    destruct (Z_lt_dec attempts (len users)) as [Hlt|Hge]; [|exfalso; lia].
    rewrite run_bind. unfold runner.at_index. rewrite Hidx.
    rewrite run_ret, run_bind. unfold runner.call_IsAvailable. rewrite run_bind.
    rewrite Hr. rewrite run_bind. unfold modify at 1. rewrite run_ret. fold s2.
    destruct r as [[|] [err|]]; reflexivity. }
  assert (Hs2 : checked s2 = checked s ++ [(user, r)]).
  { unfold s2. simpl. rewrite Hchk. reflexivity. }
  assert (Hsame2 : same_files s s2).
  { eapply same_files_trans; [exact Hsame|]. repeat split. }
  assert (Hfirst : forall k call, [(user, r)] !! k = Some call ->
            index users ((nextIndex + Z.of_nat k) mod len users) = Some (fst call)).
  { intros [|k] call Hk; [|destruct k; discriminate Hk]. injection Hk as <-.
    rewrite Z.add_0_r, Z.mod_small by lia. exact Hidx. }
  destruct r as [ok [err|]].
  - exists [(user, (ok, Some err))], s2.
    split; [exact Hs2|]. split; [exact Hsame2|]. split; [simpl; lia|].
    split; [exact Hfirst|].
    right; left. exists [], user, ok, err. split; [reflexivity|]. split; [constructor|].
    intros dryRun. rewrite Hstep. destruct ok; reflexivity.
  - destruct ok.
    + exists [(user, (true, None))], s2.
      split; [exact Hs2|]. split; [exact Hsame2|]. split; [simpl; lia|].
      split; [exact Hfirst|].
      left. exists [], user. split; [reflexivity|]. split; [constructor|].
      intros dryRun. rewrite Hstep.
      cbn [length]. rewrite Z.add_0_r, Z.mod_small by lia. reflexivity.
    + assert (Hnext : 0 <= Z.rem (nextIndex + 1) (len users) < len users)
        by (apply Z.rem_bound_pos; lia).
      destruct (IH (attempts + 1) (Z.rem (nextIndex + 1) (len users)) env s2
                  ltac:(lia) Hnext)
        as (calls & s1 & Hcalls & Hsame1 & Hlen & Hord & Hend).
      exists ((user, (false, None)) :: calls), s1.
      split; [rewrite Hcalls, Hs2, <- app_assoc; reflexivity|].
      split; [eapply same_files_trans; eauto|].
      split; [simpl; lia|].
      split.
      { intros [|k] call Hk; [apply (Hfirst 0%nat); exact Hk|].
        cbn [lookup list_lookup] in Hk. rewrite <- next_candidate by exact Hvalid.
        apply Hord. exact Hk. }
      destruct Hend as [(pre & u & -> & Hpre & Hrun)
                       |[(pre & u & ok & e & -> & Hpre & Hrun)
                        |(Hall & Hl & Hrun)]].
      * left. exists ((user, (false, None)) :: pre), u.
        split; [reflexivity|]. split; [constructor; [reflexivity|exact Hpre]|].
        intros dryRun. rewrite Hstep, Hrun.
        rewrite next_candidate by exact Hvalid. reflexivity.
      * right; left. exists ((user, (false, None)) :: pre), u, ok, e.
        split; [reflexivity|]. split; [constructor; [reflexivity|exact Hpre]|].
        intros dryRun. rewrite Hstep. apply Hrun.
      * right; right. split; [constructor; [reflexivity|exact Hall]|].
        split; [simpl; lia|]. intros dryRun. rewrite Hstep. apply Hrun.
Qed.

(** From a first candidate that is no index of [users], the scan stops in
    the panic of [users[nextIndex]] before any call. *)
Lemma Assign_loop_out_of_range (group : string) (dryRun : bool)
    (groupConf : AssigneeGroupConfig) (users : list string) (lastIndex : Z)
    (availChecker : runner.AvailabilityChecker) (nextIndex : Z) (env : Env) (s : State) :
  users <> [] -> ~ (0 <= nextIndex < len users) ->
  runner.Assign_loop default_factory group dryRun groupConf users lastIndex
    availChecker 0 nextIndex env s = (Panic "index out of range", s).
Proof.
  intros Hne Hout. pose proof (len_pos users Hne) as Hpos.
  rewrite runner.Assign_loop_equation_1. unfold runner.Assign_loop_unfold_clause_1.
  destruct (Z_lt_dec 0 (len users)) as [_|Hge]; [|exfalso; lia].
  rewrite run_bind. unfold runner.at_index.
  destruct (index users nextIndex) as [user|] eqn:Hidx; [|reflexivity].
  apply index_inv in Hidx. contradiction.
Qed.

(** ** The writes of [Assign], with their failures *)

Lemma run_writeLastIndex (group : string) (index : Z) (env : Env) (s : State) :
  runner.writeLastIndex group index env s =
  if fails env MkdirAll_dataDir group
  then (Ret (Some (Wrapf "failed to get group data directory" (LibError "os.MkdirAll"))), s)
  else if fails env Open_indexLog group
  then (Ret (Some (Wrapf "failed to open index file" (LibError "os.OpenFile"))),
        set_data_dirs (fun dirs => {[group]} ∪ dirs) s)
  else if fails env Write_indexLog group
  then (Ret (Some (Wrapf "failed to write index" (LibError "fmt.Fprintf"))),
        set_clock S
          (set_index_log
             (fun files => <[group := default EmptyString (files !! group)]> files)
             (set_data_dirs (fun dirs => {[group]} ∪ dirs) s)))
  else (Ret None, after_writeLastIndex env group index s).
Proof.
  unfold runner.writeLastIndex. run. unfold after_mkdir.
  destruct (fails env MkdirAll_dataDir group); [reflexivity|]. run.
  destruct (fails env Open_indexLog group); [reflexivity|]. run.
  destruct (fails env Write_indexLog group); [reflexivity|]. run.
  unfold after_writeLastIndex, set_index_log, set_clock, set_data_dirs.
  cbn [data_dirs index_log counts_json assignments_log stdout clock checked].
  rewrite lookup_insert_eq, insert_insert_eq. reflexivity.
Qed.

Lemma run_incrementCount (group user : string) (env : Env) (s : State) :
  counts_json s !! group <> Some None ->
  runner.incrementCount group user env s =
  if fails env MkdirAll_dataDir group
  then (Ret (Some (Wrapf "failed to get group data directory" (LibError "os.MkdirAll"))), s)
  else if fails env WriteFile_countsJson group
  then (Ret (Some (Wrapf "failed to write counts file" (LibError "ioutil.WriteFile"))),
        set_data_dirs (fun dirs => {[group]} ∪ dirs)
          (set_data_dirs (fun dirs => {[group]} ∪ dirs) s))
  else (Ret None, after_incrementCount env group user s).
Proof.
  intros Hnull. unfold runner.incrementCount. run.
  rewrite (readCounts_outcome_counts env s group (not_null_counts env s group Hnull)).
  run. unfold after_mkdir.
  destruct (fails env MkdirAll_dataDir group) eqn:Hmk; [reflexivity|]. run.
  destruct (fails env WriteFile_countsJson group); [reflexivity|]. run.
  reflexivity.
Qed.

(** After a successful [incrementCount] counts.json does not hold null. *)
Lemma not_null_after_incrementCount (env : Env) (group user : string) (s : State) :
  counts_json (after_incrementCount env group user s) !! group <> Some None.
Proof. cbn [counts_json after_incrementCount]. rewrite lookup_insert_eq. discriminate. Qed.

Lemma run_logAssignment (group user strategy : string) (lastIndex nextIndex : Z)
    (counts : GoMap) (env : Env) (s : State) :
  runner.logAssignment group user strategy lastIndex nextIndex counts env s =
  match conf_yaml env group with
  | None =>
      (Ret (Some (Wrapf "failed to load group config for logging"
                    (Wrapf "failed to read config file" (LibError "ioutil.ReadFile")))), s)
  | Some None =>
      (Ret (Some (Wrapf "failed to load group config for logging"
                    (Wrapf "failed to parse config file" (LibError "yaml.Unmarshal")))), s)
  | Some (Some groupConf) =>
      if fails env MkdirAll_dataDir group
      then (Ret (Some (Wrapf "failed to get group data directory" (LibError "os.MkdirAll"))),
            set_clock S s)
      else if fails env Open_assignmentsLog group
      then (Ret (Some (Wrapf "failed to open log file" (LibError "os.OpenFile"))),
            set_data_dirs (fun dirs => {[group]} ∪ dirs) (set_clock S s))
      else if fails env Write_assignmentsLog group
      then (Ret (Some (Wrapf "failed to write log entry" (LibError "f.Write"))),
            set_assignments_log
              (fun files => <[group := default [] (files !! group)]> files)
              (set_data_dirs (fun dirs => {[group]} ∪ dirs) (set_clock S s)))
      else (Ret None,
            after_logAssignment env group user strategy lastIndex nextIndex counts s)
  end.
Proof.
  unfold runner.logAssignment. run.
  destruct (conf_yaml env group) as [[conf|]|] eqn:Hconf; [|reflexivity|reflexivity].
  run. unfold after_mkdir.
  destruct (fails env MkdirAll_dataDir group); [reflexivity|]. run.
  destruct (fails env Open_assignmentsLog group); [reflexivity|]. run.
  destruct (fails env Write_assignmentsLog group); [reflexivity|]. run.
  unfold after_logAssignment, log_entry, members,
    set_assignments_log, set_clock, set_data_dirs.
  cbn [data_dirs index_log counts_json assignments_log stdout clock checked].
  rewrite Hconf, lookup_insert_eq, insert_insert_eq. reflexivity.
Qed.

(** ** A candidate found available *)

Lemma run_commit_dry (group : string) (groupConf : AssigneeGroupConfig)
    (lastIndex nextIndex : Z) (user : string) (env : Env) (s : State) :
  commit group true groupConf lastIndex nextIndex user env s
  = (Ret None, set_stdout (fun out => out ++ ["[DRY RUN] Would assign to: " +:+ user]) s).
Proof. reflexivity. Qed.

Lemma size_insert_nonzero (m : gmap string Z) (k : string) (v : Z) :
  (Z.of_nat (size (<[k := v]> m)) =? 0) = false.
Proof.
  destruct (Z.of_nat (size (<[k := v]> m)) =? 0) eqn:E; [|reflexivity].
  apply size_zero_iff in E. exfalso. exact (insert_non_empty m k v E).
Qed.

(** After a successful [incrementCount] the counts are not empty. *)
Lemma counts_of_after_incrementCount (env : Env) (group user : string) (s : State) :
  fails env MkdirAll_dataDir group = false ->
  (Z.of_nat (size (counts_of env (after_incrementCount env group user s) group)) =? 0)
  = false.
Proof.
  intros Hmk.
  destruct (Z.of_nat (size (counts_of env (after_incrementCount env group user s) group))
            =? 0) eqn:E; [|reflexivity].
  apply size_zero_iff in E.
  assert (H : counts_of env (after_incrementCount env group user s) group !! user = None)
    by (rewrite E; apply lookup_empty).
  rewrite counts_of_lookup in H by exact Hmk. unfold stored_counts in H.
  cbn [counts_json after_incrementCount] in H. rewrite lookup_insert_eq in H.
  rewrite lookup_insert_eq in H. discriminate H.
Qed.

(** A commit that is not a dry run: it succeeds exactly when no system call
    fails; otherwise it returns one of four errors. Either way the name has
    been printed. *)
Lemma commit_cases (group : string) (groupConf : AssigneeGroupConfig)
    (lastIndex nextIndex : Z) (user : string) (env : Env) (s : State) :
  conf_yaml env group = Some (Some groupConf) ->
  counts_json s !! group <> Some None ->
  ((forall c, fails env c group = false)
   /\ commit group false groupConf lastIndex nextIndex user env s
      = (Ret None, after_commit env group groupConf lastIndex nextIndex user s))
  \/ ((exists c, fails env c group = true)
      /\ exists e s',
           commit group false groupConf lastIndex nextIndex user env s = (Ret (Some e), s')
           /\ write_error e
           /\ stdout s' = stdout s ++ [user] /\ checked s' = checked s).
Proof.
  intros Hconf Hnull. unfold commit. run. rewrite run_writeLastIndex.
  destruct (fails env MkdirAll_dataDir group) eqn:Hmk.
  { right. split; [eexists; exact Hmk|]. eexists _, _. split; [reflexivity|].
    split; [eexists; left; reflexivity|]. repeat split. }
  destruct (fails env Open_indexLog group) eqn:Hoi.
  { right. split; [eexists; exact Hoi|]. eexists _, _. split; [reflexivity|].
    split; [eexists; left; reflexivity|]. repeat split. }
  destruct (fails env Write_indexLog group) eqn:Hwi.
  { right. split; [eexists; exact Hwi|]. eexists _, _. split; [reflexivity|].
    split; [eexists; left; reflexivity|]. repeat split. }
  run. rewrite run_incrementCount by exact Hnull. rewrite Hmk.
  destruct (fails env WriteFile_countsJson group) eqn:Hwc.
  { right. split; [eexists; exact Hwc|]. eexists _, _. split; [reflexivity|].
    split; [eexists; right; left; reflexivity|]. repeat split. }
  run.
  rewrite readCounts_outcome_counts
    by (apply not_null_counts, not_null_after_incrementCount).
  cbn [map_len]. cbv iota.
  rewrite counts_of_after_incrementCount by exact Hmk. run.
  rewrite run_logAssignment, Hconf, Hmk.
  destruct (fails env Open_assignmentsLog group) eqn:Hoa.
  { right. split; [eexists; exact Hoa|]. eexists _, _. split; [reflexivity|].
    split; [eexists; right; right; right; reflexivity|].
    unfold after_mkdir. rewrite Hmk. repeat split. }
  destruct (fails env Write_assignmentsLog group) eqn:Hwa.
  { right. split; [eexists; exact Hwa|]. eexists _, _. split; [reflexivity|].
    split; [eexists; right; right; right; reflexivity|].
    unfold after_mkdir. rewrite Hmk. repeat split. }
  left. split; [intros []; assumption|]. run. reflexivity.
Qed.

(** Whatever the failures, a commit returns, and it has printed one line and
    made no availability call. *)
Lemma commit_returns (group : string) (dryRun : bool) (groupConf : AssigneeGroupConfig)
    (lastIndex nextIndex : Z) (user : string) (env : Env) (s : State) :
  conf_yaml env group = Some (Some groupConf) ->
  counts_json s !! group <> Some None ->
  exists r s',
    commit group dryRun groupConf lastIndex nextIndex user env s = (Ret r, s')
    /\ stdout s' = stdout s ++ [if dryRun then "[DRY RUN] Would assign to: " +:+ user
                                else user]
    /\ checked s' = checked s
    /\ (forall e, r = Some e -> dryRun = false /\ write_error e).
Proof.
  intros Hconf Hnull. destruct dryRun.
  - rewrite run_commit_dry. eexists _, _. split; [reflexivity|]. repeat split; discriminate.
  - destruct (commit_cases group groupConf lastIndex nextIndex user env s Hconf Hnull)
      as [[Hok Hrun]|[_ (e & s' & Hrun & He & Hout & Hchk)]]; rewrite Hrun.
    + eexists _, _. split; [reflexivity|]. unfold after_commit.
      rewrite (after_mkdir_ok env group Hok). repeat split; discriminate.
    + eexists _, _. split; [reflexivity|]. split; [exact Hout|]. split; [exact Hchk|].
      intros e' [= <-]. split; [reflexivity|exact He].
Qed.

(** ** The factory and the strategies *)

Lemma strategy_name_dec (name : string) : {strategy_name name} + {~ strategy_name name}.
Proof.
  unfold strategy_name.
  destruct (String.eqb_spec name "random"); [left; auto|].
  destruct (String.eqb_spec name "least_assigned"); [left; auto|].
  destruct (String.eqb_spec name "round_robin"); [left; auto|].
  right. intros [?|[?|?]]; contradiction.
Qed.

Lemma checker_name_dec (name : string) : {checker_name name} + {~ checker_name name}.
Proof.
  unfold checker_name.
  destruct (String.eqb_spec name "inout"); [left; auto|].
  destruct (String.eqb_spec name "always_available"); [left; auto|].
  right. intros [?|?]; contradiction.
Qed.

Lemma CreateAssignmentStrategy_unknown (f : runner.ComponentFactory) (name : string) :
  ~ strategy_name name ->
  runner.CreateAssignmentStrategy f name
  = (None, Some (Errorf ("unknown strategy: " +:+ name))).
Proof.
  intros Hn. unfold runner.CreateAssignmentStrategy, strategy_name in *.
  destruct (String.eqb_spec name "random"); [tauto|].
  destruct (String.eqb_spec name "least_assigned"); [tauto|].
  destruct (String.eqb_spec name "round_robin"); [tauto|reflexivity].
Qed.

Lemma CreateAvailabilityChecker_unknown (f : runner.ComponentFactory) (name : string) :
  ~ checker_name name ->
  runner.CreateAvailabilityChecker f name
  = (None, Some (Errorf ("unknown availability checker: " +:+ name))).
Proof.
  intros Hn. unfold runner.CreateAvailabilityChecker, checker_name in *.
  destruct (String.eqb_spec name "inout"); [tauto|].
  destruct (String.eqb_spec name "always_available"); [tauto|reflexivity].
Qed.

Lemma CreateAvailabilityChecker_known (f : runner.ComponentFactory) (name : string) :
  checker_name name ->
  exists availChecker,
    runner.CreateAvailabilityChecker f name = (Some availChecker, None)
    /\ known_checker availChecker
    /\ (name = "always_available" -> availChecker = runner.AlwaysAvailable)
    /\ (name = "inout" -> availChecker = runner.InOutChecker).
Proof.
  unfold runner.CreateAvailabilityChecker, known_checker.
  intros [->| ->]; eexists; (split; [reflexivity|]); split; auto;
    split; intros H; try reflexivity; discriminate H.
Qed.

(** The strategy the factory makes for a known name selects the first
    candidate without an error, and changes no file. *)
Lemma SelectNext_first_candidate (env : Env) (s s0 : State) (group : string)
    (groupConf : AssigneeGroupConfig) :
  strategy_name (Strategy groupConf) -> Users groupConf <> [] ->
  clock s0 = clock s ->
  exists strategy s1,
    runner.CreateAssignmentStrategy default_factory (Strategy groupConf)
    = (Some strategy, None)
    /\ runner.SelectNext strategy (Users groupConf) (lastIndex_of env s group)
         (Some (counts_of env s group)) env s0
       = (Ret (first_candidate env s group groupConf, None), s1)
    /\ same_files s0 s1 /\ checked s1 = checked s0.
Proof.
  intros Hname Hne Hclock. pose proof (len_pos _ Hne) as Hpos.
  unfold first_candidate, runner.CreateAssignmentStrategy.
  destruct Hname as [->|[->| ->]]; cbn [String.eqb Ascii.eqb Bool.eqb]; cbv iota.
  - eexists _, _. split; [reflexivity|].
    cbn [runner.SelectNext runner.Random]. unfold selector.Random_SelectNext.
    destruct (Z.eqb_spec (len (Users groupConf)) 0) as [E|_]; [lia|].
    unfold selector.rand_Intn. run. rewrite Hclock.
    split; [reflexivity|]. repeat split.
  - eexists _, _. split; [reflexivity|].
    cbn [runner.SelectNext runner.LeastAssigned]. run.
    unfold selector.LeastAssigned_SelectNext.
    destruct (Z.eqb_spec (len (Users groupConf)) 0) as [E|_]; [lia|].
    split; [reflexivity|]. repeat split.
  - eexists _, _. split; [reflexivity|].
    cbn [runner.SelectNext runner.RoundRobin]. run.
    unfold selector.RoundRobin_SelectNext.
    destruct (Z.eqb_spec (len (Users groupConf)) 0) as [E|_]; [lia|].
    split; [reflexivity|]. repeat split.
Qed.

(** [LeastAssigned.SelectNext] returns an index of [users]. *)
Lemma LeastAssigned_index (users : list string) (lastIndex : Z) (counts : GoMap) :
  users <> [] ->
  0 <= fst (selector.LeastAssigned_SelectNext users lastIndex counts) < len users.
Proof.
  intros Hne. pose proof (len_pos users Hne) as Hpos.
  unfold selector.LeastAssigned_SelectNext.
  destruct (Z.eqb_spec (len users) 0) as [E|_]; [lia|]. cbn [fst].
  destruct (LeastAssigned_loop_inv counts users [] min_init 0) as [m [_ Hst]].
  { split; [intros v Hv; inversion Hv | left; split; reflexivity]. }
  simpl in Hst. change (len []) with 0 in Hst. fold min_init.
  destruct Hst as [[_ ->]|(k & w & -> & Hw & _)]; [lia|].
  apply lookup_lt_Some in Hw. unfold len. lia.
Qed.

(** The first candidate is an index of the members, unless the strategy is
    round_robin. *)
Lemma first_candidate_index (env : Env) (s : State) (group : string)
    (groupConf : AssigneeGroupConfig) :
  Users groupConf <> [] -> Strategy groupConf <> "round_robin" ->
  strategy_name (Strategy groupConf) ->
  0 <= first_candidate env s group groupConf < len (Users groupConf).
Proof.
  intros Hne Hrr Hname. pose proof (len_pos _ Hne) as Hpos. unfold first_candidate.
  destruct Hname as [->|[->|H]]; [| |contradiction]; cbn [String.eqb Ascii.eqb Bool.eqb];
    cbv iota.
  - apply Z.mod_pos_bound. lia.
  - apply LeastAssigned_index, Hne.
Qed.

Lemma first_candidate_round_robin (env : Env) (s : State) (group : string)
    (groupConf : AssigneeGroupConfig) :
  Users groupConf <> [] -> Strategy groupConf = "round_robin" ->
  first_candidate env s group groupConf
  = Z.rem (wrap (lastIndex_of env s group + 1)) (len (Users groupConf)).
Proof.
  intros Hne Hrr. pose proof (len_pos _ Hne) as Hpos. unfold first_candidate.
  rewrite Hrr. cbn [String.eqb Ascii.eqb Bool.eqb]. cbv iota.
  unfold selector.RoundRobin_SelectNext.
  destruct (Z.eqb_spec (len (Users groupConf)) 0) as [E|_]; [lia|reflexivity].
Qed.

(** ** [Assign] as a whole *)

Lemma counts_of_size (env : Env) (s : State) (group : string)
    (groupConf : AssigneeGroupConfig) :
  conf_yaml env group = Some (Some groupConf) -> Users groupConf <> [] ->
  (Z.of_nat (size (counts_of env s group)) =? 0) = fails env MkdirAll_dataDir group.
Proof.
  intros Hconf Hne. destruct (fails env MkdirAll_dataDir group) eqn:Hmk.
  - apply size_zero_iff. unfold counts_of. rewrite Hmk. reflexivity.
  - eapply counts_of_nonempty; eauto.
Qed.

(** How [readCounts] ends for a group with a user. *)
Lemma readCounts_outcome_members (env : Env) (s : State) (group : string)
    (groupConf : AssigneeGroupConfig) :
  conf_yaml env group = Some (Some groupConf) -> Users groupConf <> [] ->
  readCounts_outcome env s group =
  if fails env MkdirAll_dataDir group then Ret (Some ∅)
  else
    match counts_json s !! group with
    | Some None => Panic "assignment to entry in nil map"
    | _ => Ret (Some (counts_of env s group))
    end.
Proof.
  intros Hconf Hne. unfold readCounts_outcome, members. rewrite Hconf.
  destruct (fails env MkdirAll_dataDir group); [reflexivity|].
  destruct (counts_json s !! group) as [[m|]|]; try reflexivity.
  destruct (Users groupConf); [contradiction|reflexivity].
Qed.

(** The exits of [Assign] before the scan, in the order the code takes
    them. *)
Lemma Assign_exits (group : string) (dryRun : bool) (env : Env) (s : State) :
  runner.Assign group dryRun env s =
  match conf_yaml env group with
  | None =>
      (Ret (Some (ConfigError group
                    (Wrapf "failed to read config file" (LibError "ioutil.ReadFile")))), s)
  | Some None =>
      (Ret (Some (ConfigError group
                    (Wrapf "failed to parse config file" (LibError "yaml.Unmarshal")))), s)
  | Some (Some groupConf) =>
      if len (Users groupConf) =? 0
      then (Ret (Some (ConfigError group (Errorf "no users found"))), s)
      else
        let s0 := after_mkdir env group (after_mkdir env group s) in
        if fails env MkdirAll_dataDir group
        then (Ret (Some (Wrapf "failed to get counts"
                           (Errorf ("no counts found for group " +:+ group)))), s0)
        else if decide (counts_json s !! group = Some None)
        then (Panic "assignment to entry in nil map", s0)
        else if strategy_name_dec (Strategy groupConf) then
          if checker_name_dec (AvailabilityCheckerName groupConf) then
            runner.Assign group dryRun env s
          else
            (Ret (Some (ConfigError group
                          (Errorf ("unknown availability checker: "
                                   +:+ AvailabilityCheckerName groupConf)))), s0)
        else
          (Ret (Some (ConfigError group
                        (Errorf ("unknown strategy: " +:+ Strategy groupConf)))), s0)
  end.
Proof.
  rewrite run_Assign at 1.
  destruct (conf_yaml env group) as [[conf|]|] eqn:Hconf; [|reflexivity|reflexivity].
  destruct (Z.eqb_spec (len (Users conf)) 0) as [E|NE]; [reflexivity|].
  assert (Hne : Users conf <> []) by (intros E; apply NE; rewrite E; reflexivity).
  rewrite (readCounts_outcome_members env s group conf Hconf Hne).
  destruct (fails env MkdirAll_dataDir group) eqn:Hmk; [reflexivity|]. cbv zeta.
  destruct (decide (counts_json s !! group = Some None)) as [Hnull|Hnull].
  { rewrite Hnull. reflexivity. }
  assert (Hcounts : match counts_json s !! group with
                    | Some None => Panic "assignment to entry in nil map"
                    | _ => Ret (Some (counts_of env s group))
                    end = Ret (Some (counts_of env s group))).
  { destruct (counts_json s !! group) as [[m|]|]; [reflexivity|contradiction|reflexivity]. }
  rewrite Hcounts. cbn [map_len].
  rewrite (counts_of_nonempty env s group conf Hconf Hne Hmk).
  destruct (strategy_name_dec (Strategy conf)) as [Hs|Hs].
  - destruct (checker_name_dec (AvailabilityCheckerName conf)) as [Hc|Hc].
    + rewrite run_Assign, Hconf.
      destruct (Z.eqb_spec (len (Users conf)) 0) as [E|_]; [contradiction|].
      rewrite (readCounts_outcome_members env s group conf Hconf Hne), Hmk, Hcounts.
      cbn [map_len]. rewrite (counts_of_nonempty env s group conf Hconf Hne Hmk).
      reflexivity.
    + rewrite (CreateAvailabilityChecker_unknown _ _ Hc).
      destruct (SelectNext_first_candidate env s s group conf Hs Hne eq_refl)
        as (strategy & _ & -> & _). reflexivity.
  - rewrite (CreateAssignmentStrategy_unknown _ _ Hs). reflexivity.
Qed.

(** [Assign] for a group that reaches the scan: it scans from the first
    candidate, in a state with the files, the output and the calls of the
    start. *)
Lemma Assign_scan (group : string) (env : Env) (s : State)
    (groupConf : AssigneeGroupConfig) :
  conf_yaml env group = Some (Some groupConf) -> Users groupConf <> [] ->
  fails env MkdirAll_dataDir group = false ->
  counts_json s !! group <> Some None ->
  strategy_name (Strategy groupConf) -> checker_name (AvailabilityCheckerName groupConf) ->
  exists availChecker s1,
    runner.CreateAvailabilityChecker default_factory (AvailabilityCheckerName groupConf)
    = (Some availChecker, None)
    /\ known_checker availChecker
    /\ index_log s1 = index_log s /\ counts_json s1 = counts_json s
    /\ assignments_log s1 = assignments_log s /\ stdout s1 = stdout s
    /\ checked s1 = checked s
    /\ forall dryRun,
         runner.Assign group dryRun env s
         = runner.Assign_loop default_factory group dryRun groupConf (Users groupConf)
             (lastIndex_of env s group) availChecker 0
             (first_candidate env s group groupConf) env s1.
Proof.
  intros Hconf Hne Hmk Hnull Hs Hc.
  destruct (CreateAvailabilityChecker_known default_factory _ Hc)
    as (availChecker & Hchecker & Hknown & _).
  set (s0 := after_mkdir env group (after_mkdir env group s)).
  assert (Hclock : clock s0 = clock s).
  { unfold s0, after_mkdir. rewrite Hmk. reflexivity. }
  destruct (SelectNext_first_candidate env s s0 group groupConf Hs Hne Hclock)
    as (strategy & s1 & Hstrategy & Hsel & (_ & F2 & F3 & F4 & F5) & Hchk).
  exists availChecker, s1. split; [exact Hchecker|]. split; [exact Hknown|].
  assert (Hq : quiet s s0) by (eapply quiet_trans; apply quiet_after_mkdir).
  destruct Hq as (Q1 & Q2 & Q3 & Q4 & Q5).
  do 5 (split; [congruence|]).
  intros dryRun. rewrite run_Assign, Hconf.
  destruct (Z.eqb_spec (len (Users groupConf)) 0) as [E|_].
  { apply len_zero in E. contradiction. }
  rewrite (readCounts_outcome_counts env s group (not_null_counts env s group Hnull)).
  cbn [map_len]. rewrite (counts_of_nonempty env s group groupConf Hconf Hne Hmk).
  cbv zeta.
  rewrite Hstrategy, Hchecker. fold s0. run. unfold select_and_scan.
  rewrite run_bind, Hsel. reflexivity.
Qed.

(** A run of [Assign] that reaches the scan: the availability calls it
    makes, and how it ends. *)
Lemma Assign_outcome (group : string) (env : Env) (s : State)
    (groupConf : AssigneeGroupConfig) :
  conf_yaml env group = Some (Some groupConf) -> Users groupConf <> [] ->
  fails env MkdirAll_dataDir group = false ->
  counts_json s !! group <> Some None ->
  strategy_name (Strategy groupConf) -> checker_name (AvailabilityCheckerName groupConf) ->
  (~ (0 <= first_candidate env s group groupConf < len (Users groupConf)) ->
   exists s1,
     (forall dryRun, runner.Assign group dryRun env s = (Panic "index out of range", s1))
     /\ index_log s1 = index_log s /\ counts_json s1 = counts_json s
     /\ assignments_log s1 = assignments_log s /\ stdout s1 = stdout s
     /\ checked s1 = checked s)
  /\ (0 <= first_candidate env s group groupConf < len (Users groupConf) ->
      exists calls s1,
        checked s1 = checked s ++ calls
        /\ index_log s1 = index_log s /\ counts_json s1 = counts_json s
        /\ assignments_log s1 = assignments_log s /\ stdout s1 = stdout s
        /\ (length calls <= length (Users groupConf))%nat
        /\ (forall k call, calls !! k = Some call ->
              index (Users groupConf)
                ((first_candidate env s group groupConf + Z.of_nat k)
                 mod len (Users groupConf)) = Some (fst call))
        /\ ((exists pre user,
               calls = pre ++ [(user, (true, None))] /\ Forall unavailable pre
               /\ forall dryRun,
                    runner.Assign group dryRun env s
                    = commit group dryRun groupConf (lastIndex_of env s group)
                        ((first_candidate env s group groupConf + Z.of_nat (length pre))
                         mod len (Users groupConf)) user env s1)
            \/ (exists pre user ok e,
                  calls = pre ++ [(user, (ok, Some e))] /\ Forall unavailable pre
                  /\ forall dryRun,
                       runner.Assign group dryRun env s
                       = (Ret (Some (AvailabilityError user e)), s1))
            \/ (Forall unavailable calls /\ length calls = length (Users groupConf)
                /\ forall dryRun,
                     runner.Assign group dryRun env s
                     = (Ret (Some (NoAvailableAssigneeError group)), s1)))).
Proof.
  intros Hconf Hne Hmk Hnull Hs Hc.
  destruct (Assign_scan group env s groupConf Hconf Hne Hmk Hnull Hs Hc)
    as (availChecker & s0 & _ & Hknown & F1 & F2 & F3 & F4 & F5 & Hrun).
  split.
  - intros Hout. exists s0. split; [|auto 6]. intros dryRun. rewrite Hrun.
    apply (Assign_loop_out_of_range _ _ _ _ _ _ _ _ _ Hne Hout).
  - intros Hin.
    destruct (Assign_loop_scan group groupConf (Users groupConf)
                (lastIndex_of env s group) availChecker Hknown
                (length (Users groupConf)) 0 (first_candidate env s group groupConf)
                env s0 ltac:(unfold len; lia) Hin)
      as (calls & s1 & Hcalls & (_ & G2 & G3 & G4 & G5) & Hlen & Hord & Hend).
    exists calls, s1.
    split; [congruence|]. do 4 (split; [congruence|]).
    split; [exact Hlen|]. split; [exact Hord|].
    destruct Hend as [(pre & user & Hc1 & Hc2 & Hc3)
                     |[(pre & user & ok & e & Hc1 & Hc2 & Hc3)|(Hc1 & Hc2 & Hc3)]].
    + left. exists pre, user. split; [exact Hc1|]. split; [exact Hc2|].
      intros dryRun. rewrite Hrun. apply Hc3.
    + right; left. exists pre, user, ok, e. split; [exact Hc1|]. split; [exact Hc2|].
      intros dryRun. rewrite Hrun. apply Hc3.
    + right; right. split; [exact Hc1|]. split; [exact Hc2|].
      intros dryRun. rewrite Hrun. apply Hc3.
Qed.

(** X4. [Assign] gives up before it asks about anybody in six cases, tried
    in this order: the group's configuration cannot be read or parsed
    (ConfigError), it lists no user (ConfigError "no users found"), the data
    directory cannot be made ("failed to get counts: no counts found for
    group ...", the error of os.MkdirAll itself is not reported), counts.json
    holds null (the panic "assignment to entry in nil map" of [readCounts]),
    the strategy name is unknown (ConfigError "unknown strategy: ..."), the
    checker name is unknown (ConfigError "unknown availability checker: ...").
    In each case nothing is printed, no file changes and no availability call
    is made; in the first two not even the data directory is made. *)
Theorem Assign_fails_before_scan (group : string) (dryRun : bool) (env : Env)
    (s : State) :
  (conf_yaml env group = None ->
   runner.Assign group dryRun env s
   = (Ret (Some (ConfigError group
                   (Wrapf "failed to read config file" (LibError "ioutil.ReadFile")))), s))
  /\ (conf_yaml env group = Some None ->
      runner.Assign group dryRun env s
      = (Ret (Some (ConfigError group
                      (Wrapf "failed to parse config file" (LibError "yaml.Unmarshal")))),
         s))
  /\ (forall groupConf, conf_yaml env group = Some (Some groupConf) ->
      (Users groupConf = [] ->
       runner.Assign group dryRun env s
       = (Ret (Some (ConfigError group (Errorf "no users found"))), s))
      /\ (Users groupConf <> [] -> fails env MkdirAll_dataDir group = true ->
          runner.Assign group dryRun env s
          = (Ret (Some (Wrapf "failed to get counts"
                          (Errorf ("no counts found for group " +:+ group)))), s))
      /\ (Users groupConf <> [] -> fails env MkdirAll_dataDir group = false ->
          counts_json s !! group = Some None ->
          fst (runner.Assign group dryRun env s) = Panic "assignment to entry in nil map"
          /\ quiet s (snd (runner.Assign group dryRun env s)))
      /\ (Users groupConf <> [] -> fails env MkdirAll_dataDir group = false ->
          counts_json s !! group <> Some None ->
          Strategy groupConf <> "random" -> Strategy groupConf <> "least_assigned" ->
          Strategy groupConf <> "round_robin" ->
          fst (runner.Assign group dryRun env s)
          = Ret (Some (ConfigError group
                         (Errorf ("unknown strategy: " +:+ Strategy groupConf))))
          /\ quiet s (snd (runner.Assign group dryRun env s)))
      /\ (Users groupConf <> [] -> fails env MkdirAll_dataDir group = false ->
          counts_json s !! group <> Some None ->
          (Strategy groupConf = "random" \/ Strategy groupConf = "least_assigned"
           \/ Strategy groupConf = "round_robin") ->
          AvailabilityCheckerName groupConf <> "inout" ->
          AvailabilityCheckerName groupConf <> "always_available" ->
          fst (runner.Assign group dryRun env s)
          = Ret (Some (ConfigError group
                         (Errorf ("unknown availability checker: "
                                  +:+ AvailabilityCheckerName groupConf))))
          /\ quiet s (snd (runner.Assign group dryRun env s)))).
Proof.
  split; [intros H; rewrite Assign_exits, H; reflexivity|].
  split; [intros H; rewrite Assign_exits, H; reflexivity|].
  intros conf Hconf.
  assert (Hq : quiet s (after_mkdir env group (after_mkdir env group s)))
    by (eapply quiet_trans; apply quiet_after_mkdir).
  split; [intros H; rewrite Assign_exits, Hconf, H; reflexivity|].
  split.
  { intros Hne Hmk. rewrite Assign_exits, Hconf.
    destruct (Z.eqb_spec (len (Users conf)) 0) as [E|_];
      [apply len_zero in E; contradiction|].
    rewrite Hmk. cbv zeta. unfold after_mkdir. rewrite Hmk. reflexivity. }
  split.
  { intros Hne Hmk Hnull. rewrite Assign_exits, Hconf.
    destruct (Z.eqb_spec (len (Users conf)) 0) as [E|_];
      [apply len_zero in E; contradiction|].
    rewrite Hmk. cbv zeta.
    destruct (decide (counts_json s !! group = Some None)) as [_|?]; [|contradiction].
    split; [reflexivity|exact Hq]. }
  split.
  { intros Hne Hmk Hnull H1 H2 H3. rewrite Assign_exits, Hconf.
    destruct (Z.eqb_spec (len (Users conf)) 0) as [E|_];
      [apply len_zero in E; contradiction|].
    rewrite Hmk. cbv zeta.
    destruct (decide (counts_json s !! group = Some None)) as [?|_]; [contradiction|].
    destruct (strategy_name_dec (Strategy conf)) as [[?|[?|?]]|_]; try contradiction.
    split; [reflexivity|exact Hq]. }
  intros Hne Hmk Hnull Hs H1 H2. rewrite Assign_exits, Hconf.
  destruct (Z.eqb_spec (len (Users conf)) 0) as [E|_];
    [apply len_zero in E; contradiction|].
  rewrite Hmk. cbv zeta.
  destruct (decide (counts_json s !! group = Some None)) as [?|_]; [contradiction|].
  destruct (strategy_name_dec (Strategy conf)) as [_|Hn]; [|contradiction].
  destruct (checker_name_dec (AvailabilityCheckerName conf)) as [[?|?]|_];
    try contradiction.
  split; [reflexivity|exact Hq].
Qed.

Lemma Assign_fails_before_scan_witness :
  fst (runner.Assign "nobody" false env_always_available fresh_state)
  = Ret (Some (ConfigError "nobody"
                 (Wrapf "failed to read config file" (LibError "ioutil.ReadFile"))))
  /\ fst (runner.Assign "team" false (with_failures no_data_dir env_always_available)
            fresh_state)
     = Ret (Some (Wrapf "failed to get counts" (Errorf "no counts found for group team")))
  /\ fst (runner.Assign "team" false env_unknown_strategy fresh_state)
     = Ret (Some (ConfigError "team" (Errorf "unknown strategy: fastest")))
  /\ fst (runner.Assign "team" false env_unknown_strategy state_with_null_counts)
     = Panic "assignment to entry in nil map".
Proof.
  destruct (Assign_fails_before_scan "nobody" false env_always_available fresh_state)
    as [H1 _].
  destruct (Assign_fails_before_scan "team" false
              (with_failures no_data_dir env_always_available) fresh_state)
    as (_ & _ & H2).
  destruct (H2 (team_conf "round_robin" "always_available") eq_refl) as (_ & H2' & _).
  destruct (Assign_fails_before_scan "team" false env_unknown_strategy fresh_state)
    as (_ & _ & H3).
  destruct (H3 (team_conf "fastest" "always_available") eq_refl)
    as (_ & _ & _ & H3' & _).
  destruct (Assign_fails_before_scan "team" false env_unknown_strategy
              state_with_null_counts) as (_ & _ & H4).
  destruct (H4 (team_conf "fastest" "always_available") eq_refl) as (_ & _ & H4' & _).
  split; [rewrite H1 by reflexivity; reflexivity|].
  split; [rewrite H2' by (reflexivity || discriminate); reflexivity|].
  split; [apply H3'; (reflexivity || discriminate)|].
  apply H4'; (reflexivity || discriminate).
Defined.

(** X5. [Assign] stops in a run-time panic exactly when the configuration
    loads and lists a user, the data directory can be made, and either
    counts.json holds null, or the scan is reached (the checker name is known)
    under the round_robin strategy with a stored position whose successor has
    a negative remainder by the number of users. The panic is the "assignment
    to entry in nil map" of [readCounts] in the first case and the "index out
    of range" of [users[nextIndex]] otherwise. With a counts.json that does
    not hold null and a stored position from -1 up to, not including, the
    largest [int], [Assign] returns. *)
Theorem Assign_panics_iff (group : string) (dryRun : bool) (env : Env) (s : State) :
  ((exists msg, fst (runner.Assign group dryRun env s) = Panic msg)
   <-> exists groupConf,
         conf_yaml env group = Some (Some groupConf) /\ Users groupConf <> []
         /\ fails env MkdirAll_dataDir group = false
         /\ (counts_json s !! group = Some None
             \/ (Strategy groupConf = "round_robin"
                 /\ (AvailabilityCheckerName groupConf = "inout"
                     \/ AvailabilityCheckerName groupConf = "always_available")
                 /\ Z.rem (wrap (lastIndex_of env s group + 1)) (len (Users groupConf))
                    < 0)))
  /\ (forall msg, fst (runner.Assign group dryRun env s) = Panic msg ->
      msg = if decide (counts_json s !! group = Some None)
            then "assignment to entry in nil map" else "index out of range")
  /\ (-1 <= lastIndex_of env s group < max_int ->
      counts_json s !! group <> Some None ->
      exists r, fst (runner.Assign group dryRun env s) = Ret r).
Proof.
  assert (Hcases :
    (exists r, fst (runner.Assign group dryRun env s) = Ret r)
    \/ (fst (runner.Assign group dryRun env s) = Panic "assignment to entry in nil map"
        /\ counts_json s !! group = Some None
        /\ exists groupConf,
             conf_yaml env group = Some (Some groupConf) /\ Users groupConf <> []
             /\ fails env MkdirAll_dataDir group = false)
    \/ (fst (runner.Assign group dryRun env s) = Panic "index out of range"
        /\ counts_json s !! group <> Some None
        /\ exists groupConf,
             conf_yaml env group = Some (Some groupConf) /\ Users groupConf <> []
             /\ fails env MkdirAll_dataDir group = false
             /\ Strategy groupConf = "round_robin"
             /\ (AvailabilityCheckerName groupConf = "inout"
                 \/ AvailabilityCheckerName groupConf = "always_available")
             /\ Z.rem (wrap (lastIndex_of env s group + 1)) (len (Users groupConf)) < 0)).
  { rewrite Assign_exits.
    destruct (conf_yaml env group) as [[conf|]|] eqn:Hconf;
      [|left; eexists; reflexivity|left; eexists; reflexivity].
    destruct (Z.eqb_spec (len (Users conf)) 0) as [E|NE]; [left; eexists; reflexivity|].
    assert (Hne : Users conf <> []) by (intros E; apply NE; rewrite E; reflexivity).
    pose proof (len_pos _ Hne) as Hpos.
    destruct (fails env MkdirAll_dataDir group) eqn:Hmk; [left; eexists; reflexivity|].
    cbv zeta.
    destruct (decide (counts_json s !! group = Some None)) as [Hnull|Hnull].
    { right; left. split; [reflexivity|]. split; [exact Hnull|]. exists conf. auto. }
    destruct (strategy_name_dec (Strategy conf)) as [Hs|_]; [|left; eexists; reflexivity].
    destruct (checker_name_dec (AvailabilityCheckerName conf)) as [Hc|_];
      [|left; eexists; reflexivity].
    destruct (Assign_outcome group env s conf Hconf Hne Hmk Hnull Hs Hc) as [Hout Hin].
    destruct (Z_lt_dec (first_candidate env s group conf) 0) as [Hneg|Hpos'].
    - right; right. destruct Hout as (s1 & Hrun & _); [lia|]. rewrite Hrun.
      split; [reflexivity|]. split; [exact Hnull|]. exists conf.
      destruct (String.eqb_spec (Strategy conf) "round_robin") as [Hrr|Hrr].
      + rewrite <- (first_candidate_round_robin env s group conf Hne Hrr). auto 7.
      + pose proof (first_candidate_index env s group conf Hne Hrr Hs). lia.
    - assert (Hrange : 0 <= first_candidate env s group conf < len (Users conf)).
      { destruct (String.eqb_spec (Strategy conf) "round_robin") as [Hrr|Hrr].
        - rewrite (first_candidate_round_robin env s group conf Hne Hrr) in *.
          pose proof (Z.rem_bound_abs (wrap (lastIndex_of env s group + 1))
                        (len (Users conf)) ltac:(lia)). lia.
        - apply first_candidate_index; assumption. }
      left. destruct (Hin Hrange) as (calls & s1 & _ & _ & F2 & _ & _ & _ & _ & Hend).
      destruct Hend as [(pre & user & _ & _ & Hrun)
                       |[(pre & user & ok & e & _ & _ & Hrun)|(_ & _ & Hrun)]];
        rewrite Hrun; [|eexists; reflexivity|eexists; reflexivity].
      destruct (commit_returns group dryRun conf (lastIndex_of env s group)
                  ((first_candidate env s group conf + Z.of_nat (length pre))
                   mod len (Users conf)) user env s1 Hconf
                  ltac:(rewrite F2; exact Hnull)) as (r & s' & -> & _).
      eexists; reflexivity. }
  split; [split|split].
  - intros [msg Hmsg].
    destruct Hcases as [[r Hr]|[(_ & Hnull & conf & Hconf & Hne & Hmk)
                               |(_ & _ & conf & Hconf & Hne & Hmk & H)]];
      [congruence| |]; exists conf; auto 6.
  - intros (conf & Hconf & Hne & Hmk & H).
    destruct Hcases as [[r Hr]|[[Hp _]|[Hp _]]]; [exfalso|eauto|eauto].
    destruct (decide (counts_json s !! group = Some None)) as [Hnull|Hnull].
    + rewrite Assign_exits, Hconf, Hmk in Hr.
      destruct (Z.eqb_spec (len (Users conf)) 0) as [E|_];
        [apply len_zero in E; contradiction|].
      cbv zeta in Hr.
      destruct (decide (counts_json s !! group = Some None)); [|contradiction].
      discriminate Hr.
    + destruct H as [H|(Hrr & Hc & Hneg)]; [contradiction|].
      assert (Hs : strategy_name (Strategy conf)) by (right; right; exact Hrr).
      destruct (Assign_outcome group env s conf Hconf Hne Hmk Hnull Hs Hc) as [Hout _].
      destruct Hout as (s1 & Hrun & _).
      { rewrite (first_candidate_round_robin env s group conf Hne Hrr). lia. }
      rewrite Hrun in Hr. discriminate Hr.
  - intros msg Hmsg.
    destruct Hcases as [[r Hr]|[(Hp & Hnull & _)|(Hp & Hnull & _)]]; [congruence| |].
    + destruct (decide (counts_json s !! group = Some None)); [congruence|contradiction].
    + destruct (decide (counts_json s !! group = Some None)); [contradiction|congruence].
  - intros Hrange Hnn.
    destruct Hcases as [Hr|[(_ & Hnull & _)
                           |(_ & _ & conf & _ & Hne & _ & _ & _ & Hneg)]];
      [exact Hr|contradiction|].
    exfalso. pose proof (len_pos _ Hne) as Hpos.
    rewrite wrap_id in Hneg.
    + pose proof (Z.rem_bound_pos (lastIndex_of env s group + 1) (len (Users conf))
                    ltac:(lia) Hpos). lia.
    + unfold is_int, min_int, max_int, int_bits in *.
      change (2 ^ (64 - 1)) with 9223372036854775808 in *. lia.
Qed.

Lemma Assign_panics_iff_witness :
  (exists msg,
     fst (runner.Assign "team" false env_always_available
            (state_with_index ("2025-01-02T15:04:05Z -- -5" +:+ golib.LF))) = Panic msg)
  /\ (exists msg,
        fst (runner.Assign "team" false env_always_available state_with_null_counts)
        = Panic msg)
  /\ exists r, fst (runner.Assign "team" false env_always_available
                      (state_with_index one_line_index)) = Ret r.
Proof.
  destruct (Assign_panics_iff "team" false env_always_available
              (state_with_index ("2025-01-02T15:04:05Z -- -5" +:+ golib.LF)))
    as [[_ H1] _].
  destruct (Assign_panics_iff "team" false env_always_available state_with_null_counts)
    as [[_ H3] _].
  destruct (Assign_panics_iff "team" false env_always_available
              (state_with_index one_line_index)) as (_ & _ & H2).
  split; [|split].
  - apply H1. exists (team_conf "round_robin" "always_available").
    split; [reflexivity|]. split; [discriminate|]. split; [reflexivity|].
    right. split; [reflexivity|]. split; [right; reflexivity|]. vm_compute. reflexivity.
  - apply H3. exists (team_conf "round_robin" "always_available").
    split; [reflexivity|]. split; [discriminate|]. split; [reflexivity|].
    left. reflexivity.
  - apply H2; [vm_compute; split; [discriminate|reflexivity]|discriminate].
Defined.

(** Every run of [Assign]: either it ends before the scan makes a call, in
    an error or in the panic, with the files, the output and the calls of the
    start; or it scans from a first candidate that is an index of the
    members. Up to the commit a dry run and a run that is not one go the same
    way. *)
Lemma Assign_trace (group : string) (env : Env) (s : State) :
  (exists r s1,
     (forall dryRun, runner.Assign group dryRun env s = (r, s1))
     /\ quiet s s1
     /\ (r = Panic "index out of range"
         \/ r = Panic "assignment to entry in nil map"
         \/ (exists inner, r = Ret (Some (ConfigError group inner)))
         \/ r = Ret (Some (Wrapf "failed to get counts"
                             (Errorf ("no counts found for group " +:+ group))))))
  \/ (exists groupConf calls s1,
        conf_yaml env group = Some (Some groupConf) /\ Users groupConf <> []
        /\ counts_json s !! group <> Some None
        /\ 0 <= first_candidate env s group groupConf < len (Users groupConf)
        /\ checked s1 = checked s ++ calls
        /\ index_log s1 = index_log s /\ counts_json s1 = counts_json s
        /\ assignments_log s1 = assignments_log s /\ stdout s1 = stdout s
        /\ (length calls <= length (Users groupConf))%nat
        /\ (forall k call, calls !! k = Some call ->
              index (Users groupConf)
                ((first_candidate env s group groupConf + Z.of_nat k)
                 mod len (Users groupConf)) = Some (fst call))
        /\ ((exists pre user,
               calls = pre ++ [(user, (true, None))] /\ Forall unavailable pre
               /\ forall dryRun,
                    runner.Assign group dryRun env s
                    = commit group dryRun groupConf (lastIndex_of env s group)
                        ((first_candidate env s group groupConf + Z.of_nat (length pre))
                         mod len (Users groupConf)) user env s1)
            \/ (exists pre user ok e,
                  calls = pre ++ [(user, (ok, Some e))] /\ Forall unavailable pre
                  /\ forall dryRun,
                       runner.Assign group dryRun env s
                       = (Ret (Some (AvailabilityError user e)), s1))
            \/ (Forall unavailable calls /\ length calls = length (Users groupConf)
                /\ forall dryRun,
                     runner.Assign group dryRun env s
                     = (Ret (Some (NoAvailableAssigneeError group)), s1)))).
Proof.
  assert (Hq : quiet s (after_mkdir env group (after_mkdir env group s)))
    by (eapply quiet_trans; apply quiet_after_mkdir).
  destruct (conf_yaml env group) as [[conf|]|] eqn:Hconf.
  2,3: left; eexists _, s; split;
       [intros dryRun; rewrite Assign_exits, Hconf; reflexivity|];
       split; [apply quiet_refl|right; right; left; eexists; reflexivity].
  destruct (Z.eqb_spec (len (Users conf)) 0) as [E|NE].
  { left. eexists _, s. split.
    - intros dryRun. rewrite Assign_exits, Hconf.
      destruct (Z.eqb_spec (len (Users conf)) 0) as [_|?]; [reflexivity|contradiction].
    - split; [apply quiet_refl|right; right; left; eexists; reflexivity]. }
  assert (Hne : Users conf <> []) by (intros E; apply NE; rewrite E; reflexivity).
  assert (Hexits := fun dryRun => Assign_exits group dryRun env s).
  rewrite Hconf in Hexits.
  destruct (Z.eqb_spec (len (Users conf)) 0) as [?|_]; [contradiction|].
  destruct (fails env MkdirAll_dataDir group) eqn:Hmk.
  { left. eexists _, _. split; [exact Hexits|].
    split; [exact Hq|right; right; right; reflexivity]. }
  cbv zeta in Hexits.
  destruct (decide (counts_json s !! group = Some None)) as [Hnull|Hnull].
  { left. eexists _, _. split; [exact Hexits|].
    split; [exact Hq|right; left; reflexivity]. }
  destruct (strategy_name_dec (Strategy conf)) as [Hs|_].
  2: { left. eexists _, _. split; [exact Hexits|].
       split; [exact Hq|right; right; left; eexists; reflexivity]. }
  destruct (checker_name_dec (AvailabilityCheckerName conf)) as [Hc|_].
  2: { left. eexists _, _. split; [exact Hexits|].
       split; [exact Hq|right; right; left; eexists; reflexivity]. }
  clear Hexits.
  destruct (Assign_outcome group env s conf Hconf Hne Hmk Hnull Hs Hc) as [Hout Hin].
  destruct (Z_lt_dec (first_candidate env s group conf) 0) as [Hneg|Hnn];
    [|destruct (Z_lt_dec (first_candidate env s group conf) (len (Users conf)))
        as [Hlt|Hge]].
  - left. destruct Hout as (s1 & Hrun & Hf); [lia|]. eexists _, s1.
    split; [exact Hrun|]. split; [exact Hf|left; reflexivity].
  - right. destruct (Hin ltac:(lia)) as (calls & s1 & H). exists conf, calls, s1.
    split; [reflexivity|]. split; [exact Hne|]. split; [exact Hnull|].
    split; [lia|exact H].
  - left. destruct Hout as (s1 & Hrun & Hf); [lia|]. eexists _, s1.
    split; [exact Hrun|]. split; [exact Hf|left; reflexivity].
Qed.

Lemma index_elem_of {A : Type} (l : list A) (i : Z) (a : A) :
  index l i = Some a -> a ∈ l.
Proof.
  unfold index. destruct ((0 <=? i) && (i <? len l)); [|discriminate].
  apply list_elem_of_lookup_2.
Qed.

Lemma last_snoc {A : Type} (l : list A) (a : A) : last (l ++ [a]) = Some a.
Proof. induction l as [|x [|y l] IH]; [reflexivity|reflexivity|exact IH]. Qed.

Lemma last_unavailable (calls : list (string * (bool * option error))) (user : string) :
  Forall unavailable calls -> last calls <> Some (user, (true, None)).
Proof.
  intros Hall Hlast. destruct calls as [|c calls] using rev_ind; [discriminate|].
  rewrite last_snoc in Hlast. injection Hlast as ->.
  apply Forall_app in Hall as [_ Hall]. inversion Hall as [|? ? Hu _]. discriminate Hu.
Qed.

(** X6. When [Assign] returns nil it has found a member of the group
    available: the last availability call of the run is about that member and
    answered "available" without an error, every earlier call of the run was
    answered "unavailable" without an error, and the run has printed one line,
    the member's name (in a dry run, behind "[DRY RUN] Would assign to: "). *)
Theorem Assign_assigns_available_member (group : string) (dryRun : bool) (env : Env)
    (s : State) :
  fst (runner.Assign group dryRun env s) = Ret None ->
  exists pre user,
    checked (snd (runner.Assign group dryRun env s))
    = checked s ++ pre ++ [(user, (true, None))]
    /\ Forall unavailable pre
    /\ user ∈ members env group
    /\ stdout (snd (runner.Assign group dryRun env s))
       = stdout s ++ [if dryRun then "[DRY RUN] Would assign to: " +:+ user else user].
Proof.
  intros Hnil.
  destruct (Assign_trace group env s)
    as [(r & s0 & Hrun & _ & [->|[->|[[inner ->]| ->]]])
       |(conf & calls & s1 & Hconf & Hne & Hnull & Hrange & Hchk & _ & Hcj & _ & Hout & _ & Hord
         & Hend)];
    try (rewrite Hrun in Hnil; discriminate Hnil).
  destruct Hend as [(pre & user & -> & Hpre & Hrun)
                   |[(pre & user & ok & e & _ & _ & Hrun)|(_ & _ & Hrun)]];
    [|rewrite Hrun in Hnil; discriminate Hnil..].
  destruct (commit_returns group dryRun conf (lastIndex_of env s group)
              ((first_candidate env s group conf + Z.of_nat (length pre))
               mod len (Users conf)) user env s1 Hconf
               ltac:(rewrite Hcj; exact Hnull))
    as (r & s' & Hc & Hout' & Hchk' & _).
  rewrite Hrun, Hc. cbn [snd]. exists pre, user.
  split; [congruence|]. split; [exact Hpre|]. split; [|congruence].
  unfold members. rewrite Hconf.
  apply (index_elem_of _ _ _ (Hord (length pre) (user, (true, None))
                                 (list_lookup_middle _ _ _ _ eq_refl))).
Qed.

Lemma Assign_assigns_available_member_witness :
  exists pre user,
    checked (snd (runner.Assign "team" false env_only_bob_out
                    (state_with_counts {[ "alice" := 2; "bob" := 1; "charlie" := 2 ]})))
    = pre ++ [(user, (true, None))]
    /\ Forall unavailable pre
    /\ user ∈ ["alice"; "bob"; "charlie"]
    /\ stdout (snd (runner.Assign "team" false env_only_bob_out
                      (state_with_counts {[ "alice" := 2; "bob" := 1; "charlie" := 2 ]})))
       = [user].
Proof.
  destruct (Assign_assigns_available_member "team" false env_only_bob_out
              (state_with_counts {[ "alice" := 2; "bob" := 1; "charlie" := 2 ]}))
    as (pre & user & H1 & H2 & H3 & H4); [vm_compute; reflexivity|].
  exists pre, user. auto.
Defined.

(** X7. What a run of [Assign] prints is fixed by its availability calls,
    whether or not it succeeds: one line for the member when the last call of
    the run answered "available" without an error, and nothing otherwise. The
    name is printed before index.log, counts.json and assignments.log are
    written, so a run whose writes fail has printed it all the same. *)
Theorem Assign_output (group : string) (dryRun : bool) (env : Env) (s : State) :
  exists calls,
    checked (snd (runner.Assign group dryRun env s)) = checked s ++ calls
    /\ stdout (snd (runner.Assign group dryRun env s))
       = stdout s ++
         match last calls with
         | Some (user, (true, None)) =>
             [if dryRun then "[DRY RUN] Would assign to: " +:+ user else user]
         | _ => []
         end.
Proof.
  destruct (Assign_trace group env s)
    as [(r & s0 & Hrun & (_ & _ & _ & Hout & Hchk) & _)
       |(conf & calls & s1 & Hconf & Hne & Hnull & Hrange & Hchk & _ & Hcj & _ & Hout & _ & _
         & Hend)].
  { exists []. rewrite Hrun, !app_nil_r. split; assumption. }
  exists calls.
  destruct Hend as [(pre & user & -> & Hpre & Hrun)
                   |[(pre & user & ok & e & -> & Hpre & Hrun)|(Hall & _ & Hrun)]].
  - destruct (commit_returns group dryRun conf (lastIndex_of env s group)
                ((first_candidate env s group conf + Z.of_nat (length pre))
                 mod len (Users conf)) user env s1 Hconf
                 ltac:(rewrite Hcj; exact Hnull))
      as (r & s' & Hc & Hout' & Hchk' & _).
    rewrite Hrun, Hc, last_snoc. cbn [snd]. split; congruence.
  - rewrite Hrun, last_snoc. cbn [snd]. destruct ok; rewrite app_nil_r; split; congruence.
  - rewrite Hrun. cbn [snd]. split; [exact Hchk|].
    assert (Hl : forall user, last calls <> Some (user, (true, None)))
      by (intros user; apply last_unavailable, Hall).
    destruct (last calls) as [[user [[|] [e|]]]|]; rewrite ?app_nil_r; try exact Hout.
    exfalso. exact (Hl user eq_refl).
Qed.

(** A run whose index.log cannot be opened: alice is found available and
    printed, and the run fails on the first write. *)
Example Assign_prints_then_fails :
  fst (runner.Assign "team" false (with_failures no_index_log env_always_available)
         fresh_state)
  = Ret (Some (Wrapf "failed to write last index"
                 (Wrapf "failed to open index file" (LibError "os.OpenFile"))))
  /\ stdout (snd (runner.Assign "team" false
                    (with_failures no_index_log env_always_available) fresh_state))
     = ["alice"]
  /\ counts_json (snd (runner.Assign "team" false
                         (with_failures no_index_log env_always_available) fresh_state))
     = ∅.
Proof. repeat split; vm_compute; reflexivity. Qed.

(** X8. The scan of [Assign] asks about the members in the order of the
    configuration, going round from the first candidate: the k-th call of a
    run is about the member at index (start + k) mod len(users), and there
    are at most len(users) calls, so nobody is asked about twice. Under
    round_robin the first candidate follows the stored position. *)
Theorem Assign_scans_in_order (group : string) (dryRun : bool) (env : Env) (s : State) :
  exists calls start,
    checked (snd (runner.Assign group dryRun env s)) = checked s ++ calls
    /\ (length calls <= length (members env group))%nat
    /\ (forall k call, calls !! k = Some call ->
          index (members env group) ((start + Z.of_nat k) mod len (members env group))
          = Some (fst call))
    /\ (calls <> [] ->
        0 <= start < len (members env group)
        /\ forall groupConf,
             conf_yaml env group = Some (Some groupConf) ->
             Strategy groupConf = "round_robin" ->
             start = Z.rem (wrap (lastIndex_of env s group + 1)) (len (Users groupConf))).
Proof.
  destruct (Assign_trace group env s)
    as [(r & s0 & Hrun & (_ & _ & _ & _ & Hchk) & _)
       |(conf & calls & s1 & Hconf & Hne & Hnull & Hrange & Hchk & _ & Hcj & _ & _ & Hlen & Hord
         & Hend)].
  { exists [], 0. rewrite Hrun, app_nil_r. split; [exact Hchk|]. split; [simpl; lia|].
    split; [intros k call Hk; discriminate Hk|]. intros H. contradiction. }
  exists calls, (first_candidate env s group conf). unfold members. rewrite Hconf.
  assert (Hfinal : checked (snd (runner.Assign group dryRun env s)) = checked s ++ calls).
  { destruct Hend as [(pre & user & -> & Hpre & Hrun)
                     |[(pre & user & ok & e & -> & Hpre & Hrun)|(Hall & _ & Hrun)]];
      rewrite Hrun; [|exact Hchk..].
    destruct (commit_returns group dryRun conf (lastIndex_of env s group)
                ((first_candidate env s group conf + Z.of_nat (length pre))
                 mod len (Users conf)) user env s1 Hconf
                 ltac:(rewrite Hcj; exact Hnull))
      as (r & s' & Hc & _ & Hchk' & _).
    rewrite Hc. cbn [snd]. congruence. }
  split; [exact Hfinal|]. split; [exact Hlen|]. split; [exact Hord|].
  intros _. split; [exact Hrange|].
  intros conf' [= <-] Hrr. apply first_candidate_round_robin; assumption.
Qed.

Lemma Assign_scans_in_order_witness :
  exists calls start,
    checked (snd (runner.Assign "team" false env_everybody_out
                    (state_with_index one_line_index))) = calls
    /\ start = 2
    /\ map fst calls = ["charlie"; "alice"; "bob"].
Proof.
  destruct (Assign_scans_in_order "team" false env_everybody_out
              (state_with_index one_line_index))
    as (calls & start & H1 & _ & _ & H4).
  exists calls, start. simpl app in H1. split; [exact H1|].
  assert (Hcalls : calls = [("charlie", (false, None)); ("alice", (false, None));
                            ("bob", (false, None))]).
  { rewrite <- H1. vm_compute. reflexivity. }
  split.
  - destruct H4 as [_ H4]; [rewrite Hcalls; discriminate|].
    rewrite (H4 (team_conf "round_robin" "inout") eq_refl eq_refl).
    vm_compute. reflexivity.
  - rewrite Hcalls. reflexivity.
Defined.

(** X9. The errors [Assign] returns: a ConfigError for the group, the
    "failed to get counts" error, an AvailabilityError for a member of the
    group, NoAvailableAssignee for the group, or, when the run is not a dry
    run, one of the four errors of the writes. It never returns a
    SelectionError (the strategies fail on an empty list of users only, and
    [Assign] has turned that down before) and never an InvalidGroupError. *)
Theorem Assign_error_kinds (group : string) (dryRun : bool) (env : Env) (s : State)
    (e : error) :
  fst (runner.Assign group dryRun env s) = Ret (Some e) ->
  ((exists inner, e = ConfigError group inner)
   \/ e = Wrapf "failed to get counts" (Errorf ("no counts found for group " +:+ group))
   \/ (exists user inner, e = AvailabilityError user inner /\ user ∈ members env group)
   \/ e = NoAvailableAssigneeError group
   \/ (dryRun = false
       /\ exists inner,
            e = Wrapf "failed to write last index" inner
            \/ e = Wrapf "failed to increment count" inner
            \/ e = Wrapf "failed to get updated counts" inner
            \/ e = Wrapf "failed to log assignment" inner))
  /\ (forall g inner, e <> SelectionError g inner)
  /\ (forall g, e <> InvalidGroupError g).
Proof.
  intros Hr.
  assert (Hkinds :
    (exists inner, e = ConfigError group inner)
    \/ e = Wrapf "failed to get counts" (Errorf ("no counts found for group " +:+ group))
    \/ (exists user inner, e = AvailabilityError user inner /\ user ∈ members env group)
    \/ e = NoAvailableAssigneeError group
    \/ (dryRun = false /\ write_error e)).
  { destruct (Assign_trace group env s)
      as [(r & s0 & Hrun & _ & [->|[->|[[inner ->]| ->]]])
         |(conf & calls & s1 & Hconf & Hne & Hnull & Hrange & Hchk & _ & Hcj & _ & Hout & _ & Hord
           & Hend)].
    - rewrite Hrun in Hr. discriminate Hr.
    - rewrite Hrun in Hr. discriminate Hr.
    - left. exists inner. rewrite Hrun in Hr. injection Hr as <-. reflexivity.
    - right; left. rewrite Hrun in Hr. injection Hr as <-. reflexivity.
    - destruct Hend as [(pre & user & -> & Hpre & Hrun)
                       |[(pre & user & ok & e' & -> & Hpre & Hrun)|(_ & _ & Hrun)]].
      + destruct (commit_returns group dryRun conf (lastIndex_of env s group)
                    ((first_candidate env s group conf + Z.of_nat (length pre))
                     mod len (Users conf)) user env s1 Hconf
                     ltac:(rewrite Hcj; exact Hnull))
          as (r & s' & Hc & _ & _ & He).
        rewrite Hrun, Hc in Hr. injection Hr as ->.
        do 4 right. apply He. reflexivity.
      + rewrite Hrun in Hr. injection Hr as <-. right; right; left.
        exists user, e'. split; [reflexivity|]. unfold members. rewrite Hconf.
        apply (index_elem_of _ _ _ (Hord (length pre) (user, (ok, Some e'))
                                       (list_lookup_middle _ _ _ _ eq_refl))).
      + rewrite Hrun in Hr. injection Hr as <-. auto. }
  split; [exact Hkinds|].
  split; intros g; intros;
    destruct Hkinds as [[i ->]|[->|[(u & i & -> & _)|[->|[_ [i [->|[->|[->| ->]]]]]]]]];
    discriminate.
Qed.

Lemma Assign_error_kinds_witness :
  exists user inner,
    fst (runner.Assign "team" false env_unreachable fresh_state)
    = Ret (Some (AvailabilityError user inner))
    /\ user ∈ ["alice"; "bob"; "charlie"].
Proof.
  destruct (Assign_error_kinds "team" false env_unreachable fresh_state
              (AvailabilityError "alice" (LibError "dial tcp: connection refused")))
    as [[[i H]|[H|[(u & i & H & Hin)|[H|[_ [i [H|[H|[H|H]]]]]]]]] _];
    [vm_compute; reflexivity|try discriminate H..].
  exists u, i. rewrite <- H. split; [vm_compute; reflexivity|exact Hin].
Defined.

(** ** A committed assignment *)


Lemma lastIndex_of_same (env : Env) (s s' : State) (group : string) :
  index_log s' = index_log s -> lastIndex_of env s' group = lastIndex_of env s group.
Proof. intros H. unfold lastIndex_of. rewrite H. reflexivity. Qed.

(** The files after a commit in which no system call fails. *)
Lemma after_commit_fields (env : Env) (group : string) (groupConf : AssigneeGroupConfig)
    (lastIndex nextIndex : Z) (user : string) (s : State) :
  conf_yaml env group = Some (Some groupConf) ->
  (forall c, fails env c group = false) ->
  stdout (after_commit env group groupConf lastIndex nextIndex user s)
  = stdout s ++ [user]
  /\ checked (after_commit env group groupConf lastIndex nextIndex user s) = checked s
  /\ index_log (after_commit env group groupConf lastIndex nextIndex user s)
     = <[group := default EmptyString (index_log s !! group)
                  +:+ now_RFC3339 env (clock s) +:+ " -- " +:+ golib.fmt_d nextIndex
                  +:+ golib.LF]> (index_log s)
  /\ counts_json (after_commit env group groupConf lastIndex nextIndex user s)
     = <[group := Some (<[user := wrap (default 0 (counts_of env s group !! user) + 1)]>
                          (counts_of env s group))]> (counts_json s)
  /\ assignments_log (after_commit env group groupConf lastIndex nextIndex user s)
     = <[group := default [] (assignments_log s !! group)
                  ++ [{| log_Timestamp := now_RFC3339 env (S (clock s));
                         log_Group := group; log_User := user;
                         log_Strategy := Strategy groupConf;
                         log_LastIndex := lastIndex; log_NextIndex := nextIndex;
                         log_TotalCount := len (Users groupConf);
                         log_UserCount :=
                           wrap (default 0 (counts_of env s group !! user) + 1) |}]]>
         (assignments_log s).
Proof.
  intros Hconf Hok. unfold after_commit. cbv zeta.
  rewrite (after_mkdir_ok env group Hok).
  split; [reflexivity|]. split; [reflexivity|]. split; [reflexivity|].
  split; [reflexivity|].
  unfold after_logAssignment, log_entry.
  cbn [assignments_log after_incrementCount after_writeLastIndex set_data_dirs
       set_stdout set_checked clock].
  do 4 f_equal.
  - unfold members. rewrite Hconf. reflexivity.
  - unfold map_get, counts_of at 1, stored_counts.
    cbn [counts_json after_incrementCount]. rewrite Hok, Hconf.
    rewrite lookup_insert_eq. cbn [default from_option id].
    rewrite with_zeros_lookup. rewrite lookup_insert_eq. reflexivity.
Qed.



(** ** Round robin over consecutive runs *)

Lemma Assign_loop_always_available (group : string) (groupConf : AssigneeGroupConfig)
    (users : list string) (lastIndex nextIndex : Z) (user : string) (env : Env)
    (s : State) :
  index users nextIndex = Some user ->
  runner.Assign_loop default_factory group false groupConf users lastIndex
    runner.AlwaysAvailable 0 nextIndex env s
  = commit group false groupConf lastIndex nextIndex user env
      (set_checked (fun calls => calls ++ [(user, (true, None))]) s).
Proof.
  intros Hidx. pose proof (index_inv _ _ _ Hidx) as Hvalid.
  rewrite runner.Assign_loop_equation_1. unfold runner.Assign_loop_unfold_clause_1.
  destruct (Z_lt_dec 0 (len users)) as [_|Hge]; [|exfalso; lia].
  rewrite run_bind. unfold runner.at_index. rewrite Hidx.
  rewrite run_ret, run_bind. unfold runner.call_IsAvailable.
  cbn [runner.IsAvailable runner.AlwaysAvailable].
  unfold availability.AlwaysAvailable_IsAvailable. run. reflexivity.
Qed.

(** One run under round_robin and always_available: the member after the
    stored position is assigned, and the position read back afterwards is
    hers. *)
Lemma Assign_round_robin_always (env : Env) (s : State) (group : string)
    (groupConf : AssigneeGroupConfig) :
  conf_yaml env group = Some (Some groupConf) ->
  Strategy groupConf = "round_robin" ->
  AvailabilityCheckerName groupConf = "always_available" ->
  Users groupConf <> [] -> slice_ok (Users groupConf) ->
  (forall c, fails env c group = false) ->
  (forall n, timestamp_ok (now_RFC3339 env n)) ->
  (forall data, index_log s !! group = Some data -> complete_lines data) ->
  counts_json s !! group <> Some None ->
  -1 <= lastIndex_of env s group < max_int ->
  exists user s',
    runner.Assign group false env s = (Ret None, s')
    /\ index (Users groupConf) ((lastIndex_of env s group + 1) mod len (Users groupConf))
       = Some user
    /\ stdout s' = stdout s ++ [user]
    /\ lastIndex_of env s' group
       = (lastIndex_of env s group + 1) mod len (Users groupConf)
    /\ (forall data, index_log s' !! group = Some data -> complete_lines data)
    /\ counts_json s' !! group <> Some None.
Proof.
  intros Hconf Hrr Haa Hne Hslice Hok Hts Hfile Hnull Hlast.
  pose proof (len_pos _ Hne) as Hpos.
  assert (Hs : strategy_name (Strategy groupConf)) by (right; right; exact Hrr).
  assert (Hc : checker_name (AvailabilityCheckerName groupConf)) by (right; exact Haa).
  assert (Hfirst : first_candidate env s group groupConf
                   = (lastIndex_of env s group + 1) mod len (Users groupConf)).
  { rewrite (first_candidate_round_robin env s group groupConf Hne Hrr).
    rewrite wrap_id.
    - apply Z.rem_mod_nonneg; lia.
    - unfold is_int, min_int, max_int, int_bits in *.
      change (2 ^ (64 - 1)) with 9223372036854775808 in *. lia. }
  set (nextIndex := (lastIndex_of env s group + 1) mod len (Users groupConf)) in *.
  assert (Hrange : 0 <= nextIndex < len (Users groupConf))
    by (apply Z.mod_pos_bound; lia).
  destruct (index_Some _ _ Hrange) as [user Hidx].
  destruct (Assign_scan group env s groupConf Hconf Hne (Hok _) Hnull Hs Hc)
    as (availChecker & s1 & Hchecker & _ & F1 & F2 & F3 & F4 & F5 & Hrun).
  destruct (CreateAvailabilityChecker_known default_factory _ Hc)
    as (availChecker' & Hchecker' & _ & Halways & _).
  rewrite Hchecker in Hchecker'. injection Hchecker' as <-.
  specialize (Hrun false). rewrite (Halways Haa), Hfirst in Hrun.
  rewrite (Assign_loop_always_available _ _ _ _ _ user _ _ Hidx) in Hrun.
  set (s2 := set_checked (fun calls => calls ++ [(user, (true, None))]) s1) in *.
  destruct (commit_cases group groupConf (lastIndex_of env s group) nextIndex user env s2
              Hconf ltac:(cbn [counts_json s2 set_checked]; rewrite F2; exact Hnull))
    as [[_ Hcommit]|[[c Hc'] _]]; [|rewrite Hok in Hc'; discriminate].
  destruct (after_commit_fields env group groupConf (lastIndex_of env s group) nextIndex
              user s2 Hconf Hok) as (A1 & _ & A3 & A4 & _).
  exists user, (after_commit env group groupConf (lastIndex_of env s group) nextIndex
                  user s2).
  split; [rewrite Hrun; exact Hcommit|]. split; [exact Hidx|].
  split; [rewrite A1; cbn [stdout s2 set_checked]; rewrite F4; reflexivity|].
  assert (Hnew : index_log (after_commit env group groupConf (lastIndex_of env s group)
                              nextIndex user s2) !! group
                 = Some (default EmptyString (index_log s !! group)
                         +:+ now_RFC3339 env (clock s2) +:+ " -- "
                         +:+ golib.fmt_d nextIndex +:+ golib.LF)).
  { rewrite A3, lookup_insert_eq. cbn [index_log s2 set_checked]. rewrite F1.
    reflexivity. }
  split; [|split].
  - unfold lastIndex_of at 1. rewrite Hok, Hnew.
    apply written_line_read_back; [|apply Hts|].
    + unfold slice_ok in Hslice. unfold is_int, min_int, max_int, int_bits in *.
      change (2 ^ (64 - 1)) with 9223372036854775808 in *. lia.
    + destruct (index_log s !! group) as [data|]; [apply Hfile; reflexivity|].
      left. reflexivity.
  - intros data. rewrite Hnew. intros [= <-]. right.
    exists (default EmptyString (index_log s !! group)
            +:+ now_RFC3339 env (clock s2) +:+ " -- " +:+ golib.fmt_d nextIndex).
    rewrite ?sapp_assoc. reflexivity.
  - rewrite A4, lookup_insert_eq. discriminate.
Qed.

(** X11. Rotation. For a group under round_robin and always_available with
    at least one user (and no more than a slice holds), when no system call
    fails, the timestamps hold neither a line feed nor "--", index.log is
    missing, empty or ends in a line feed, counts.json does not hold null, and
    the stored position is from -1 up to, not including, the largest [int]:
    [k] runs of [Assign] in a row all return nil and print [k] lines, the j-th
    of them (from 0) the member at index (position + 1 + j) mod len(users). So
    every len(users) consecutive runs assign every member once, in the order of
    the configuration. *)
Theorem round_robin_rotation (env : Env) (group : string)
    (groupConf : AssigneeGroupConfig) :
  conf_yaml env group = Some (Some groupConf) ->
  Strategy groupConf = "round_robin" ->
  AvailabilityCheckerName groupConf = "always_available" ->
  Users groupConf <> [] -> slice_ok (Users groupConf) ->
  (forall c, fails env c group = false) ->
  (forall n, timestamp_ok (now_RFC3339 env n)) ->
  forall (k : nat) (s : State),
    (forall data, index_log s !! group = Some data -> complete_lines data) ->
    counts_json s !! group <> Some None ->
    -1 <= lastIndex_of env s group < max_int ->
    exists s' out,
      runs k (runner.Assign group false) env s = (Ret None, s')
      /\ stdout s' = stdout s ++ out
      /\ length out = k
      /\ forall j user, out !! j = Some user ->
           index (Users groupConf)
             ((lastIndex_of env s group + 1 + Z.of_nat j) mod len (Users groupConf))
           = Some user.
Proof.
  intros Hconf Hrr Haa Hne Hslice Hok Hts.
  pose proof (len_pos _ Hne) as Hpos.
  induction k as [|k IH]; intros s Hfile Hnull Hlast.
  { exists s, []. rewrite app_nil_r. split; [reflexivity|]. split; [reflexivity|].
    split; [reflexivity|]. intros j user Hj. discriminate Hj. }
  destruct (Assign_round_robin_always env s group groupConf Hconf Hrr Haa Hne Hslice Hok
              Hts Hfile Hnull Hlast)
    as (user & s1 & Hrun & Hidx & Hout & Hlast1 & Hfile1 & Hnull1).
  destruct (IH s1 Hfile1 Hnull1) as (s' & out & Hruns & Hout' & Hlen & Hnth).
  { rewrite Hlast1. unfold slice_ok in Hslice.
    pose proof (Z.mod_pos_bound (lastIndex_of env s group + 1) (len (Users groupConf))
                  Hpos). lia. }
  exists s', (user :: out). cbn [runs]. rewrite run_bind, Hrun.
  split; [exact Hruns|].
  split; [rewrite Hout', Hout, <- app_assoc; reflexivity|].
  split; [simpl; lia|].
  intros [|j] u Hj.
  - injection Hj as <-. rewrite Z.add_0_r. exact Hidx.
  - cbn [lookup list_lookup] in Hj. specialize (Hnth j u Hj).
    rewrite Hlast1 in Hnth. rewrite <- Hnth. f_equal.
    rewrite <- (Z.add_assoc _ 1 (Z.of_nat j)), Zplus_mod_idemp_l. f_equal. lia.
Qed.

Lemma round_robin_rotation_witness :
  exists s',
    runs 4 (runner.Assign "team" false) env_always_available fresh_state = (Ret None, s')
    /\ stdout s' = ["alice"; "bob"; "charlie"; "alice"].
Proof.
  destruct (round_robin_rotation env_always_available "team"
              (team_conf "round_robin" "always_available")
              eq_refl eq_refl eq_refl ltac:(discriminate)
              ltac:(unfold slice_ok; vm_compute; discriminate)
              ltac:(intros c; reflexivity)
              ltac:(intros n; split; apply Cut_None; vm_compute; reflexivity)
              4%nat fresh_state)
    as (s' & out & H1 & H2 & H3 & H4).
  - intros data Hd. discriminate Hd.
  - discriminate.
  - vm_compute. split; [discriminate|reflexivity].
  - exists s'. split; [exact H1|]. rewrite H2. simpl app.
    destruct out as [|u0 [|u1 [|u2 [|u3 [|u4 out]]]]]; try discriminate H3.
    pose proof (H4 0%nat u0 eq_refl) as E0. pose proof (H4 1%nat u1 eq_refl) as E1.
    pose proof (H4 2%nat u2 eq_refl) as E2. pose proof (H4 3%nat u3 eq_refl) as E3.
    vm_compute in E0, E1, E2, E3.
    injection E0 as <-. injection E1 as <-. injection E2 as <-. injection E3 as <-.
    reflexivity.
Defined.

(** ** Dry runs *)

Lemma sapp_inv_head (p a b : string) : p +:+ a = p +:+ b -> a = b.
Proof.
  induction p as [|c p IH]; [auto|]. rewrite !sapp_cons. intros [= H]. auto.
Qed.

(** X12. A dry run is a faithful preview. In the same state and environment
    a dry run of [Assign] makes the availability calls the run that is not a
    dry run makes, with the same answers, and the member it names is the one
    the other run prints. When the dry run fails or panics, the other run ends
    the same way in the same state; when it returns nil, the other run returns
    nil or the error of a write. *)
Theorem dry_run_previews (group : string) (env : Env) (s : State) :
  checked (snd (runner.Assign group true env s))
  = checked (snd (runner.Assign group false env s))
  /\ (forall user,
        stdout (snd (runner.Assign group true env s))
        = stdout s ++ ["[DRY RUN] Would assign to: " +:+ user] ->
        stdout (snd (runner.Assign group false env s)) = stdout s ++ [user])
  /\ (fst (runner.Assign group true env s) <> Ret None ->
      runner.Assign group false env s = runner.Assign group true env s)
  /\ (fst (runner.Assign group true env s) = Ret None ->
      fst (runner.Assign group false env s) = Ret None
      \/ exists inner,
           fst (runner.Assign group false env s)
           = Ret (Some (Wrapf "failed to write last index" inner))
           \/ fst (runner.Assign group false env s)
              = Ret (Some (Wrapf "failed to increment count" inner))
           \/ fst (runner.Assign group false env s)
              = Ret (Some (Wrapf "failed to get updated counts" inner))
           \/ fst (runner.Assign group false env s)
              = Ret (Some (Wrapf "failed to log assignment" inner))).
Proof.
  destruct (Assign_trace group env s)
    as [(r & s0 & Hrun & (_ & _ & _ & Hout & _) & Hr)
       |(conf & calls & s1 & Hconf & Hne & Hnull & Hrange & Hchk & _ & Hcj & _ & Hout & _ & _
         & Hend)].
  { rewrite !Hrun. cbn [fst snd]. split; [reflexivity|]. split.
    - intros user H. rewrite Hout in H. apply (f_equal length) in H.
      rewrite length_app in H. simpl in H. lia.
    - split; [reflexivity|]. intros ->.
      destruct Hr as [H|[H|[[i H]|H]]]; discriminate H. }
  destruct Hend as [(pre & user & -> & Hpre & Hrun)
                   |[(pre & user & ok & e & -> & Hpre & Hrun)|(Hall & _ & Hrun)]].
  - destruct (commit_returns group false conf (lastIndex_of env s group)
                ((first_candidate env s group conf + Z.of_nat (length pre))
                 mod len (Users conf)) user env s1 Hconf
                 ltac:(rewrite Hcj; exact Hnull))
      as (r & s' & Hc & Hout' & Hchk' & He).
    rewrite (Hrun true), (Hrun false), Hc, run_commit_dry. cbn [fst snd].
    split; [rewrite Hchk'; reflexivity|]. split.
    + intros u H. cbn [stdout set_stdout] in H. rewrite Hout in H.
      apply app_inv_head in H. injection H as H. apply sapp_inv_head in H. subst u.
      rewrite Hout', Hout. reflexivity.
    + split; [intros H; contradiction|]. intros _.
      destruct r as [e|]; [|left; reflexivity]. right.
      destruct (He e eq_refl) as [_ [inner H]]. exists inner.
      destruct H as [->|[->|[->| ->]]]; auto.
  - rewrite !Hrun. cbn [fst snd]. split; [reflexivity|]. split.
    + intros u H. rewrite Hout in H. apply (f_equal length) in H.
      rewrite length_app in H. simpl in H. lia.
    + split; [reflexivity|]. intros H. discriminate H.
  - rewrite !Hrun. cbn [fst snd]. split; [reflexivity|]. split.
    + intros u H. rewrite Hout in H. apply (f_equal length) in H.
      rewrite length_app in H. simpl in H. lia.
    + split; [reflexivity|]. intros H. discriminate H.
Qed.

Lemma dry_run_previews_witness :
  stdout (snd (runner.Assign "team" true env_only_bob_out
                 (state_with_counts {[ "alice" := 2; "bob" := 1; "charlie" := 2 ]})))
  = ["[DRY RUN] Would assign to: charlie"]
  /\ stdout (snd (runner.Assign "team" false env_only_bob_out
                    (state_with_counts {[ "alice" := 2; "bob" := 1; "charlie" := 2 ]})))
     = ["charlie"]
  /\ runner.Assign "team" false env_everybody_out fresh_state
     = runner.Assign "team" true env_everybody_out fresh_state.
Proof.
  destruct (dry_run_previews "team" env_only_bob_out
              (state_with_counts {[ "alice" := 2; "bob" := 1; "charlie" := 2 ]}))
    as (_ & H2 & _).
  destruct (dry_run_previews "team" env_everybody_out fresh_state) as (_ & _ & H3 & _).
  split; [vm_compute; reflexivity|].
  split; [apply (H2 "charlie"); vm_compute; reflexivity|].
  apply H3. vm_compute. discriminate.
Defined.

(** ** The strategies and the checker, in general *)

(** X13. For a non-empty list of users [LeastAssigned.SelectNext] returns an
    index of the list and no error, whatever the counts and lastIndex are (a
    user without an entry, or a nil map, counts as zero). When at least one
    user's count is below 2^31 - 1, the index is the lowest one whose user has
    the least count. *)
Theorem LeastAssigned_selects_first_minimum (users : list string) (lastIndex : Z)
    (counts : GoMap) :
  users <> [] ->
  (exists k, selector.LeastAssigned_SelectNext users lastIndex counts = (Z.of_nat k, None)
             /\ (k < length users)%nat
             /\ ((exists u, u ∈ users /\ map_get counts u < 2 ^ 31 - 1) ->
                 first_min_index counts users k)).
Proof.
  intros Hne.
  pose proof (LeastAssigned_index users lastIndex counts Hne) as Hidx.
  destruct (selector.LeastAssigned_SelectNext users lastIndex counts) as [i e] eqn:Hsel.
  assert (He : e = None).
  { unfold selector.LeastAssigned_SelectNext in Hsel.
    destruct (len users =? 0); [|injection Hsel as _ <-; reflexivity].
    injection Hsel as <- _. cbn [fst] in Hidx. lia. }
  subst e. cbn [fst] in Hidx. exists (Z.to_nat i).
  rewrite Z2Nat.id by lia. split; [reflexivity|].
  split; [unfold len in Hidx; lia|].
  intros Hlow. destruct (LeastAssigned_below_init users lastIndex counts Hlow)
    as (k & Hk & Hmin).
  rewrite Hsel in Hk. injection Hk as ->. rewrite Nat2Z.id. exact Hmin.
Qed.

Lemma LeastAssigned_selects_first_minimum_witness :
  selector.LeastAssigned_SelectNext ["alice"; "bob"; "charlie"] 7
    (Some {[ "alice" := 2; "bob" := 1; "charlie" := 1 ]}) = (1, None)
  /\ first_min_index (Some {[ "alice" := 2; "bob" := 1; "charlie" := 1 ]})
       ["alice"; "bob"; "charlie"] 1.
Proof.
  destruct (LeastAssigned_selects_first_minimum ["alice"; "bob"; "charlie"] 7
              (Some {[ "alice" := 2; "bob" := 1; "charlie" := 1 ]}))
    as (k & Hk & _ & Hmin); [discriminate|].
  assert (E : k = 1%nat).
  { assert (H : selector.LeastAssigned_SelectNext ["alice"; "bob"; "charlie"] 7
                  (Some {[ "alice" := 2; "bob" := 1; "charlie" := 1 ]}) = (1, None))
      by (vm_compute; reflexivity).
    rewrite H in Hk. injection Hk as Hk. lia. }
  subst k. split; [exact Hk|]. apply Hmin.
  exists "bob". split; [right; left|]. vm_compute. reflexivity.
Defined.

Lemma unavailable_loop_spec (status : string) (statuses : list string) :
  availability.unavailable_loop status statuses = false <-> status ∈ statuses.
Proof.
  induction statuses as [|u rest IH]; cbn [availability.unavailable_loop].
  - split; [discriminate|]. intros H. inversion H.
  - destruct (String.eqb_spec status u) as [->|Hne].
    + split; [intros _; left|reflexivity].
    + rewrite IH. split; [intros H; right; exact H|].
      intros H. apply elem_of_cons in H as [?|?]; [contradiction|assumption].
Qed.

(** X14. [InOutChecker.IsAvailable] asks the endpoint once, at the URL
    prefix followed by the user name as it is. For a response whose body
    decodes to a JSON object: when the object has a string under
    "inOutLocation", the user is unavailable exactly when that string is, byte
    for byte, one of the configured unavailable statuses; when it has no such
    field, or the field is not a string, the user is reported available. No
    error is returned in either case. *)
Theorem InOutChecker_verdict (username : string) (env : Env) (s : State)
    (resp : http_Response) (result : gmap string json_value) :
  http_Get env (clock s) (InOutApiUrlPrefix env +:+ username) = inr resp ->
  Body resp = BodyObject result ->
  (forall status, result !! "inOutLocation" = Some (JString status) ->
     (fst (availability.InOutChecker_IsAvailable username env s) = Ret (false, None)
      <-> status ∈ InOutUnavailableStatuses env)
     /\ (fst (availability.InOutChecker_IsAvailable username env s) = Ret (true, None)
         <-> status ∉ InOutUnavailableStatuses env))
  /\ ((forall status, result !! "inOutLocation" <> Some (JString status)) ->
      fst (availability.InOutChecker_IsAvailable username env s) = Ret (true, None))
  /\ snd (availability.InOutChecker_IsAvailable username env s) = set_clock S s.
Proof.
  intros Hget Hbody. rewrite run_InOutChecker, Hget, Hbody. cbn [fst snd].
  split; [|split; [|reflexivity]].
  - intros status ->.
    destruct (availability.unavailable_loop status (InOutUnavailableStatuses env)) eqn:Hl.
    + assert (Hn : status ∉ InOutUnavailableStatuses env).
      { intros Hin. apply unavailable_loop_spec in Hin. congruence. }
      split; split; intros H; try discriminate H; try reflexivity; try contradiction.
      exact Hn.
    + apply unavailable_loop_spec in Hl.
      split; split; intros H; try discriminate H; try reflexivity; try contradiction.
      exact Hl.
  - intros Hno. destruct (result !! "inOutLocation") as [[| | |status| |]|]; try reflexivity.
    exfalso. exact (Hno status eq_refl).
Qed.

Lemma InOutChecker_verdict_witness :
  fst (availability.InOutChecker_IsAvailable "bob" env_only_bob_out fresh_state)
  = Ret (false, None)
  /\ fst (availability.InOutChecker_IsAvailable "bob" env_not_found_with_message
            fresh_state)
     = Ret (true, None).
Proof.
  destruct (InOutChecker_verdict "bob" env_only_bob_out fresh_state
              {| StatusCode := 200;
                 Body := BodyObject {[ "inOutLocation" := JString "OOO" ]} |}
              {[ "inOutLocation" := JString "OOO" ]} eq_refl eq_refl) as [H1 _].
  destruct (InOutChecker_verdict "bob" env_not_found_with_message fresh_state
              {| StatusCode := 404;
                 Body := BodyObject {[ "error" := JString "user not found" ]} |}
              {[ "error" := JString "user not found" ]} eq_refl eq_refl) as (_ & H2 & _).
  split.
  - apply (H1 "OOO"); [reflexivity|]. constructor.
  - apply H2. intros status H. vm_compute in H. discriminate H.
Defined.

(** ** package config *)

Lemma validateConfig_None (cfg : config.Config) :
  config.validateConfig cfg = None <->
  config.DataDir (config.Storage cfg) <> EmptyString
  /\ config.ConfDir (config.Storage cfg) <> EmptyString
  /\ config.InOutApiUrlPrefix (config.Availability cfg) <> EmptyString
  /\ config.InOutUnavailableStatuses (config.Availability cfg) <> [].
Proof.
  unfold config.validateConfig.
  destruct (String.eqb_spec (config.DataDir (config.Storage cfg)) EmptyString) as [E1|N1].
  { split; [discriminate|]. intros (H & _). contradiction. }
  destruct (String.eqb_spec (config.ConfDir (config.Storage cfg)) EmptyString) as [E2|N2].
  { split; [discriminate|]. intros (_ & H & _). contradiction. }
  destruct (String.eqb_spec (config.InOutApiUrlPrefix (config.Availability cfg))
              EmptyString) as [E3|N3].
  { split; [discriminate|]. intros (_ & _ & H & _). contradiction. }
  destruct (Z.eqb_spec (len (config.InOutUnavailableStatuses (config.Availability cfg))) 0)
    as [E4|N4].
  { split; [discriminate|]. intros (_ & _ & _ & H). apply len_zero in E4. contradiction. }
  split; [|reflexivity]. intros _. repeat split; auto.
  intros E. apply N4. rewrite E. reflexivity.
Qed.

(** X15. [LoadConfig] returns nil only for a path that is not empty and
    names a regular file that opens and decodes without an error, and then the
    settings it leaves behind are the decoded ones and have all four required
    fields: data_dir, conf_dir and inout_api_url_prefix not empty, and at least
    one unavailable status. *)
Theorem LoadConfig_success (files : config.Files) (configPath : string)
    (Settings Settings' : config.Config) :
  config.LoadConfig files configPath Settings = (Settings', None) ->
  configPath <> EmptyString
  /\ config.os_Stat files configPath = config.StatInfo true
  /\ config.os_Open files configPath = None
  /\ config.json_Decode files configPath Settings = (Settings', None)
  /\ config.DataDir (config.Storage Settings') <> EmptyString
  /\ config.ConfDir (config.Storage Settings') <> EmptyString
  /\ config.InOutApiUrlPrefix (config.Availability Settings') <> EmptyString
  /\ config.InOutUnavailableStatuses (config.Availability Settings') <> [].
Proof.
  unfold config.LoadConfig.
  destruct (String.eqb_spec configPath EmptyString) as [E|Hpath]; [discriminate|].
  destruct (config.os_Stat files configPath) as [e|e|[|]]; try discriminate.
  cbn [negb].
  destruct (config.os_Open files configPath) as [e|]; [discriminate|].
  destruct (config.json_Decode files configPath Settings) as [decoded [e|]];
    [discriminate|].
  destruct (config.validateConfig decoded) as [e|] eqn:Hv; [discriminate|].
  intros [= <-]. apply validateConfig_None in Hv. tauto.
Qed.

(** X16. When [LoadConfig] fails before it decodes the file (empty path,
    missing file, failing stat, not a regular file, failing open) the settings
    are untouched. When it fails later, on a body that does not parse or on
    settings that lack a required field, the settings are whatever the decoder
    left: the global [Settings] is overwritten although an error is
    returned. *)
Theorem LoadConfig_failure (files : config.Files) (configPath : string)
    (Settings Settings' : config.Config) (e : error) :
  config.LoadConfig files configPath Settings = (Settings', Some e) ->
  (Settings' = Settings
   /\ (e = Errorf "config file path cannot be empty"
       \/ e = Errorf ("config file does not exist: " +:+ configPath)
       \/ (exists err, e = Wrapf "failed to access config file" err)
       \/ e = Errorf ("config path is not a regular file: " +:+ configPath)
       \/ (exists err, e = Wrapf "failed to open config file" err)))
  \/ (Settings' = fst (config.json_Decode files configPath Settings)
      /\ config.os_Stat files configPath = config.StatInfo true
      /\ config.os_Open files configPath = None
      /\ ((exists err, snd (config.json_Decode files configPath Settings) = Some err
                       /\ e = Wrapf "failed to parse config file" err)
          \/ (snd (config.json_Decode files configPath Settings) = None
              /\ exists err, config.validateConfig Settings' = Some err
                             /\ e = Wrapf "invalid config" err))).
Proof.
  unfold config.LoadConfig.
  destruct (String.eqb_spec configPath EmptyString) as [E|Hpath].
  { intros [= <- <-]. left. auto. }
  destruct (config.os_Stat files configPath) as [e0|e0|[|]].
  - intros [= <- <-]. left. auto.
  - intros [= <- <-]. left. split; [reflexivity|]. right; right; left. eexists; reflexivity.
  - cbn [negb].
    destruct (config.os_Open files configPath) as [e0|].
    { intros [= <- <-]. left. split; [reflexivity|]. do 4 right. eexists; reflexivity. }
    destruct (config.json_Decode files configPath Settings) as [decoded [e0|]].
    { intros [= <- <-]. right. split; [reflexivity|]. split; [reflexivity|].
      split; [reflexivity|]. left. eexists. split; reflexivity. }
    destruct (config.validateConfig decoded) as [e0|] eqn:Hv; [|discriminate].
    intros [= <- <-]. right. split; [reflexivity|]. split; [reflexivity|].
    split; [reflexivity|]. right. split; [reflexivity|]. eexists. split; [exact Hv|reflexivity].
  - intros [= <- <-]. left. split; [reflexivity|]. do 3 right. left. reflexivity.
Qed.

Lemma LoadConfig_success_witness :
  "config.json" <> EmptyString
  /\ config.DataDir (config.Storage readme_settings) <> EmptyString
  /\ config.InOutUnavailableStatuses (config.Availability readme_settings) <> [].
Proof.
  destruct (LoadConfig_success (files_with readme_settings) "config.json"
              settings_without_data_dir readme_settings eq_refl)
    as (H1 & _ & _ & _ & H5 & _ & _ & H8).
  auto.
Defined.

Lemma LoadConfig_failure_witness :
  config.LoadConfig (files_with settings_without_data_dir) "config.json" readme_settings
  = (settings_without_data_dir,
     Some (Wrapf "invalid config" (Errorf "data_dir is required in storage configuration")))
  /\ ((settings_without_data_dir = readme_settings /\ True)
      \/ settings_without_data_dir
         = fst (config.json_Decode (files_with settings_without_data_dir) "config.json"
                  readme_settings)).
Proof.
  split; [reflexivity|].
  destruct (LoadConfig_failure (files_with settings_without_data_dir) "config.json"
              readme_settings settings_without_data_dir
              (Wrapf "invalid config"
                 (Errorf "data_dir is required in storage configuration")) eq_refl)
    as [[H _]|[H _]]; [left; auto|right; exact H].
Defined.

(** ** Listing the groups *)

Lemma drop_bytes_app (p x : string) : golib.drop_bytes (String.length p) (p +:+ x) = x.
Proof. induction p as [|c p IH]; [reflexivity|exact IH]. Qed.

Lemma substring_app (p x : string) : String.substring 0 (String.length p) (p +:+ x) = p.
Proof.
  induction p as [|c p IH].
  - destruct x; reflexivity.
  - rewrite sapp_cons. cbn [String.length String.substring]. rewrite IH. reflexivity.
Qed.

Lemma substring_drop_bytes (n : nat) (s : string) :
  (n <= String.length s)%nat ->
  s = String.substring 0 n s +:+ golib.drop_bytes n s
  /\ String.length (String.substring 0 n s) = n.
Proof.
  revert s. induction n as [|n IH]; intros s Hn.
  - split; [|destruct s; reflexivity]. destruct s; reflexivity.
  - destruct s as [|c s]; [simpl in Hn; lia|].
    cbn [String.substring golib.drop_bytes]. simpl in Hn.
    destruct (IH s ltac:(lia)) as [H1 H2]. split.
    + rewrite sapp_cons, <- H1. reflexivity.
    + simpl. rewrite H2. reflexivity.
Qed.

Lemma HasSuffix_spec (s suffix : string) :
  golib.HasSuffix s suffix = true <-> exists p, s = p +:+ suffix.
Proof.
  unfold golib.HasSuffix. split.
  - intros H. apply andb_true_iff in H as [Hlen Heq].
    apply Nat.leb_le in Hlen. apply String.eqb_eq in Heq.
    exists (String.substring 0 (String.length s - String.length suffix) s).
    destruct (substring_drop_bytes (String.length s - String.length suffix) s
                ltac:(lia)) as [H1 _].
    rewrite Heq in H1. exact H1.
  - intros [p ->]. rewrite slength_app. apply andb_true_iff. split.
    + apply Nat.leb_le. lia.
    + replace (String.length p + String.length suffix - String.length suffix)%nat
        with (String.length p) by lia.
      rewrite drop_bytes_app. apply String.eqb_refl.
Qed.

Lemma TrimSuffix_app (p suffix : string) : golib.TrimSuffix (p +:+ suffix) suffix = p.
Proof.
  unfold golib.TrimSuffix.
  assert (H : golib.HasSuffix (p +:+ suffix) suffix = true)
    by (apply HasSuffix_spec; exists p; reflexivity).
  rewrite H, slength_app.
  replace (String.length p + String.length suffix - String.length suffix)%nat
    with (String.length p) by lia.
  apply substring_app.
Qed.

Lemma sapp_inv_tail (a b suffix : string) : a +:+ suffix = b +:+ suffix -> a = b.
Proof.
  intros H. apply (sapp_inv_length _ _ _ _ H).
  apply (f_equal String.length) in H. rewrite !slength_app in H. lia.
Qed.

Lemma ListGroups_loop_elem (entries : list config.DirEntry) (groups : list string)
    (g : string) :
  g ∈ config.ListGroups_loop entries groups <->
  g ∈ groups
  \/ exists entry, entry ∈ entries /\ config.IsDir entry = false
                   /\ config.Name entry = g +:+ ".yaml".
Proof.
  revert groups. induction entries as [|entry rest IH]; intros groups;
    cbn [config.ListGroups_loop].
  - split; [auto|]. intros [H|(entry & H & _)]; [exact H|inversion H].
  - destruct (config.IsDir entry) eqn:Hdir; cbn [negb andb].
    + rewrite IH. split.
      * intros [H|(e & He & H)]; [auto|]. right. exists e. split; [right; exact He|exact H].
      * intros [H|(e & He & Hd & Hn)]; [auto|]. right.
        apply elem_of_cons in He as [->|He]; [congruence|]. exists e. auto.
    + destruct (golib.HasSuffix (config.Name entry) ".yaml") eqn:Hsuf.
      * apply HasSuffix_spec in Hsuf as [p Hp]. rewrite Hp, TrimSuffix_app, IH. split.
        -- intros [H|(e & He & H)].
           ++ apply elem_of_app in H as [H|H]; [auto|].
              apply list_elem_of_singleton in H as ->. right. exists entry.
              split; [left|]. auto.
           ++ right. exists e. split; [right; exact He|exact H].
        -- intros [H|(e & He & Hd & Hn)].
           ++ left. apply elem_of_app. auto.
           ++ apply elem_of_cons in He as [->|He].
              ** left. apply elem_of_app. right. rewrite Hp in Hn.
                 apply sapp_inv_tail in Hn. subst. constructor.
              ** right. exists e. auto.
      * rewrite IH. split.
        -- intros [H|(e & He & H)]; [auto|]. right. exists e.
           split; [right; exact He|exact H].
        -- intros [H|(e & He & Hd & Hn)]; [auto|]. right.
           apply elem_of_cons in He as [->|He]; [|exists e; auto].
           assert (golib.HasSuffix (config.Name entry) ".yaml" = true)
             by (apply HasSuffix_spec; exists g; exact Hn).
           congruence.
Qed.

(** X17. [ListGroups] fails only when the configuration directory cannot be
    read. Otherwise a name is listed exactly when the directory holds an
    entry called <name>.yaml that is not a directory: the files that
    [loadAssigneeGroupConfig] looks for. (A file called just ".yaml" lists
    the group with the empty name.) *)
Theorem ListGroups_lists_yaml_files (entries : list config.DirEntry) :
  exists groups,
    config.ListGroups (inr entries) = (groups, None)
    /\ forall g, g ∈ groups <->
         exists entry, entry ∈ entries /\ config.IsDir entry = false
                       /\ config.Name entry = g +:+ ".yaml".
Proof.
  eexists. split; [reflexivity|]. intros g. rewrite ListGroups_loop_elem.
  split; [intros [H|H]; [inversion H|exact H]|auto].
Qed.

Example ListGroups_example :
  config.ListGroups (inr example_conf_dir)
  = ([EmptyString; "team-alpha"; "team-beta"], None).
Proof. vm_compute. reflexivity. Qed.

Lemma ListGroups_lists_yaml_files_witness :
  exists groups,
    config.ListGroups (inr example_conf_dir) = (groups, None)
    /\ "team-alpha" ∈ groups /\ "archive" ∉ groups.
Proof.
  destruct (ListGroups_lists_yaml_files example_conf_dir) as (groups & H1 & H2).
  exists groups. split; [exact H1|]. split.
  - apply H2. exists {| config.Name := "team-alpha.yaml"; config.IsDir := false |}.
    split; [|split; reflexivity]. unfold example_conf_dir. do 2 right. left.
  - intros Hin. apply H2 in Hin as (entry & He & Hd & Hn).
    unfold example_conf_dir in He.
    repeat (apply elem_of_cons in He as [->|He]); try discriminate; inversion He.
Defined.

(** ** A group without a configuration *)

Lemma run_runner_GetGroupDataDir (group : string) (env : Env) (s : State) :
  runner.GetGroupDataDir group env s =
  match conf_yaml env group with
  | Some (Some _) => config.GetGroupDataDir group env s
  | _ => (Ret (EmptyString, Some (InvalidGroupError group)), s)
  end.
Proof.
  unfold runner.GetGroupDataDir, config.GetGroupDataDir. run.
  destruct (conf_yaml env group) as [[conf|]|]; reflexivity.
Qed.

Lemma run_ResetCounts_unknown (group : string) (env : Env) (s : State) :
  (forall groupConf, conf_yaml env group <> Some (Some groupConf)) ->
  exists inner, runner.ResetCounts group env s = (Ret (Some (ConfigError group inner)), s).
Proof.
  intros Hno. unfold runner.ResetCounts. run.
  destruct (conf_yaml env group) as [[conf|]|]; [|eexists; reflexivity..].
  exfalso. exact (Hno conf eq_refl).
Qed.

(** X18. For a group whose configuration cannot be loaded, [Assign],
    [GetCounts], [ResetCounts] and the runner's [GetGroupDataDir] all fail and
    leave everything as it was: no data directory is made, no file is written,
    nothing is printed. [GetCounts] and [GetGroupDataDir] report an
    InvalidGroupError, [Assign] and [ResetCounts] a ConfigError. The
    [GetGroupDataDir] of package config, which the default storage manager
    calls, has no such check: it makes the directory for any group name. *)
Theorem unknown_group_leaves_no_trace (group : string) (env : Env) (s : State) :
  (forall groupConf, conf_yaml env group <> Some (Some groupConf)) ->
  (forall dryRun,
     exists inner,
       runner.Assign group dryRun env s = (Ret (Some (ConfigError group inner)), s))
  /\ runner.GetCounts group env s = (Ret (None, [], Some (InvalidGroupError group)), s)
  /\ (exists inner,
        runner.ResetCounts group env s = (Ret (Some (ConfigError group inner)), s))
  /\ runner.GetGroupDataDir group env s
     = (Ret (EmptyString, Some (InvalidGroupError group)), s)
  /\ (fails env MkdirAll_dataDir group = false ->
      fst (runner.StorageManager_GetGroupDataDir runner.DefaultStorageManager group env s)
      = Ret (group, None)
      /\ group ∈ data_dirs (snd (runner.StorageManager_GetGroupDataDir
                                  runner.DefaultStorageManager group env s))).
Proof.
  intros Hno. split; [|split; [|split; [|split]]].
  - intros dryRun. rewrite Assign_exits.
    destruct (conf_yaml env group) as [[conf|]|]; [|eexists; reflexivity..].
    exfalso. exact (Hno conf eq_refl).
  - rewrite run_GetCounts.
    destruct (conf_yaml env group) as [[conf|]|]; [|reflexivity..].
    exfalso. exact (Hno conf eq_refl).
  - apply run_ResetCounts_unknown, Hno.
  - rewrite run_runner_GetGroupDataDir.
    destruct (conf_yaml env group) as [[conf|]|]; [|reflexivity..].
    exfalso. exact (Hno conf eq_refl).
  - intros Hmk. cbn [runner.StorageManager_GetGroupDataDir runner.DefaultStorageManager].
    rewrite run_GetGroupDataDir. unfold after_mkdir. rewrite Hmk. cbn [fst snd].
    split; [reflexivity|]. cbn [data_dirs set_data_dirs]. set_solver.
Qed.

Lemma unknown_group_leaves_no_trace_witness :
  runner.GetCounts "nobody" env_always_available fresh_state
  = (Ret (None, [], Some (InvalidGroupError "nobody")), fresh_state)
  /\ runner.GetGroupDataDir "nobody" env_always_available fresh_state
     = (Ret (EmptyString, Some (InvalidGroupError "nobody")), fresh_state)
  /\ "nobody" ∈ data_dirs (snd (runner.StorageManager_GetGroupDataDir
                                 runner.DefaultStorageManager "nobody"
                                 env_always_available fresh_state)).
Proof.
  destruct (unknown_group_leaves_no_trace "nobody" env_always_available fresh_state)
    as (_ & H2 & _ & H4 & H5); [intros groupConf; vm_compute; discriminate|].
  split; [exact H2|]. split; [exact H4|]. apply H5. reflexivity.
Defined.

(** ** The command line *)

Lemma run_ResetCounts (group : string) (env : Env) (s : State) :
  runner.ResetCounts group env s =
  match conf_yaml env group with
  | None =>
      (Ret (Some (ConfigError group
                    (Wrapf "failed to read config file" (LibError "ioutil.ReadFile")))), s)
  | Some None =>
      (Ret (Some (ConfigError group
                    (Wrapf "failed to parse config file" (LibError "yaml.Unmarshal")))), s)
  | Some (Some groupConf) =>
      if fails env MkdirAll_dataDir group
      then (Ret (Some (Wrapf "failed to get group data directory" (LibError "os.MkdirAll"))),
            s)
      else if fails env WriteFile_countsJson group
      then (Ret (Some (Wrapf "failed to write counts file" (LibError "ioutil.WriteFile"))),
            set_data_dirs (fun dirs => {[group]} ∪ dirs) s)
      else (Ret None,
            set_counts_json
              (fun files =>
                 <[group := Some (runner.zero_counts (Users groupConf) ∅)]> files)
              (set_data_dirs (fun dirs => {[group]} ∪ dirs) s))
  end.
Proof.
  unfold runner.ResetCounts. run.
  destruct (conf_yaml env group) as [[conf|]|]; [|reflexivity..].
  run. unfold after_mkdir.
  destruct (fails env MkdirAll_dataDir group); [reflexivity|]. run.
  destruct (fails env WriteFile_countsJson group); reflexivity.
Qed.

(** The lines the show-counts branch prints for the users. *)
Lemma run_print_counts (counts : GoMap) (orderedUsers : list string) (env : Env)
    (s : State) :
  exists s',
    cmd.print_counts counts orderedUsers env s = (Ret tt, s')
    /\ stdout s' = stdout s
         ++ map (fun user => "  " +:+ user +:+ ": " +:+ golib.fmt_d (map_get counts user))
              orderedUsers
    /\ same_files s (set_stdout (fun _ => stdout s) s')
    /\ checked s' = checked s.
Proof.
  revert s. induction orderedUsers as [|user rest IH]; intros s.
  - exists s. cbn [cmd.print_counts map]. rewrite app_nil_r.
    split; [reflexivity|]. repeat split.
  - cbn [cmd.print_counts]. run.
    destruct (IH (set_stdout (fun out => out ++
                    ["  " +:+ user +:+ ": " +:+ golib.fmt_d (map_get counts user)]) s))
      as (s' & Hrun & Hout & (D1 & D2 & D3 & D4 & _) & Hchk).
    exists s'. split; [exact Hrun|].
    split; [rewrite Hout; cbn [stdout set_stdout map]; rewrite <- app_assoc; reflexivity|].
    split; [|exact Hchk]. repeat split; assumption.
Qed.

(** The errors of [Assign], by kind. *)
Lemma Assign_not_InvalidGroupError (group : string) (dryRun : bool) (env : Env)
    (s : State) (g : string) :
  fst (runner.Assign group dryRun env s) <> Ret (Some (InvalidGroupError g)).
Proof.
  intros Hr.
  destruct (Assign_trace group env s)
    as [(r & s0 & Hrun & _ & [->|[->|[[inner ->]| ->]]])
       |(conf & calls & s1 & Hconf & Hne & Hnull & Hrange & Hchk & _ & Hcj & _ & Hout & _ & Hord
         & Hend)];
    try (rewrite Hrun in Hr; discriminate Hr).
  destruct Hend as [(pre & user & -> & Hpre & Hrun)
                   |[(pre & user & ok & e' & -> & Hpre & Hrun)|(_ & _ & Hrun)]];
    [|rewrite Hrun in Hr; discriminate Hr..].
  destruct (commit_returns group dryRun conf (lastIndex_of env s group)
              ((first_candidate env s group conf + Z.of_nat (length pre))
               mod len (Users conf)) user env s1 Hconf
               ltac:(rewrite Hcj; exact Hnull))
    as (r & s' & Hc & _ & _ & He).
  rewrite Hrun, Hc in Hr. injection Hr as ->.
  destruct (He _ eq_refl) as [_ [inner [H|[H|[H|H]]]]]; discriminate H.
Qed.

(** X19. With --show-counts, for a group whose configuration loads and
    lists a user, whose data directory can be made and whose counts.json does
    not hold null, the command prints the header "Assignment counts for group
    <group>:" and then one line "  <user>: <count>" for every configured user,
    in the order of the configuration, with the count [readCounts] gives (zero
    for a user never assigned). Users that are in counts.json but not in the
    configuration are not shown. index.log, counts.json and assignments.log
    are not changed. With a counts.json that holds null the command stops in
    the panic "assignment to entry in nil map" and prints nothing. *)
Theorem show_counts_output (flags : cmd.Flags) (group : string) (env : Env) (s : State)
    (groupConf : AssigneeGroupConfig) :
  cmd.showCounts flags = true ->
  conf_yaml env group = Some (Some groupConf) -> Users groupConf <> [] ->
  fails env MkdirAll_dataDir group = false ->
  (counts_json s !! group <> Some None ->
   exists counts s',
    fst (runner.readCounts group env s) = Ret (Some counts)
    /\ cmd.RunE_group flags [group] env s = (Ret None, s')
    /\ stdout s' = stdout s
         ++ ("Assignment counts for group " +:+ group +:+ ":")
            :: map (fun user => "  " +:+ user +:+ ": "
                                +:+ golib.fmt_d (default 0 (counts !! user)))
                 (Users groupConf)
    /\ index_log s' = index_log s /\ counts_json s' = counts_json s
    /\ assignments_log s' = assignments_log s)
  /\ (counts_json s !! group = Some None ->
      fst (cmd.RunE_group flags [group] env s) = Panic "assignment to entry in nil map"
      /\ stdout (snd (cmd.RunE_group flags [group] env s)) = stdout s).
Proof.
  intros Hflag Hconf Hne Hmk. split.
  2: { intros Hnull. unfold cmd.RunE_group. rewrite Hflag.
       unfold runner.at_index. change (index [group] 0) with (Some group).
       run. rewrite run_GetCounts, Hconf.
       rewrite (readCounts_outcome_members env s group groupConf Hconf Hne), Hmk, Hnull.
       split; [reflexivity|]. cbn [snd]. unfold after_mkdir. rewrite Hmk. reflexivity. }
  intros Hnull. exists (counts_of env s group).
  unfold cmd.RunE_group. rewrite Hflag.
  unfold runner.at_index. change (index [group] 0) with (Some group).
  run. rewrite run_GetCounts, Hconf.
  rewrite (readCounts_outcome_counts env s group (not_null_counts env s group Hnull)).
  cbn [map_len default from_option id].
  rewrite (counts_of_nonempty env s group groupConf Hconf Hne Hmk). run.
  destruct (run_print_counts
              (Some (with_zeros (Users groupConf) (counts_of env s group)))
              (Users groupConf) env
              (set_stdout (fun out => out ++ ["Assignment counts for group " +:+ group +:+ ":"])
                 (after_mkdir env group s)))
    as (s' & Hrun & Hout & (_ & D2 & D3 & D4 & _) & _).
  exists s'. rewrite Hrun. run. split; [reflexivity|]. split; [reflexivity|].
  assert (Hq : quiet s (after_mkdir env group s)) by apply quiet_after_mkdir.
  destruct Hq as (Q1 & Q2 & Q3 & Q4 & _).
  cbn [index_log counts_json assignments_log stdout set_stdout] in *.
  split.
  - rewrite Hout, Q4, <- app_assoc. cbn [app]. do 2 f_equal.
    apply map_ext. intros user. do 3 f_equal.
    unfold map_get. rewrite with_zeros_lookup.
    unfold counts_of. rewrite Hmk, Hconf. rewrite with_zeros_lookup.
    destruct (stored_counts s group !! user); [reflexivity|].
    destruct (decide (user ∈ Users groupConf)); reflexivity.
  - repeat split; congruence.
Qed.

Lemma show_counts_output_witness :
  (exists s',
     cmd.RunE_group
       {| cmd.dryRun := false; cmd.showCounts := true; cmd.resetCounts := false;
          cmd.configFile := "config.json"; cmd.listGroups := false;
          cmd.showVersion := false |}
       ["team"] env_always_available
       (state_with_counts {[ "bob" := 12; "zoe" := 9 ]}) = (Ret None, s')
     /\ stdout s' = ["Assignment counts for group team:";
                     "  alice: 0"; "  bob: 12"; "  charlie: 0"])
  /\ fst (cmd.RunE_group
            {| cmd.dryRun := false; cmd.showCounts := true; cmd.resetCounts := false;
               cmd.configFile := "config.json"; cmd.listGroups := false;
               cmd.showVersion := false |}
            ["team"] env_always_available state_with_null_counts)
     = Panic "assignment to entry in nil map".
Proof.
  split.
  - destruct (show_counts_output
                {| cmd.dryRun := false; cmd.showCounts := true; cmd.resetCounts := false;
                   cmd.configFile := "config.json"; cmd.listGroups := false;
                   cmd.showVersion := false |}
                "team" env_always_available
                (state_with_counts {[ "bob" := 12; "zoe" := 9 ]})
                (team_conf "round_robin" "always_available")
                eq_refl eq_refl ltac:(discriminate) eq_refl)
      as [H _].
    destruct H as (counts & s' & H1 & H2 & H3 & _); [discriminate|].
    exists s'. split; [exact H2|]. rewrite H3.
    rewrite run_readCounts in H1. injection H1 as <-. vm_compute. reflexivity.
  - destruct (show_counts_output
                {| cmd.dryRun := false; cmd.showCounts := true; cmd.resetCounts := false;
                   cmd.configFile := "config.json"; cmd.listGroups := false;
                   cmd.showVersion := false |}
                "team" env_always_available state_with_null_counts
                (team_conf "round_robin" "always_available")
                eq_refl eq_refl ltac:(discriminate) eq_refl)
      as [_ H].
    apply H. reflexivity.
Defined.

(** X20. What the command reports for a group whose configuration cannot be
    loaded depends on the flag: with --show-counts it is "group <group> does
    not exist", a line feed and "Use --list-groups to see available groups";
    with --reset-counts it is "failed to reset counts" around a ConfigError,
    and for an assignment "configuration error" around a ConfigError. The hint
    about --list-groups is given by --show-counts alone: [ResetCounts] and
    [Assign] never return the InvalidGroupError their branches test for. *)
Theorem RunE_group_unknown_group (flags : cmd.Flags) (group : string) (env : Env)
    (s : State) :
  ((forall groupConf, conf_yaml env group <> Some (Some groupConf)) ->
   (cmd.showCounts flags = true ->
    cmd.RunE_group flags [group] env s
    = (Ret (Some (Errorf (("group " +:+ group +:+ " does not exist") +:+ golib.LF
                          +:+ "Use --list-groups to see available groups"))), s))
   /\ (cmd.showCounts flags = false -> cmd.resetCounts flags = true ->
       exists inner,
         cmd.RunE_group flags [group] env s
         = (Ret (Some (Wrapf "failed to reset counts" (ConfigError group inner))), s))
   /\ (cmd.showCounts flags = false -> cmd.resetCounts flags = false ->
       exists inner,
         cmd.RunE_group flags [group] env s
         = (Ret (Some (Wrapf "configuration error" (ConfigError group inner))), s)))
  /\ (cmd.showCounts flags = false ->
      forall g, fst (cmd.RunE_group flags [group] env s)
                <> Ret (Some (cmd.list_groups_hint g))).
Proof.
  split.
  - intros Hno. split; [|split].
    + intros Hflag. unfold cmd.RunE_group. rewrite Hflag.
      unfold runner.at_index. change (index [group] 0) with (Some group).
      run. rewrite run_GetCounts.
      destruct (conf_yaml env group) as [[conf|]|]; [|reflexivity..].
      exfalso. exact (Hno conf eq_refl).
    + intros Hflag Hreset. unfold cmd.RunE_group. rewrite Hflag, Hreset.
      unfold runner.at_index. change (index [group] 0) with (Some group).
      run. destruct (run_ResetCounts_unknown group env s Hno) as [inner ->].
      exists inner. reflexivity.
    + intros Hflag Hreset. unfold cmd.RunE_group. rewrite Hflag, Hreset.
      unfold runner.at_index. change (index [group] 0) with (Some group).
      run. rewrite Assign_exits.
      destruct (conf_yaml env group) as [[conf|]|]; [|eexists; reflexivity..].
      exfalso. exact (Hno conf eq_refl).
  - intros Hflag g. unfold cmd.RunE_group. rewrite Hflag.
    unfold runner.at_index. change (index [group] 0) with (Some group). run.
    destruct (cmd.resetCounts flags).
    + rewrite run_bind, run_ResetCounts.
      destruct (conf_yaml env group) as [[conf|]|]; [|discriminate..].
      destruct (fails env MkdirAll_dataDir group); [discriminate|].
      destruct (fails env WriteFile_countsJson group); discriminate.
    + rewrite run_bind.
      pose proof (Assign_not_InvalidGroupError group (cmd.dryRun flags) env s) as Hn.
      destruct (runner.Assign group (cmd.dryRun flags) env s) as [[[e|]|msg] s'];
        [|discriminate..].
      destruct e; try discriminate. exfalso. exact (Hn _ eq_refl).
Qed.

Lemma RunE_group_unknown_group_witness :
  fst (cmd.RunE_group
         {| cmd.dryRun := false; cmd.showCounts := true; cmd.resetCounts := false;
            cmd.configFile := "config.json"; cmd.listGroups := false;
            cmd.showVersion := false |}
         ["team-alpa"] env_always_available fresh_state)
  = Ret (Some (Errorf ("group team-alpa does not exist" +:+ golib.LF
                       +:+ "Use --list-groups to see available groups")))
  /\ exists inner,
       fst (cmd.RunE_group
              {| cmd.dryRun := false; cmd.showCounts := false; cmd.resetCounts := false;
                 cmd.configFile := "config.json"; cmd.listGroups := false;
                 cmd.showVersion := false |}
              ["team-alpa"] env_always_available fresh_state)
       = Ret (Some (Wrapf "configuration error" (ConfigError "team-alpa" inner))).
Proof.
  destruct (RunE_group_unknown_group
              {| cmd.dryRun := false; cmd.showCounts := true; cmd.resetCounts := false;
                 cmd.configFile := "config.json"; cmd.listGroups := false;
                 cmd.showVersion := false |}
              "team-alpa" env_always_available fresh_state) as [H1 _].
  destruct (RunE_group_unknown_group
              {| cmd.dryRun := false; cmd.showCounts := false; cmd.resetCounts := false;
                 cmd.configFile := "config.json"; cmd.listGroups := false;
                 cmd.showVersion := false |}
              "team-alpa" env_always_available fresh_state) as [H2 _].
  assert (Hno : forall groupConf,
            conf_yaml env_always_available "team-alpa" <> Some (Some groupConf))
    by (intros groupConf; vm_compute; discriminate).
  destruct (H1 Hno) as (H1' & _). destruct (H2 Hno) as (_ & _ & H2').
  split.
  - rewrite (H1' eq_refl). reflexivity.
  - destruct (H2' eq_refl eq_refl) as [inner ->]. exists inner. reflexivity.
Defined.

(** ** The logs are only ever added to *)

(** How a run changes one of its maps of files: not at all, or by writing
    behind what the file of [group] held. *)
Lemma history_kept_intro (group : string) (s s' : State) :
  (index_log s' = index_log s
   \/ exists more, index_log s'
                   = <[group := default EmptyString (index_log s !! group) +:+ more]>
                       (index_log s)) ->
  (assignments_log s' = assignments_log s
   \/ exists more, assignments_log s'
                   = <[group := default [] (assignments_log s !! group) ++ more]>
                       (assignments_log s)) ->
  history_kept group s s'.
Proof.
  intros Hi Ha. split.
  - intros data Hg. destruct Hi as [->|[more ->]].
    + exists EmptyString. rewrite sapp_nil_r. exact Hg.
    + rewrite lookup_insert_eq, Hg. eexists; reflexivity.
  - intros entries Hg. destruct Ha as [->|[more ->]].
    + exists []. rewrite app_nil_r. exact Hg.
    + rewrite lookup_insert_eq, Hg. eexists; reflexivity.
Qed.

Lemma history_kept_same (group : string) (s s1 s' : State) :
  index_log s1 = index_log s -> assignments_log s1 = assignments_log s ->
  history_kept group s1 s' -> history_kept group s s'.
Proof.
  unfold history_kept. intros -> ->. auto.
Qed.

Ltac kept_leaf :=
  apply history_kept_intro;
  cbn [index_log counts_json assignments_log set_stdout set_data_dirs set_clock
       set_index_log set_assignments_log set_counts_json set_checked
       after_writeLastIndex after_incrementCount after_logAssignment];
  first
    [ left; reflexivity
    | right; eexists; reflexivity
    | right; exists EmptyString; rewrite sapp_nil_r; reflexivity
    | right; exists []; rewrite app_nil_r; reflexivity ].

(** A commit keeps the history, whichever of its writes fail. *)
Lemma commit_keeps_history (group : string) (dryRun : bool)
    (groupConf : AssigneeGroupConfig) (lastIndex nextIndex : Z) (user : string)
    (env : Env) (s : State) :
  conf_yaml env group = Some (Some groupConf) ->
  counts_json s !! group <> Some None ->
  history_kept group s
    (snd (commit group dryRun groupConf lastIndex nextIndex user env s)).
Proof.
  intros Hconf Hnull. destruct dryRun.
  { rewrite run_commit_dry. cbn [snd]. kept_leaf. }
  unfold commit. run. rewrite run_writeLastIndex.
  destruct (fails env MkdirAll_dataDir group) eqn:Hmk; [cbn [snd]; kept_leaf|].
  destruct (fails env Open_indexLog group) eqn:Hoi; [cbn [snd]; kept_leaf|].
  destruct (fails env Write_indexLog group) eqn:Hwi; [cbn [snd]; kept_leaf|].
  run. rewrite run_incrementCount by exact Hnull. rewrite Hmk.
  destruct (fails env WriteFile_countsJson group) eqn:Hwc; [cbn [snd]; kept_leaf|].
  run.
  rewrite readCounts_outcome_counts
    by (apply not_null_counts, not_null_after_incrementCount).
  cbn [map_len]. cbv iota.
  rewrite counts_of_after_incrementCount by exact Hmk. run.
  rewrite run_logAssignment, Hconf, Hmk. unfold after_mkdir. rewrite Hmk.
  destruct (fails env Open_assignmentsLog group) eqn:Hoa; [cbn [snd]; kept_leaf|].
  destruct (fails env Write_assignmentsLog group) eqn:Hwa; [cbn [snd]; kept_leaf|].
  run. cbn [snd]. kept_leaf.
Qed.

(** X21. A run of [Assign] only ever adds to the group's logs. Whatever the
    group's index.log and assignments.log hold before the run they still hold
    after it, at the same place, with at most more text or entries behind;
    this holds for every run, also one that fails halfway or panics. *)
Theorem Assign_keeps_history (group : string) (dryRun : bool) (env : Env) (s : State) :
  (forall data, index_log s !! group = Some data ->
     exists more,
       index_log (snd (runner.Assign group dryRun env s)) !! group
       = Some (data +:+ more))
  /\ (forall entries, assignments_log s !! group = Some entries ->
        exists more,
          assignments_log (snd (runner.Assign group dryRun env s)) !! group
          = Some (entries ++ more)).
Proof.
  change (history_kept group s (snd (runner.Assign group dryRun env s))).
  destruct (Assign_trace group env s)
    as [(r & s0 & Hrun & (Q1 & Q2 & Q3 & _) & _)
       |(conf & calls & s1 & Hconf & Hne & Hnull & Hrange & Hchk & F1 & F2 & F3 & _ & _ & _
         & Hend)].
  { rewrite Hrun. cbn [snd]. apply history_kept_intro; auto. }
  destruct Hend as [(pre & user & _ & _ & Hrun)
                   |[(pre & user & ok & e & _ & _ & Hrun)|(_ & _ & Hrun)]];
    rewrite Hrun.
  - apply (history_kept_same group s s1 _ F1 F3).
    apply commit_keeps_history; [exact Hconf|rewrite F2; exact Hnull].
  - cbn [snd]. apply history_kept_intro; auto.
  - cbn [snd]. apply history_kept_intro; auto.
Qed.

Lemma Assign_keeps_history_witness :
  exists more,
    index_log (snd (runner.Assign "team" false env_always_available
                      (state_with_index one_line_index))) !! "team"
    = Some (one_line_index +:+ more).
Proof.
  destruct (Assign_keeps_history "team" false env_always_available
              (state_with_index one_line_index)) as [H _].
  apply (H one_line_index). reflexivity.
Defined.

(** ** From one run to the next *)

(** A run that is not a dry run and returns nil has committed a member. *)
Lemma Assign_committed (group : string) (env : Env) (s : State) :
  fst (runner.Assign group false env s) = Ret None ->
  exists groupConf user nextIndex s1,
    conf_yaml env group = Some (Some groupConf)
    /\ index (Users groupConf) nextIndex = Some user
    /\ (forall c, fails env c group = false)
    /\ index_log s1 = index_log s /\ counts_json s1 = counts_json s
    /\ assignments_log s1 = assignments_log s /\ stdout s1 = stdout s
    /\ runner.Assign group false env s
       = (Ret None,
          after_commit env group groupConf (lastIndex_of env s group) nextIndex user s1).
Proof.
  intros Hnil.
  destruct (Assign_trace group env s)
    as [(r & s0 & Hrun & _ & [->|[->|[[inner ->]| ->]]])
       |(conf & calls & s1 & Hconf & Hne & Hnull & Hrange & Hchk & F1 & F2 & F3 & F4 & _ & Hord
         & Hend)];
    try (rewrite Hrun in Hnil; discriminate Hnil).
  destruct Hend as [(pre & user & -> & Hpre & Hrun)
                   |[(pre & user & ok & e & _ & _ & Hrun)|(_ & _ & Hrun)]];
    [|rewrite Hrun in Hnil; discriminate Hnil..].
  destruct (commit_cases group conf (lastIndex_of env s group)
              ((first_candidate env s group conf + Z.of_nat (length pre))
               mod len (Users conf)) user env s1 Hconf
               ltac:(rewrite F2; exact Hnull))
    as [[Hok Hc]|[_ (e & s' & Hc & _)]];
    [|rewrite Hrun, Hc in Hnil; discriminate Hnil].
  eexists conf, user, _, s1. split; [exact Hconf|].
  split; [exact (Hord (length pre) (user, (true, None))
                   (list_lookup_middle _ _ _ _ eq_refl))|].
  split; [exact Hok|]. do 4 (split; [assumption|]).
  rewrite Hrun. exact Hc.
Qed.

(** X22. The position is persisted with the assignment, whatever the
    strategy and the checker. When a run of [Assign] that is not a dry run
    returns nil, the timestamps hold neither a line feed nor "--", the
    list of users is no longer than a slice can be and index.log was missing,
    empty or ended in a line feed, then
    [readLastIndex] afterwards returns the index, among the configured users,
    of the member the run has printed; and index.log again ends in a line
    feed. *)
Theorem Assign_persists_position (group : string) (env : Env) (s : State) :
  fst (runner.Assign group false env s) = Ret None ->
  (forall n, timestamp_ok (now_RFC3339 env n)) ->
  slice_ok (members env group) ->
  (forall data, index_log s !! group = Some data -> complete_lines data) ->
  exists nextIndex user,
    index (members env group) nextIndex = Some user
    /\ stdout (snd (runner.Assign group false env s)) = stdout s ++ [user]
    /\ fst (runner.readLastIndex group env (snd (runner.Assign group false env s)))
       = Ret nextIndex
    /\ (forall data,
          index_log (snd (runner.Assign group false env s)) !! group = Some data ->
          complete_lines data).
Proof.
  intros Hnil Hts Hslice Hfile.
  destruct (Assign_committed group env s Hnil)
    as (conf & user & nextIndex & s1 & Hconf & Hidx & Hok & F1 & F2 & F3 & F4 & Hrun).
  destruct (after_commit_fields env group conf (lastIndex_of env s group) nextIndex
              user s1 Hconf Hok) as (A1 & _ & A3 & _).
  unfold members in *. rewrite Hconf in *.
  exists nextIndex, user. rewrite Hrun. cbn [snd].
  split; [exact Hidx|]. split; [rewrite A1, F4; reflexivity|].
  assert (Hnew : index_log (after_commit env group conf (lastIndex_of env s group)
                              nextIndex user s1) !! group
                 = Some (default EmptyString (index_log s !! group)
                         +:+ now_RFC3339 env (clock s1) +:+ " -- "
                         +:+ golib.fmt_d nextIndex +:+ golib.LF)).
  { rewrite A3, lookup_insert_eq, F1. reflexivity. }
  split.
  - rewrite run_readLastIndex. cbn [fst]. f_equal. unfold lastIndex_of at 1.
    rewrite Hok, Hnew. apply written_line_read_back; [|apply Hts|].
    + apply index_inv in Hidx. unfold slice_ok in Hslice.
      unfold is_int, min_int, max_int, int_bits in *.
      change (2 ^ (64 - 1)) with 9223372036854775808 in *. lia.
    + destruct (index_log s !! group) as [data|]; [apply Hfile; reflexivity|].
      left. reflexivity.
  - intros data. rewrite Hnew. intros [= <-]. right.
    exists (default EmptyString (index_log s !! group)
            +:+ now_RFC3339 env (clock s1) +:+ " -- " +:+ golib.fmt_d nextIndex).
    rewrite ?sapp_assoc. reflexivity.
Qed.

Lemma Assign_persists_position_witness :
  stdout (snd (runner.Assign "team" false env_only_bob_out
                 (state_with_counts {[ "alice" := 2; "bob" := 1; "charlie" := 2 ]})))
  = ["charlie"]
  /\ fst (runner.readLastIndex "team" env_only_bob_out
            (snd (runner.Assign "team" false env_only_bob_out
                    (state_with_counts {[ "alice" := 2; "bob" := 1; "charlie" := 2 ]}))))
     = Ret 2.
Proof.
  destruct (Assign_persists_position "team" env_only_bob_out
              (state_with_counts {[ "alice" := 2; "bob" := 1; "charlie" := 2 ]}))
    as (nextIndex & user & H1 & H2 & H3 & _).
  - vm_compute. reflexivity.
  - intros n. split; apply Cut_None; vm_compute; reflexivity.
  - unfold slice_ok. vm_compute. discriminate.
  - intros data H. discriminate H.
  - assert (Hout : stdout (snd (runner.Assign "team" false env_only_bob_out
                       (state_with_counts {[ "alice" := 2; "bob" := 1; "charlie" := 2 ]})))
                   = ["charlie"]) by (vm_compute; reflexivity).
    split; [exact Hout|]. rewrite H3. f_equal.
    rewrite Hout in H2. injection H2 as <-.
    apply index_inv in H1 as Hr. change (len _) with 3 in Hr.
    assert (Hcases : nextIndex = 0 \/ nextIndex = 1 \/ nextIndex = 2) by lia.
    destruct Hcases as [->|[->| ->]]; [discriminate H1|discriminate H1|reflexivity].
Defined.

(** ** least_assigned over consecutive runs *)






